(** * Spatial Explorer parsers: format detection and schema normalisation

    A shallow embedding of the Python parsers under [parsers/] (cosmx.py,
    merscope.py, xenium.py, visium.py, visium_hd.py, universal.py) and the
    properties their specification states about them.

    Conventions of the embedding.
    - Python [str] values are [string]s; the helpers of [Text] follow the
      behaviour of the Python methods on ASCII text.
    - A pandas [DataFrame] is a [frame]: row labels plus named columns of
      [cell]s; a cell is missing ([NA]), numeric ([Num], a rational standing
      for the float or integer pandas holds) or text ([Str]).
    - A Python [dict] with string keys is a [gmap string _].
    - Everything the parsers obtain from outside (file readers, number
      parsing and printing, optional libraries) is a field of the class
      [Externals]; the directory tree is a [node].
    - A function that can raise returns a [result]: [Ok v log] carries the
      value and the advisories logged on the way, [Err e] the exception. *)

From Stdlib Require Import String Ascii List ZArith QArith Qabs Lia Bool OrdersEx Sorted.
From stdpp Require Import gmap strings.
Import ListNotations.
Open Scope string_scope.
#[local] Set Warnings "-register-all".

(** ** Python string methods *)

Module Text.

Definition is_upper (a : ascii) : bool :=
  let n := nat_of_ascii a in Nat.leb 65 n && Nat.leb n 90.

Definition lower_ascii (a : ascii) : ascii :=
  if is_upper a then ascii_of_nat (nat_of_ascii a + 32) else a.

(** [s.lower()] *)
Fixpoint lower (s : string) : string :=
  match s with
  | EmptyString => EmptyString
  | String a s' => String (lower_ascii a) (lower s')
  end.

(** [c.isspace()]: tab, line feed, vertical tab, form feed, carriage return,
    the four separators 0x1c-0x1f and the blank. *)
Definition isspace (a : ascii) : bool :=
  let n := nat_of_ascii a in
  (Nat.leb 9 n && Nat.leb n 13) || (Nat.leb 28 n && Nat.leb n 32).

Definition isdigit (a : ascii) : bool :=
  let n := nat_of_ascii a in Nat.leb 48 n && Nat.leb n 57.

Definition digit_value (a : ascii) : Z := Z.of_nat (nat_of_ascii a - 48).

Fixpoint lstrip (s : string) : string :=
  match s with
  | EmptyString => EmptyString
  | String a s' => if isspace a then lstrip s' else s
  end.

Fixpoint rstrip (s : string) : string :=
  match s with
  | EmptyString => EmptyString
  | String a s' =>
      match rstrip s' with
      | EmptyString => if isspace a then EmptyString else String a EmptyString
      | r => String a r
      end
  end.

(** [s.strip()] *)
Definition strip (s : string) : string := lstrip (rstrip s).

(** [s.rstrip(c)] for a single character [c] *)
Fixpoint rstrip_char (c : ascii) (s : string) : string :=
  match s with
  | EmptyString => EmptyString
  | String a s' =>
      match rstrip_char c s' with
      | EmptyString => if Ascii.eqb a c then EmptyString else String a EmptyString
      | r => String a r
      end
  end.

(** [s.startswith(p)] *)
Fixpoint startswith (p s : string) : bool :=
  match p, s with
  | EmptyString, _ => true
  | String _ _, EmptyString => false
  | String a p', String b s' => Ascii.eqb a b && startswith p' s'
  end.

(** [sub in s] *)
Fixpoint contains (sub s : string) : bool :=
  startswith sub s ||
  match s with
  | EmptyString => false
  | String _ s' => contains sub s'
  end.

(** [s.endswith(suf)] *)
Fixpoint endswith (suf s : string) : bool :=
  String.eqb suf s ||
  match s with
  | EmptyString => false
  | String _ s' => endswith suf s'
  end.

Definition endswith_any (sufs : list string) (s : string) : bool :=
  existsb (fun suf => endswith suf s) sufs.

(** [x in xs] for a list or set of strings *)
Definition mem (x : string) (xs : list string) : bool :=
  existsb (String.eqb x) xs.

(** [bool(a & b)] for two sets of strings *)
Definition intersects (a b : list string) : bool :=
  existsb (fun x => mem x b) a.

(** [sep.join(parts)] *)
Fixpoint join (sep : string) (parts : list string) : string :=
  match parts with
  | [] => EmptyString
  | [p] => p
  | p :: ps => p ++ sep ++ join sep ps
  end.

(** [s.split(c)] for a single separator character: never empty. *)
Fixpoint split_char (c : ascii) (s : string) : list string :=
  match s with
  | EmptyString => [EmptyString]
  | String a s' =>
      if Ascii.eqb a c then EmptyString :: split_char c s'
      else match split_char c s' with
           | [] => [String a EmptyString]
           | w :: ws => String a w :: ws
           end
  end.

(** [s.split()]: the maximal runs of non-blank characters. *)
Fixpoint split_ws_aux (cur : string) (s : string) : list string :=
  match s with
  | EmptyString => if String.eqb cur EmptyString then [] else [cur]
  | String a s' =>
      if isspace a
      then (if String.eqb cur EmptyString then split_ws_aux EmptyString s'
            else cur :: split_ws_aux EmptyString s')
      else split_ws_aux (cur ++ String a EmptyString) s'
  end.

Definition split_ws (s : string) : list string := split_ws_aux EmptyString s.

(** [str(n)] for an integer. *)
Definition digit_char (d : Z) : ascii := ascii_of_nat (48 + Z.to_nat d).

Fixpoint str_pos_aux (fuel : nat) (n : Z) (acc : string) : string :=
  match fuel with
  | O => acc
  | S fuel' =>
      let acc' := String (digit_char (n mod 10)) acc in
      if (n / 10 =? 0)%Z then acc' else str_pos_aux fuel' (n / 10) acc'
  end.

Definition str_of_Z (n : Z) : string :=
  if (n <? 0)%Z
  then String "-" (str_pos_aux (S (Z.to_nat (Z.log2 (- n)))) (- n) EmptyString)
  else str_pos_aux (S (Z.to_nat (Z.log2 n))) n EmptyString.

(** Insertion sort of strings in code-point order, as [sorted] does. *)
Fixpoint insert_by {A} (key : A -> string) (x : A) (l : list A) : list A :=
  match l with
  | [] => [x]
  | y :: l' =>
      if String.ltb (key x) (key y) then x :: l
      else y :: insert_by key x l'
  end.

(** A stable sort: an element equal to one already placed goes after it. *)
Definition sort_by {A} (key : A -> string) (l : list A) : list A :=
  fold_left (fun acc x => insert_by key x acc) l [].

End Text.

(** ** The column resolver

    Every parser file carries an identical copy of [_lower_map_columns] and
    [_first_present]; they are embedded once. *)

Module Columns.

(** [_lower_map_columns(df)], on [df.columns]:
    [[
    m = {}
    for c in df.columns:
        l = str(c).strip().lower()
        if l not in m:
            m[l] = c
    ]] *)
Definition lower_map_step (m : gmap string string) (c : string) : gmap string string :=
  let l := Text.lower (Text.strip c) in
  match m !! l with
  | Some _ => m
  | None => <[l := c]> m
  end.

Definition _lower_map_columns (columns : list string) : gmap string string :=
  fold_left lower_map_step columns ∅.

(** [_first_present(colmap, candidates)] *)
Fixpoint _first_present (colmap : gmap string string) (candidates : list string)
  : option string :=
  match candidates with
  | [] => None
  | c :: cs =>
      match colmap !! c with
      | Some v => Some v
      | None => _first_present colmap cs
      end
  end.

(** The resolver as the loaders use it: build the map, then look up. *)
Definition resolve (columns candidates : list string) : option string :=
  _first_present (_lower_map_columns columns) candidates.

(** The resolver in the words of the specification: the first alias, in the
    caller's order, that some column matches once lowered and trimmed; the
    answer is the first such column in table order. *)
Definition matches (alias c : string) : bool :=
  String.eqb (Text.lower (Text.strip c)) alias.

Definition resolve_spec (columns candidates : list string) : option string :=
  match List.find (fun a => existsb (matches a) columns) candidates with
  | Some a => List.find (matches a) columns
  | None => None
  end.

End Columns.

(** ** Tables *)

Module Frames.

(** One value of a table: missing, a number or a text. *)
Inductive cell :=
| NA
| Num (q : Q)
| Str (s : string).

(** A [DataFrame]: the name of the row index, the row labels and the columns
    in order. [df.columns] may repeat a label; [df[c]] is taken at its first
    occurrence. *)
Record frame := {
  index_name : option string;
  index : list cell;
  columns : list (string * list cell)
}.

Definition column_names (df : frame) : list string := map fst (columns df).

(** [len(df)] *)
Definition nrows (df : frame) : nat := length (index df).

(** [df.shape[1]] *)
Definition ncols (df : frame) : nat := length (columns df).

(** [df.empty] *)
Definition is_empty (df : frame) : bool :=
  Nat.eqb (nrows df) 0 || Nat.eqb (ncols df) 0.

(** [RangeIndex(n)] *)
Definition range_index (n : nat) : list cell :=
  map (fun i => Num (inject_Z (Z.of_nat i))) (seq 0 n).

(** [pd.DataFrame()] *)
Definition empty_frame : frame :=
  {| index_name := None; index := []; columns := [] |}.

(** [pd.DataFrame({c: pd.Series(dtype="object") for c in cols})] *)
Definition empty_with_columns (cols : list string) : frame :=
  {| index_name := None; index := []; columns := map (fun c => (c, [])) cols |}.

Fixpoint assoc {A} (k : string) (l : list (string * A)) : option A :=
  match l with
  | [] => None
  | (k', v) :: l' => if String.eqb k k' then Some v else assoc k l'
  end.

(** [c in df.columns] *)
Definition has_column (df : frame) (c : string) : bool :=
  Text.mem c (column_names df).

(** [df[c]] for a label the caller took from [df.columns]. *)
Definition get_col (df : frame) (c : string) : list cell :=
  match assoc c (columns df) with
  | Some v => v
  | None => []
  end.

Fixpoint replace_col (c : string) (v : list cell) (l : list (string * list cell))
  : list (string * list cell) :=
  match l with
  | [] => [(c, v)]
  | (k, w) :: l' => if String.eqb c k then (k, v) :: l' else (k, w) :: replace_col c v l'
  end.

(** [df[c] = v] *)
Definition set_col (df : frame) (c : string) (v : list cell) : frame :=
  {| index_name := index_name df; index := index df;
     columns := replace_col c v (columns df) |}.

(** A scalar given for a column is repeated over the rows. *)
Definition broadcast (n : nat) (c : cell) : list cell := repeat c n.

(** [_standardize_columns(df)]: [df.columns = [str(c).strip() ...]] *)
Definition _standardize_columns (df : frame) : frame :=
  {| index_name := index_name df; index := index df;
     columns := map (fun kv => (Text.strip (fst kv), snd kv)) (columns df) |}.

Definition isna (c : cell) : bool :=
  match c with NA => true | _ => false end.

(** [s.isna().any()] *)
Definition any_na (col : list cell) : bool := existsb isna col.

(** [int(s.isna().sum())] *)
Definition count_na (col : list cell) : nat := length (List.filter isna col).

(** [int(df[[a, b]].isna().any(axis=1).sum())] *)
Definition count_na_rows (a b : list cell) : nat :=
  length (List.filter (fun p => isna (fst p) || isna (snd p)) (combine a b)).

(** [df.set_index(c)] *)
Definition set_index (df : frame) (c : string) : frame :=
  {| index_name := Some c; index := get_col df c;
     columns := List.filter (fun kv => negb (String.eqb (fst kv) c)) (columns df) |}.

Definition nth_cell (i : nat) (col : list cell) : cell := nth i col NA.

Fixpoint sum_Q (l : list Q) : Q :=
  match l with
  | [] => 0%Q
  | q :: l' => (q + sum_Q l')%Q
  end.

(** Sorted list of the distinct strings of a list, as the labels of a
    group-by come out. *)
Fixpoint insert_uniq (x : string) (l : list string) : list string :=
  match l with
  | [] => [x]
  | y :: l' =>
      match String.compare x y with
      | Lt => x :: l
      | Eq => l
      | Gt => y :: insert_uniq x l'
      end
  end.

Definition sort_uniq (l : list string) : list string :=
  fold_right insert_uniq [] l.

End Frames.

(** ** The outside world: directory tree, errors, advisories, readers *)

Module World.

Import Frames.

(** A path is the list of its components below the root of the tree. *)
Definition Path := list string.

Inductive node :=
| File
| Dir (children : list (string * node)).

Fixpoint child (name : string) (l : list (string * node)) : option node :=
  match l with
  | [] => None
  | (k, n) :: l' => if String.eqb name k then Some n else child name l'
  end.

Fixpoint node_at (fs : node) (p : Path) : option node :=
  match p with
  | [] => Some fs
  | c :: p' =>
      match fs with
      | File => None
      | Dir l => match child c l with
                 | Some n => node_at n p'
                 | None => None
                 end
      end
  end.

(** [p.exists()], [p.is_dir()], [p.is_file()] *)
Definition exists_ (fs : node) (p : Path) : bool :=
  match node_at fs p with Some _ => true | None => false end.

Definition is_dir (fs : node) (p : Path) : bool :=
  match node_at fs p with Some (Dir _) => true | _ => false end.

Definition is_file (fs : node) (p : Path) : bool :=
  match node_at fs p with Some File => true | _ => false end.

(** [p / name] *)
Definition join (p : Path) (name : string) : Path := (p ++ [name])%list.

(** [p.name] and [p.parent] *)
Definition name (p : Path) : string := List.last p EmptyString.
Definition parent (p : Path) : Path := List.removelast p.

(** [str(p)] *)
Definition str_of_path (p : Path) : string :=
  String "/" (Text.join "/" p).

(** [list(p.iterdir())], in the order the system lists the directory;
    [None] when [p] is not a directory (the call raises). *)
Definition iterdir (fs : node) (p : Path) : option (list Path) :=
  match node_at fs p with
  | Some (Dir l) => Some (map (fun kv => join p (fst kv)) l)
  | _ => None
  end.

(** [list(p.glob("*" + suffix))]: the entries whose name ends in [suffix]. *)
Definition glob_suffix (fs : node) (p : Path) (suffix : string) : list Path :=
  match iterdir fs p with
  | Some l => List.filter (fun c => Text.endswith suffix (name c)) l
  | None => []
  end.

Definition path_eqb (p q : Path) : bool :=
  Nat.eqb (length p) (length q) &&
  forallb (fun ab => String.eqb (fst ab) (snd ab)) (combine p q).

(** Paths order component by component, each by code points. *)
Fixpoint path_ltb (p q : Path) : bool :=
  match p, q with
  | [], [] => false
  | [], _ :: _ => true
  | _ :: _, [] => false
  | a :: p', b :: q' =>
      match String.compare a b with
      | Lt => true
      | Gt => false
      | Eq => path_ltb p' q'
      end
  end.

Fixpoint insert_path (x : Path) (l : list Path) : list Path :=
  match l with
  | [] => [x]
  | y :: l' => if path_ltb x y then x :: l else y :: insert_path x l'
  end.

(** [sorted(paths)] *)
Definition sorted_paths (l : list Path) : list Path :=
  fold_left (fun acc x => insert_path x acc) l [].

(** ["".join(p.suffixes).lower()]: what follows the first dot of the name,
    leading dots apart; nothing when the name ends in a dot. *)
Fixpoint lstrip_dots (s : string) : string :=
  match s with
  | String "." s' => lstrip_dots s'
  | _ => s
  end.

Fixpoint from_first_dot (s : string) : string :=
  match s with
  | EmptyString => EmptyString
  | String a s' => if Ascii.eqb a "." then s else from_first_dot s'
  end.

Definition suffixes_lower (p : Path) : string :=
  let n := name p in
  if Text.endswith "." n then EmptyString
  else Text.lower (from_first_dot (lstrip_dots n)).

Inductive platform := cosmx | merscope | visium | visium_hd | xenium | tabular.

(** What the parsers log and go on. *)
Inductive advisory :=
| RoleFileNotFound (p : platform) (role : string)
| NaNCoordinates (p : platform) (n : nat)
| NaNGeneLabels (p : platform) (n : nat)
| NaNCellId (p : platform) (n : nat)
| LongKeysNaN (p : platform)
| FormatAmbiguous (p : platform)
| JsonUnreadable (p : platform) (file : Path)
| MissingXY (p : platform) (n : nat)
| LargeMagnitude (p : platform)
| MissingCellId (p : platform) (n : nat)
| MissingIndex (p : platform)
| NaNValues (p : platform) (n : nat)
| TissueFiltered (before after : nat)
| DenseH5 (n_features n_barcodes : Z).

(** What the parsers raise. *)
Inductive error :=
| InputDirMissing (p : platform) (dir : Path)
| InputNotADirectory (p : platform) (dir : Path)
| ReadFailed (p : platform) (what : string) (file : Path)
| MissingColumns (p : platform) (table : string) (missing found : list string) (file : Path)
| TooFewColumns (p : platform) (file : Path)
| OutputColumnMissing (p : platform) (table column : string)
| MexMissingFiles (p : platform) (dir : Path)
| ShapeMismatch (p : platform) (rows cols : Z) (n_features n_barcodes : nat) (file : Path)
| LengthMismatch (what : string) (given : nat) (expected : Z)
| DenseTooLarge (p : platform) (message : string)
| NotMatrixMarket (file : Path)
| InvalidDims (line : string) (file : Path)
| UnexpectedEOF (read total : Z) (file : Path)
| InvalidEntry (line : string) (file : Path)
| EntryOutOfBounds (r c rows cols : Z) (file : Path)
| BadNumber (token : string)
| NegativeDimensions
| IndexOutOfRange
| LibraryFailure (what : string)
| H5NeedsDependencies (file : Path)
| UnsupportedExpression (file : Path)
| MissingDependency (p : platform) (dependency : string) (file : Path)
| H5MissingGroup (p : platform) (group : string) (file : Path)
| UnsupportedFile (name : string)
| NeitherFileNorDirectory (path : Path)
| UndeterminedFormat (dir : Path).

Inductive result (A : Type) :=
| Ok (a : A) (log : list advisory)
| Err (e : error).
Arguments Ok {A} a log.
Arguments Err {A} e.

Definition ret {A} (a : A) : result A := Ok a [].

Definition bind {A B} (m : result A) (k : A -> result B) : result B :=
  match m with
  | Ok a log =>
      match k a with
      | Ok b log' => Ok b (log ++ log')%list
      | Err e => Err e
      end
  | Err e => Err e
  end.

(** [logger.warning(...)] and [logger.info(...)] *)
Definition warn (a : advisory) : result unit := Ok tt [a].

Definition warn_if (b : bool) (a : advisory) : result unit :=
  if b then warn a else ret tt.

(** [raise] *)
Definition raise {A} (e : error) : result A := Err e.

(** A reader that raises is turned into the parser's own error. *)
Definition or_raise {A} (o : option A) (e : error) : result A :=
  match o with
  | Some a => ret a
  | None => Err e
  end.

(** A parsed JSON document. *)
Inductive json :=
| JAtom (text : string)
| JArray (items : list json)
| JObject (fields : list (string * json)).

(** A value of the metadata dictionary. *)
Inductive meta :=
| MNone
| MStr (s : string)
| MList (l : list meta)
| MDict (kv : list (string * meta))
| MJson (j : json).

(** A sparse matrix as scipy hands it over: its shape and its entries. *)
Record spmatrix := {
  sp_rows : nat;
  sp_cols : nat;
  sp_entries : list (nat * nat * Q)
}.

(** The [/matrix] group of a 10x HDF5 file. [h5_features] is the
    [features] group, its datasets in the order of [keys()]. *)
Record h5matrix := {
  h5_data : list Q;
  h5_indices : list Z;
  h5_indptr : list Z;
  h5_shape : Z * Z;
  h5_features : option (list (string * list string));
  h5_barcodes : list string
}.

(** What the parsers take from their environment. A reader answers [None]
    where the Python call raises. *)
Class Externals := {
  (** [pd.to_numeric] on one text value *)
  parse_num : string -> option Q;
  (** [str] of a number held in a table *)
  render_num : Q -> string;
  (** [int(token)] and [float(token)] *)
  parse_int : string -> option Z;
  parse_float : string -> option Q;
  (** [pd.read_csv(path)], with [compression="gzip"], with [sep="\t"] *)
  read_csv : Path -> option frame;
  read_csv_gzip : Path -> option frame;
  read_csv_tab : Path -> option frame;
  (** [pd.read_parquet(path)] *)
  read_parquet : Path -> option frame;
  (** [pd.read_csv(path, header=0, sep=None, engine="python")] and the same
      with [header=None, names=...] *)
  read_csv_sniff : Path -> option frame;
  read_csv_sniff_names : Path -> list string -> option frame;
  (** [json.load] on the opened file *)
  read_json : Path -> option json;
  (** the lines of a text file, gzipped or not, with their line ends *)
  read_lines : Path -> option (list string);
  (** [scipy.io.mmread(path).tocsc()] *)
  mmread : Path -> option spmatrix;
  (** [h5py.File(path)]: [None] when reading fails, [Some None] when the
      file has no [matrix] group *)
  h5_read : Path -> option (option h5matrix);
  (** [scipy.sparse.csc_matrix((data, indices, indptr), shape)] *)
  csc_matrix : list Q -> list Z -> list Z -> Z * Z -> option spmatrix;
  (** whether [import h5py] and [import scipy] succeed *)
  have_h5py : bool;
  have_scipy : bool
}.

End World.

Declare Scope result_scope.
Delimit Scope result_scope with result.
Notation "'perform' x <- m ;; k" := (World.bind m (fun x => k))
  (at level 10, x name, m at level 99, k at level 200) : result_scope.
Notation "'exec' m ;; k" := (World.bind m (fun _ => k))
  (at level 10, m at level 99, k at level 200) : result_scope.

(** ** pandas operations the loaders share

    [_coerce_numeric] is repeated word for word in every parser file and is
    embedded once, here. *)

Module Pandas.

Import Frames World.

Section WithExternals.
Context `{Externals}.

(** [pd.to_numeric(s, errors="coerce")], one value at a time. *)
Definition to_numeric_cell (c : cell) : cell :=
  match c with
  | NA => NA
  | Num q => Num q
  | Str s => match parse_num s with
             | Some q => Num q
             | None => NA
             end
  end.

Definition to_numeric (col : list cell) : list cell := map to_numeric_cell col.

(** [s.astype("string")]: a missing value stays missing. *)
Definition astype_string_cell (c : cell) : cell :=
  match c with
  | NA => NA
  | Num q => Str (render_num q)
  | Str s => Str s
  end.

Definition astype_string (col : list cell) : list cell := map astype_string_cell col.

(** [s.astype(str)]: [str] of every value, the missing float included. *)
Definition astype_str_cell (c : cell) : cell :=
  match c with
  | NA => Str "nan"
  | Num q => Str (render_num q)
  | Str s => Str s
  end.

Definition astype_str (col : list cell) : list cell := map astype_str_cell col.

(** [_coerce_numeric(df, cols)] *)
Definition _coerce_numeric (df : frame) (cols : list string) : frame :=
  fold_left
    (fun df c => if has_column df c then set_col df c (to_numeric (get_col df c)) else df)
    cols df.

(** [df.apply(pd.to_numeric, errors="coerce")] *)
Definition apply_to_numeric (df : frame) : frame :=
  {| index_name := index_name df; index := index df;
     columns := map (fun kv => (fst kv, to_numeric (snd kv))) (columns df) |}.

Definition with_index (df : frame) (nm : option string) (idx : list cell) : frame :=
  {| index_name := nm; index := idx; columns := columns df |}.

(** The rows of a long table [cell_id, gene, count] that a group-by keeps:
    those with both keys present. *)
Definition long_rows (ids genes counts : list cell) : list (string * string * cell) :=
  flat_map
    (fun r => match r with
              | (Str i, Str g, c) => [(i, g, c)]
              | _ => []
              end)
    (combine (combine ids genes) counts).

Definition has_key (i g : string) (r : string * string * cell) : bool :=
  String.eqb (fst (fst r)) i && String.eqb (snd (fst r)) g.

(** The counts of one group. *)
Definition group (rows : list (string * string * cell)) (i g : string) : list cell :=
  map snd (List.filter (has_key i g) rows).

(** [sum] over a group skips the missing counts. *)
Definition numbers (l : list cell) : list Q :=
  flat_map (fun c => match c with Num q => [q] | _ => [] end) l.

Definition sum_cells (l : list cell) : Q := sum_Q (numbers l).

(** One entry of the pivot: the aggregate of the group when there is one,
    the fill value otherwise. *)
Definition pivot_entry (fill : Q) (rows : list (string * string * cell)) (i g : string) : Q :=
  match group rows i g with
  | [] => fill
  | grp => sum_cells grp
  end.

(** [long.pivot_table(index="cell_id", columns="gene", values="count",
    aggfunc="sum", fill_value=0)] *)
Definition pivot_table_sum (ids genes counts : list cell) : frame :=
  let rows := long_rows ids genes counts in
  let row_labels := sort_uniq (map (fun r => fst (fst r)) rows) in
  let col_labels := sort_uniq (map (fun r => snd (fst r)) rows) in
  {| index_name := Some "cell_id";
     index := map Str row_labels;
     columns := map (fun g => (g, map (fun i => Num (pivot_entry 0 rows i g)) row_labels))
                    col_labels |}.

(** The long branch shared by the CSV expression loaders:
    [[
    long = df[[cell_col, gene_col, count_col]].copy()
    long.columns = ["cell_id", "gene", "count"]
    long["cell_id"] = long["cell_id"].astype("string")
    long["gene"] = long["gene"].astype("string")
    long["count"] = pd.to_numeric(long["count"], errors="coerce")
    ]] *)
Definition long_keys (df : frame) (cell_col gene_col count_col : string)
  : list cell * list cell * list cell :=
  (astype_string (get_col df cell_col),
   astype_string (get_col df gene_col),
   to_numeric (get_col df count_col)).

Definition pivot_long (df : frame) (cell_col gene_col count_col : string) : frame :=
  let '(ids, genes, counts) := long_keys df cell_col gene_col count_col in
  pivot_table_sum ids genes counts.

(** [str(df.columns[0]).strip().lower()] *)
Definition first_column (df : frame) : string := hd EmptyString (column_names df).
Definition first_lowered (df : frame) : string := Text.lower (Text.strip (first_column df)).

(** [[
    expr = df.set_index(df.columns[0])
    expr.index = expr.index.astype("string")
    expr = expr.apply(pd.to_numeric, errors="coerce")
    ]] *)
Definition wide_by_first_column (df : frame) : frame :=
  let expr := set_index df (first_column df) in
  apply_to_numeric (with_index expr (index_name expr) (astype_string (index expr))).

(** The label a value of the index becomes once it heads a column. *)
Definition label_of (c : cell) : string :=
  match c with
  | NA => "<NA>"
  | Num q => render_num q
  | Str s => s
  end.

(** [df.T] *)
Definition transpose (df : frame) : frame :=
  {| index_name := None;
     index := map Str (column_names df);
     columns := map (fun ic => (label_of (snd ic),
                                map (fun kv => nth_cell (fst ic) (snd kv)) (columns df)))
                    (combine (seq 0 (nrows df)) (index df)) |}.

(** [[
    expr = df.set_index(df.columns[0]).T
    expr.index.name = "cell_id"
    expr.index = expr.index.astype("string")
    expr.columns = expr.columns.astype("string")
    expr = expr.apply(pd.to_numeric, errors="coerce")
    ]] *)
Definition wide_transposed (df : frame) : frame :=
  let expr := transpose (set_index df (first_column df)) in
  apply_to_numeric (with_index expr (Some "cell_id") (astype_string (index expr))).

(** The value of a sparse matrix at a position; entries given twice add up. *)
Definition sp_value (m : spmatrix) (i j : nat) : Q :=
  sum_Q (map snd
           (List.filter (fun e => Nat.eqb (fst (fst e)) i && Nat.eqb (snd (fst e)) j)
                        (sp_entries m))).

(** [m.T.tocsr()] *)
Definition sp_transpose (m : spmatrix) : spmatrix :=
  {| sp_rows := sp_cols m; sp_cols := sp_rows m;
     sp_entries := map (fun e => (snd (fst e), fst (fst e), snd e)) (sp_entries m) |}.

(** [pd.DataFrame.sparse.from_spmatrix(m, index=pd.Index(index, name="cell_id"),
    columns=pd.Index(columns, name="gene"))]. pandas compares the lengths of
    the labels with the shape of the matrix and raises on a difference, the
    columns first. *)
Definition from_spmatrix (m : spmatrix) (idx cols : list string) : result frame :=
  if negb (Nat.eqb (length cols) (sp_cols m))
  then raise (LengthMismatch "Column" (length cols) (Z.of_nat (sp_cols m)))
  else if negb (Nat.eqb (length idx) (sp_rows m))
  then raise (LengthMismatch "Index" (length idx) (Z.of_nat (sp_rows m)))
  else ret {| index_name := Some "cell_id";
              index := map Str idx;
              columns := map (fun jg => (snd jg,
                                         map (fun i => Num (sp_value m i (fst jg)))
                                             (seq 0 (sp_rows m))))
                             (combine (seq 0 (length cols)) cols) |}.

(** The first [Some] of [f] along a list. *)
Fixpoint first_some {A B} (f : A -> option B) (l : list A) : option B :=
  match l with
  | [] => None
  | a :: l' => match f a with
               | Some b => Some b
               | None => first_some f l'
               end
  end.

(** One role of an adapter:
    [[
    if candidates.role is None:
        logger.warning("... not found in %s", base)
    else:
        role_df = load(candidates.role)
    ]]
    with [role_df] set to the empty table beforehand. *)
Definition load_role (p : platform) (role : string) (found : option Path) (empty : frame)
  (load : Path -> result frame) : result frame :=
  match found with
  | None => (exec warn (RoleFileNotFound p role) ;; ret empty)%result
  | Some f => load f
  end.

(** De-duplication that keeps the first occurrence and the order. *)
Fixpoint dedup_paths_aux (seen : list Path) (l : list Path) : list Path :=
  match l with
  | [] => []
  | x :: l' =>
      if existsb (path_eqb x) seen then dedup_paths_aux seen l'
      else x :: dedup_paths_aux (x :: seen) l'
  end.

Definition dedup_paths (l : list Path) : list Path := dedup_paths_aux [] l.

(** [int(df.isna().sum().sum())] *)
Definition count_all_na (df : frame) : nat :=
  list_sum (map (fun kv => count_na (snd kv)) (columns df)).

(** [l[start:stop]] with Python's reading of negative and large bounds. *)
Definition clamp_index (len i : Z) : Z :=
  if (i <? 0)%Z then Z.max 0 (i + len) else Z.min i len.

Definition py_slice {A} (l : list A) (start stop : Z) : list A :=
  let n := Z.of_nat (length l) in
  let a := clamp_index n start in
  let b := clamp_index n stop in
  firstn (Z.to_nat (b - a)) (skipn (Z.to_nat a) l).

(** [a[i]] on an array, for an index that may be negative. *)
Definition py_index {A} (l : list A) (i : Z) : option A :=
  let n := Z.of_nat (length l) in
  if (i <? - n)%Z || (n <=? i)%Z then None
  else nth_error l (Z.to_nat (if (i <? 0)%Z then i + n else i)).

(** [a[i] = v] on an array, under the same reading of the index. *)
Definition py_store {A} (l : list A) (i : Z) (v : A) : option (list A) :=
  let n := Z.of_nat (length l) in
  if (i <? - n)%Z || (n <=? i)%Z then None
  else
    let k := Z.to_nat (if (i <? 0)%Z then i + n else i) in
    Some (firstn k l ++ v :: skipn (S k) l)%list.

(** [pd.DataFrame(values, index=pd.Index(idx, name="cell_id"),
    columns=pd.Index(cols, name="gene"))] for a dense array given by its
    rows and its shape; pandas raises when the labels do not fit the shape. *)
Definition frame_of_rows (n_rows n_cols : nat) (rows : list (list cell))
  (idx cols : list string) : result frame :=
  if negb (Nat.eqb (length idx) n_rows)
  then raise (LengthMismatch "Index" (length idx) (Z.of_nat n_rows))
  else if negb (Nat.eqb (length cols) n_cols)
  then raise (LengthMismatch "Column" (length cols) (Z.of_nat n_cols))
  else ret {| index_name := Some "cell_id";
              index := map Str idx;
              columns := map (fun jg => (snd jg, map (nth_cell (fst jg)) rows))
                             (combine (seq 0 (length cols)) cols) |}.

(** [int(v)] for a float, and [astype(int)] on a float column: the
    fractional part is dropped. *)
Definition trunc (q : Q) : Z := Z.quot (Qnum q) (Zpos (Qden q)).

(** [{key(p): p for p in paths}]: a later entry replaces an earlier one. *)
Definition dict_by {A} (key : A -> string) (l : list A) : gmap string A :=
  fold_left (fun m a => <[key a := a]> m) l ∅.

(** [_load_metadata_json(json_files)]: a file that cannot be read or parsed
    is logged and left out. *)
Definition _load_metadata_json (p : platform) (json_files : list Path)
  : result (gmap string meta) :=
  fold_left
    (fun acc f =>
       (perform m <- acc ;;
        match read_json f with
        | Some j => ret (<[name f := MJson j]> m)
        | None => exec warn (JsonUnreadable p f) ;; ret m
        end)%result)
    json_files (ret ∅).

(** [d.setdefault(k, v)] *)
Definition setdefault (k : string) (v : meta) (d : gmap string meta) : gmap string meta :=
  match d !! k with
  | Some _ => d
  | None => <[k := v]> d
  end.

(** [str(p) if p else None] *)
Definition path_or_none (p : option Path) : meta :=
  match p with
  | Some q => MStr (str_of_path q)
  | None => MNone
  end.

End WithExternals.

(** The names of [required] that are not bound: the [missing] list of the
    loaders. *)
Definition missing_of (required : list (string * option string)) : list string :=
  map fst (List.filter (fun kv => match snd kv with None => true | Some _ => false end) required).

(** The first required column a table lacks. *)
Definition first_missing (df : frame) (required : list string) : option string :=
  List.find (fun c => negb (has_column df c)) required.

(** [df[c] if c is not None else pd.NA], as a column of [df]. *)
Definition col_or_na (df : frame) (c : option string) : list cell :=
  match c with
  | Some c' => get_col df c'
  | None => broadcast (nrows df) NA
  end.

(** Whether some number of a column exceeds a bound in absolute value. *)
Definition exceeds (bound : Q) (col : list cell) : bool :=
  existsb (fun c => match c with
                    | Num q => negb (Qle_bool (Qabs q) bound)
                    | _ => false
                    end) col.

Definition any_number (col : list cell) : bool :=
  existsb (fun c => negb (isna c)) col.

End Pandas.

(** ** The canonical output *)

Module Canonical.

Import Frames World.

(** The canonical structure every parser returns. *)
Record dataset := {
  platform_of : platform;
  transcript_data : frame;
  cell_metadata : frame;
  expression_matrix : frame;
  metadata : gmap string meta
}.

Definition _TRANSCRIPT_REQUIRED_OUT_COLS : list string := ["x"; "y"; "gene"; "cell_id"].
Definition _CELL_REQUIRED_OUT_COLS : list string := ["cell_id"; "x"; "y"; "cell_type"].

(** [_empty_transcript_df()] and [_empty_cell_metadata_df()] *)
Definition _empty_transcript_df : frame := empty_with_columns _TRANSCRIPT_REQUIRED_OUT_COLS.
Definition _empty_cell_metadata_df : frame := empty_with_columns _CELL_REQUIRED_OUT_COLS.

End Canonical.

(** ** cosmx.py *)

Module Cosmx.

Import Frames World Pandas Columns Canonical.

Record _FileCandidates := {
  transcript : option Path;
  cell_metadata : option Path;
  expression : option Path;
  json_files : list Path
}.

Section WithWorld.
Context `{Externals} (fs : node).

(** [pick(preferred_names, contains_any)] inside [_discover_files]:
    an existing preferred name, else a preferred name up to case among the
    CSV files, else the first CSV file whose name contains a hint. *)
Definition pick (base : Path) (csvs : list Path) (preferred_names contains_any : list string)
  : option Path :=
  match List.find (fun n => exists_ fs (join base n)) preferred_names with
  | Some n => Some (join base n)
  | None =>
      let lowered := dict_by (fun p => Text.lower (name p)) csvs in
      match first_some (fun n => lowered !! Text.lower n) preferred_names with
      | Some p => Some p
      | None =>
          let contains_any_l := map Text.lower contains_any in
          List.find (fun p => existsb (fun c => Text.contains c (Text.lower (name p)))
                                      contains_any_l) csvs
      end
  end.

Definition _discover_files (base : Path) : _FileCandidates :=
  let csvs := (glob_suffix fs base ".csv" ++ glob_suffix fs base ".CSV")%list in
  {| transcript := pick base csvs ["tx_file.csv"; "transcripts.csv"; "tx.csv"]
                        ["tx_"; "transcript"];
     cell_metadata := pick base csvs ["cell_metadata.csv"; "cells.csv"; "cellmetadata.csv"]
                           ["cell_metadata"; "cellmeta"; "cells"];
     expression := pick base csvs ["exprMat_file.csv"; "expression.csv"; "exprmat.csv"]
                        ["expr"; "matrix"];
     json_files := sorted_paths (glob_suffix fs base ".json" ++ glob_suffix fs base ".JSON")%list
  |}.

(** The table [_load_transcripts] builds from the resolved columns:
    [[
    out = pd.DataFrame({"x": df[x_col], "y": df[y_col],
                        "gene": df[gene_col].astype(str),
                        "cell_id": df[cell_col] if cell_col is not None else pd.NA})
    out = _coerce_numeric(out, ["x", "y"])
    out["cell_id"] = out["cell_id"].astype("string")
    out["gene"] = out["gene"].astype("string")
    ]] *)
Definition transcript_table (df : frame) (xc yc gc : string) (cell_col : option string)
  : frame :=
  let out := {| index_name := index_name df; index := index df;
                columns := [("x", get_col df xc);
                            ("y", get_col df yc);
                            ("gene", astype_str (get_col df gc));
                            ("cell_id", col_or_na df cell_col)] |} in
  let out := _coerce_numeric out ["x"; "y"] in
  let out := set_col out "cell_id" (astype_string (get_col out "cell_id")) in
  set_col out "gene" (astype_string (get_col out "gene")).

(** The table [_load_cell_metadata] builds from the resolved columns:
    [[
    out = pd.DataFrame({"cell_id": df[cell_col].astype("string"),
                        "x": df[x_col] if x_col is not None else pd.NA,
                        "y": df[y_col] if y_col is not None else pd.NA,
                        "cell_type": df[type_col] if type_col is not None else pd.NA})
    out = _coerce_numeric(out, ["x", "y"])
    out["cell_type"] = out["cell_type"].astype("string")
    ]] *)
Definition cell_table (df : frame) (cc : string) (x_col y_col type_col : option string)
  : frame :=
  let out := {| index_name := index_name df; index := index df;
                columns := [("cell_id", astype_string (get_col df cc));
                            ("x", col_or_na df x_col);
                            ("y", col_or_na df y_col);
                            ("cell_type", col_or_na df type_col)] |} in
  let out := _coerce_numeric out ["x"; "y"] in
  set_col out "cell_type" (astype_string (get_col out "cell_type")).

Definition _load_transcripts (path : Path) : result frame :=
  (perform df <- or_raise (read_csv path) (ReadFailed cosmx "transcript CSV" path) ;;
   let df := _standardize_columns df in
   let colmap := _lower_map_columns (column_names df) in
   let x_col := _first_present colmap
                  ["x"; "x_global_px"; "x_global"; "x_position"; "globalx"; "centerx"] in
   let y_col := _first_present colmap
                  ["y"; "y_global_px"; "y_global"; "y_position"; "globaly"; "centery"] in
   let gene_col := _first_present colmap
                     ["gene"; "target"; "targetname"; "target_name"; "feature_name"] in
   let cell_col := _first_present colmap
                     ["cell_id"; "cellid"; "cell"; "cell_id"; "cellid_int"] in
   match x_col, y_col, gene_col with
   | Some xc, Some yc, Some gc =>
       let out := transcript_table df xc yc gc cell_col in
       exec warn_if (any_na (get_col out "x") || any_na (get_col out "y"))
                    (NaNCoordinates cosmx (count_na_rows (get_col out "x") (get_col out "y"))) ;;
       exec warn_if (any_na (get_col out "gene"))
                    (NaNGeneLabels cosmx (count_na (get_col out "gene"))) ;;
       ret out
   | _, _, _ =>
       raise (MissingColumns cosmx "transcript CSV"
                (missing_of [("x", x_col); ("y", y_col); ("gene", gene_col)])
                (column_names df) path)
   end)%result.

Definition _load_cell_metadata (path : Path) : result frame :=
  (perform df <- or_raise (read_csv path) (ReadFailed cosmx "cell metadata CSV" path) ;;
   let df := _standardize_columns df in
   let colmap := _lower_map_columns (column_names df) in
   let cell_col := _first_present colmap ["cell_id"; "cellid"; "cell"; "cell_id_int"] in
   let x_col := _first_present colmap ["x"; "centerx"; "centroid_x"; "centroidx"; "x_center"] in
   let y_col := _first_present colmap ["y"; "centery"; "centroid_y"; "centroidy"; "y_center"] in
   let type_col := _first_present colmap
                     ["cell_type"; "celltype"; "cell_class"; "classification"; "cluster";
                      "annotation"; "celltype_label"] in
   match cell_col with
   | None => raise (MissingColumns cosmx "cell metadata CSV" ["cell_id"] (column_names df) path)
   | Some cc =>
       let out := cell_table df cc x_col y_col type_col in
       exec warn_if (any_na (get_col out "cell_id"))
                    (NaNCellId cosmx (count_na (get_col out "cell_id"))) ;;
       ret out
   end)%result.

Definition _load_expression_matrix (path : Path) : result frame :=
  (perform df <- or_raise (read_csv path) (ReadFailed cosmx "expression matrix CSV" path) ;;
   let df := _standardize_columns df in
   let colmap := _lower_map_columns (column_names df) in
   let cell_col := _first_present colmap ["cell_id"; "cellid"; "cell"] in
   let gene_col := _first_present colmap ["gene"; "target"; "feature"; "feature_name"] in
   let count_col := _first_present colmap ["count"; "counts"; "umi"; "umis"; "value"; "expr"] in
   match cell_col, gene_col, count_col, Nat.leb (ncols df) 6 with
   | Some cc, Some gc, Some nc, true =>
       let '(ids, genes, _) := long_keys df cc gc nc in
       exec warn_if (any_na ids || any_na genes) (LongKeysNaN cosmx) ;;
       ret (pivot_long df cc gc nc)
   | _, _, _, _ =>
       if Nat.ltb (ncols df) 2 then raise (TooFewColumns cosmx path)
       else
         let first := first_lowered df in
         if Text.mem first ["cell_id"; "cellid"; "cell"; "cellid_int"]
         then ret (wide_by_first_column df)
         else if Text.mem first ["gene"; "target"; "feature"; "feature_name"]
         then ret (wide_transposed df)
         else exec warn (FormatAmbiguous cosmx) ;; ret (wide_by_first_column df)
   end)%result.

Definition _validate_transcripts (df : frame) : result unit :=
  match first_missing df _TRANSCRIPT_REQUIRED_OUT_COLS with
  | Some c => raise (OutputColumnMissing cosmx "transcript_data" c)
  | None =>
      if Nat.eqb (nrows df) 0 then ret tt
      else
        (let n_bad := count_na_rows (get_col df "x") (get_col df "y") in
         exec warn_if (negb (Nat.eqb n_bad 0)) (MissingXY cosmx n_bad) ;;
         let x := to_numeric (get_col df "x") in
         let y := to_numeric (get_col df "y") in
         warn_if (any_number x && any_number y &&
                  (exceeds (inject_Z 10000000) x || exceeds (inject_Z 10000000) y))
                 (LargeMagnitude cosmx))%result
  end.

Definition _validate_cell_metadata (df : frame) : result unit :=
  match first_missing df _CELL_REQUIRED_OUT_COLS with
  | Some c => raise (OutputColumnMissing cosmx "cell_metadata" c)
  | None =>
      if Nat.eqb (nrows df) 0 then ret tt
      else warn_if (any_na (get_col df "cell_id"))
                   (MissingCellId cosmx (count_na (get_col df "cell_id")))
  end.

Definition _validate_expression (df : frame) : result unit :=
  if is_empty df then ret tt
  else
    (exec warn_if (any_na (index df)) (MissingIndex cosmx) ;;
     warn_if (negb (Nat.eqb (count_all_na df) 0)) (NaNValues cosmx (count_all_na df)))%result.

Definition parse_cosmx (input_dir : Path) : result Canonical.dataset :=
  let base := input_dir in
  if negb (exists_ fs base) then raise (InputDirMissing cosmx base)
  else if negb (is_dir fs base) then raise (InputNotADirectory cosmx base)
  else
    (let candidates := _discover_files base in
     perform transcript_df <-
       load_role cosmx "transcript file" (transcript candidates) _empty_transcript_df _load_transcripts ;;
     perform cell_df <-
       load_role cosmx "cell metadata file" (cell_metadata candidates) _empty_cell_metadata_df
                 _load_cell_metadata ;;
     perform expr_df <-
       load_role cosmx "expression matrix file" (expression candidates) empty_frame
                 _load_expression_matrix ;;
     perform metadata <- _load_metadata_json cosmx (json_files candidates) ;;
     let metadata := setdefault "input_dir" (MStr (str_of_path base)) metadata in
     let metadata :=
       setdefault "files"
         (MDict [("transcript", path_or_none (transcript candidates));
                 ("cell_metadata", path_or_none (cell_metadata candidates));
                 ("expression", path_or_none (expression candidates));
                 ("json", MList (map (fun p => MStr (str_of_path p)) (json_files candidates)))])
         metadata in
     exec _validate_transcripts transcript_df ;;
     exec _validate_cell_metadata cell_df ;;
     exec _validate_expression expr_df ;;
     ret {| Canonical.platform_of := cosmx;
            Canonical.transcript_data := transcript_df;
            Canonical.cell_metadata := cell_df;
            Canonical.expression_matrix := expr_df;
            Canonical.metadata := metadata |})%result.

End WithWorld.

End Cosmx.

(** ** merscope.py *)

Module Merscope.

Import Frames World Pandas Columns Canonical.

Record _FileCandidates := {
  transcript : option Path;
  cell_metadata : option Path;
  expression : option Path;
  json_files : list Path
}.

Section WithWorld.
Context `{Externals} (fs : node).

(** [add_root(p)] *)
Definition add_root (search_roots : list Path) (p : Path) : list Path :=
  if exists_ fs p && is_dir fs p && negb (existsb (path_eqb p) search_roots)
  then (search_roots ++ [p])%list
  else search_roots.

(** The search roots: [analysis_outputs/] before the base, then, child by
    child in sorted order, the child's [analysis_outputs/] and the child. *)
Definition search_roots (base : Path) : list Path :=
  let ao := join base "analysis_outputs" in
  let roots0 := if exists_ fs ao && is_dir fs ao then [ao; base] else [base] in
  let children := match iterdir fs base with
                  | Some l => sorted_paths l
                  | None => []
                  end in
  fold_left
    (fun roots child =>
       if negb (is_dir fs child) then roots
       else
         let child_ao := join child "analysis_outputs" in
         let roots := if exists_ fs child_ao && is_dir fs child_ao
                      then add_root roots child_ao else roots in
         add_root roots child)
    children roots0.

(** [collect(patterns)] *)
Definition collect (roots : list Path) (suffixes : list string) : list Path :=
  dedup_paths
    (flat_map (fun root => flat_map (fun suf => glob_suffix fs root suf) suffixes) roots).

(** The preferred names tried under one root, in order: the exact name, then
    the name up to case among the tables of that root. *)
Definition pick_in_root (tables : list Path) (root : Path) (preferred_names : list string)
  : option Path :=
  let lowered := dict_by (fun p => Text.lower (name p))
                         (List.filter (fun p => path_eqb (parent p) root) tables) in
  first_some
    (fun n =>
       if exists_ fs (join root n) then Some (join root n)
       else lowered !! Text.lower n)
    preferred_names.

(** [pick_file(preferred_names, contains_any)] *)
Definition pick_file (roots tables : list Path) (preferred_names contains_any : list string)
  : option Path :=
  match first_some (fun root => pick_in_root tables root preferred_names) roots with
  | Some p => Some p
  | None =>
      let contains_any_l := map Text.lower contains_any in
      List.find (fun p => existsb (fun c => Text.contains c (Text.lower (name p)))
                                  contains_any_l) tables
  end.

Definition _discover_files (base : Path) : _FileCandidates :=
  let roots := search_roots base in
  let tables := collect roots [".csv"; ".CSV"; ".csv.gz"; ".CSV.GZ"; ".parquet"; ".PARQUET"] in
  {| transcript :=
       pick_file roots tables
         ["detected_transcripts.csv"; "detected_transcripts.parquet";
          "transcripts.csv"; "transcripts.parquet"]
         ["detected_transcripts"; "transcript"];
     cell_metadata :=
       pick_file roots tables
         ["cell_metadata.csv"; "cell_metadata.parquet"; "entity_metadata.csv";
          "entity_metadata_cell.csv"; "cells.csv"]
         ["cell_metadata"; "entity_metadata"; "cells"];
     expression :=
       pick_file roots tables
         ["cell_by_gene.csv"; "cell_by_gene.parquet"; "entity_by_gene.csv"; "expression.csv"]
         ["cell_by_gene"; "entity_by_gene"; "by_gene"; "expression"];
     json_files :=
       dedup_paths
         (flat_map (fun root => (sorted_paths (glob_suffix fs root ".json") ++
                                 sorted_paths (glob_suffix fs root ".JSON"))%list) roots)
  |}.

Definition _read_table (path : Path) : result frame :=
  let suf := suffixes_lower path in
  or_raise
    (if Text.endswith ".parquet" suf then read_parquet path
     else if Text.endswith ".csv.gz" suf then read_csv_gzip path
     else read_csv path)
    (ReadFailed merscope "table" path).

(** Whether a value, read as a number, equals -1. *)
Definition is_minus_one (c : cell) : bool :=
  match to_numeric_cell c with
  | Num q => Qeq_bool q (inject_Z (-1))
  | _ => false
  end.

(** [[
    cell_numeric = pd.to_numeric(cell_series, errors="coerce")
    cell_series = cell_series.where(~(cell_numeric == -1), other=pd.NA)
    ]] *)
Definition mask_unassigned (cell_series : list cell) : list cell :=
  map (fun c => if is_minus_one c then NA else c) cell_series.

(** The cell ids of the transcripts:
    [[
    cell_series = df[cell_col] if cell_col is not None else pd.NA
    if cell_col is not None:
        cell_numeric = pd.to_numeric(cell_series, errors="coerce")
        cell_series = cell_series.where(~(cell_numeric == -1), other=pd.NA)
    ]] *)
Definition cell_series_of (df : frame) (cell_col : option string) : list cell :=
  match cell_col with
  | Some cc => mask_unassigned (get_col df cc)
  | None => broadcast (nrows df) NA
  end.

(** The table [_load_transcripts] builds from the resolved columns:
    [[
    out = pd.DataFrame({"x": df[x_col], "y": df[y_col],
                        "gene": df[gene_col].astype(str),
                        "cell_id": cell_series})
    out = _coerce_numeric(out, ["x", "y"])
    out["gene"] = out["gene"].astype("string")
    out["cell_id"] = out["cell_id"].astype("string")
    ]] *)
Definition transcript_table (df : frame) (xc yc gc : string) (cell_col : option string)
  : frame :=
  let out := {| index_name := index_name df; index := index df;
                columns := [("x", get_col df xc);
                            ("y", get_col df yc);
                            ("gene", astype_str (get_col df gc));
                            ("cell_id", cell_series_of df cell_col)] |} in
  let out := _coerce_numeric out ["x"; "y"] in
  let out := set_col out "gene" (astype_string (get_col out "gene")) in
  set_col out "cell_id" (astype_string (get_col out "cell_id")).

(** The table [_load_cell_metadata] builds from the resolved columns. *)
Definition cell_table (df : frame) (cc : string) (x_col y_col type_col : option string)
  : frame :=
  let out := {| index_name := index_name df; index := index df;
                columns := [("cell_id", astype_string (get_col df cc));
                            ("x", col_or_na df x_col);
                            ("y", col_or_na df y_col);
                            ("cell_type", col_or_na df type_col)] |} in
  let out := _coerce_numeric out ["x"; "y"] in
  set_col out "cell_type" (astype_string (get_col out "cell_type")).

Definition _load_transcripts (path : Path) : result frame :=
  (perform df <- _read_table path ;;
   let df := _standardize_columns df in
   let colmap := _lower_map_columns (column_names df) in
   let x_col := _first_present colmap ["global_x"; "x"; "x_um"; "xcoord"; "x_coord"] in
   let y_col := _first_present colmap ["global_y"; "y"; "y_um"; "ycoord"; "y_coord"] in
   let gene_col := _first_present colmap ["gene"; "target"; "feature_name"; "symbol"] in
   let cell_col := _first_present colmap
                     ["entityid"; "entity_id"; "cell_id"; "cellid"; "cell"] in
   match x_col, y_col, gene_col with
   | Some xc, Some yc, Some gc =>
       let out := transcript_table df xc yc gc cell_col in
       exec warn_if (any_na (get_col out "x") || any_na (get_col out "y"))
                    (NaNCoordinates merscope
                       (count_na_rows (get_col out "x") (get_col out "y"))) ;;
       ret out
   | _, _, _ =>
       raise (MissingColumns merscope "transcript table"
                (missing_of [("x", x_col); ("y", y_col); ("gene", gene_col)])
                (column_names df) path)
   end)%result.

Definition _load_cell_metadata (path : Path) : result frame :=
  (perform df <- _read_table path ;;
   let df := _standardize_columns df in
   let colmap := _lower_map_columns (column_names df) in
   let cell_col := _first_present colmap
                     ["entityid"; "entity_id"; "cell_id"; "cellid"; "cell"; "barcode"] in
   let x_col := _first_present colmap
                  ["center_x"; "x"; "x_centroid"; "centroid_x"; "centerx"] in
   let y_col := _first_present colmap
                  ["center_y"; "y"; "y_centroid"; "centroid_y"; "centery"] in
   let type_col := _first_present colmap
                     ["cell_type"; "celltype"; "annotation"; "cluster"; "label"; "cell_class"] in
   match cell_col with
   | None => raise (MissingColumns merscope "cell metadata table" ["cell_id"]
                                   (column_names df) path)
   | Some cc =>
       let out := cell_table df cc x_col y_col type_col in
       exec warn_if (any_na (get_col out "cell_id"))
                    (NaNCellId merscope (count_na (get_col out "cell_id"))) ;;
       ret out
   end)%result.

(** [a or b] on an optional string: [b] when [a] is [None] or empty. *)
Definition or_else (a : option string) (b : string) : string :=
  match a with
  | Some v => if String.eqb v EmptyString then b else v
  | None => b
  end.

Definition _load_expression_matrix (path : Path) : result frame :=
  (perform df <- _read_table path ;;
   let df := _standardize_columns df in
   if Nat.ltb (ncols df) 2 then raise (TooFewColumns merscope path)
   else
     let colmap := _lower_map_columns (column_names df) in
     let idx_col :=
       or_else (_first_present colmap ["entityid"; "entity_id"; "cell_id"; "cellid"; "cell"])
               (first_column df) in
     let expr := set_index df idx_col in
     ret (apply_to_numeric (with_index expr (Some "cell_id") (astype_string (index expr)))))%result.

Definition _validate_transcripts (df : frame) : result unit :=
  match first_missing df _TRANSCRIPT_REQUIRED_OUT_COLS with
  | Some c => raise (OutputColumnMissing merscope "transcript_data" c)
  | None =>
      if Nat.eqb (nrows df) 0 then ret tt
      else
        let n_bad := count_na_rows (get_col df "x") (get_col df "y") in
        warn_if (negb (Nat.eqb n_bad 0)) (MissingXY merscope n_bad)
  end.

Definition _validate_cell_metadata (df : frame) : result unit :=
  match first_missing df _CELL_REQUIRED_OUT_COLS with
  | Some c => raise (OutputColumnMissing merscope "cell_metadata" c)
  | None =>
      if Nat.eqb (nrows df) 0 then ret tt
      else warn_if (any_na (get_col df "cell_id"))
                   (MissingCellId merscope (count_na (get_col df "cell_id")))
  end.

Definition _validate_expression (df : frame) : result unit :=
  if is_empty df then ret tt
  else
    (exec warn_if (any_na (index df)) (MissingIndex merscope) ;;
     warn_if (negb (Nat.eqb (count_all_na df) 0)) (NaNValues merscope (count_all_na df)))%result.

Definition parse_merscope (input_dir : Path) : result Canonical.dataset :=
  let base := input_dir in
  if negb (exists_ fs base) then raise (InputDirMissing merscope base)
  else if negb (is_dir fs base) then raise (InputNotADirectory merscope base)
  else
    (let candidates := _discover_files base in
     perform transcript_df <-
       load_role merscope "transcript file" (transcript candidates) _empty_transcript_df
                 _load_transcripts ;;
     perform cell_df <-
       load_role merscope "cell metadata file" (cell_metadata candidates)
                 _empty_cell_metadata_df _load_cell_metadata ;;
     perform expr_df <-
       load_role merscope "expression matrix file" (expression candidates) empty_frame
                 _load_expression_matrix ;;
     perform metadata <- _load_metadata_json merscope (json_files candidates) ;;
     let metadata := setdefault "input_dir" (MStr (str_of_path base)) metadata in
     let metadata :=
       setdefault "files"
         (MDict [("transcript", path_or_none (transcript candidates));
                 ("cell_metadata", path_or_none (cell_metadata candidates));
                 ("expression", path_or_none (expression candidates));
                 ("json", MList (map (fun p => MStr (str_of_path p)) (json_files candidates)))])
         metadata in
     exec _validate_transcripts transcript_df ;;
     exec _validate_cell_metadata cell_df ;;
     exec _validate_expression expr_df ;;
     ret {| Canonical.platform_of := merscope;
            Canonical.transcript_data := transcript_df;
            Canonical.cell_metadata := cell_df;
            Canonical.expression_matrix := expr_df;
            Canonical.metadata := metadata |})%result.

End WithWorld.

End Merscope.

(** ** xenium.py *)

Module Xenium.

Import Frames World Pandas Columns Canonical.

Record _FileCandidates := {
  transcript : option Path;
  cell_metadata : option Path;
  expression : option Path;
  json_files : list Path
}.

Section WithWorld.
Context `{Externals} (fs : node).

(** [pick_file(preferred_names, contains_any, pool)] *)
Definition pick_file (base : Path) (preferred_names contains_any : list string)
  (pool : list Path) : option Path :=
  match List.find (fun n => exists_ fs (join base n)) preferred_names with
  | Some n => Some (join base n)
  | None =>
      let lowered := dict_by (fun p => Text.lower (name p)) pool in
      match first_some (fun n => lowered !! Text.lower n) preferred_names with
      | Some p => Some p
      | None =>
          let contains_any_l := map Text.lower contains_any in
          List.find (fun p => existsb (fun c => Text.contains c (Text.lower (name p)))
                                      contains_any_l) pool
      end
  end.

Definition _discover_files (base : Path) : _FileCandidates :=
  let parquet := (glob_suffix fs base ".parquet" ++ glob_suffix fs base ".PARQUET")%list in
  let csvs := (glob_suffix fs base ".csv" ++ glob_suffix fs base ".CSV" ++
               glob_suffix fs base ".csv.gz" ++ glob_suffix fs base ".CSV.GZ")%list in
  let expr :=
    match List.find (fun n => exists_ fs (join base n))
                    ["cell_feature_matrix.h5"; "cell_feature_matrix.H5"] with
    | Some n => Some (join base n)
    | None =>
        let d := join base "cell_feature_matrix" in
        if exists_ fs d && is_dir fs d then Some d
        else
          let h5s := (glob_suffix fs base ".h5" ++ glob_suffix fs base ".H5")%list in
          List.find (fun p => Text.contains "feature_matrix" (Text.lower (name p)) ||
                              Text.contains "cell_feature" (Text.lower (name p))) h5s
    end in
  {| transcript :=
       pick_file base ["transcripts.parquet"; "transcripts.csv.gz"; "transcripts.csv"]
                 ["transcripts"] (parquet ++ csvs)%list;
     cell_metadata :=
       pick_file base ["cells.parquet"; "cells.csv.gz"; "cells.csv"]
                 ["cells"; "cell_summary"] (parquet ++ csvs)%list;
     expression := expr;
     json_files :=
       sorted_paths (glob_suffix fs base ".json" ++ glob_suffix fs base ".JSON" ++
                     glob_suffix fs base ".xenium" ++ glob_suffix fs base ".XENIUM")%list
  |}.

Definition _read_table (path : Path) : result frame :=
  let suf := suffixes_lower path in
  or_raise
    (if Text.endswith ".parquet" suf then read_parquet path
     else if Text.endswith ".csv" suf then read_csv path
     else if Text.endswith ".csv.gz" suf then read_csv_gzip path
     else read_csv path)
    (ReadFailed xenium "table" path).

(** The table [_load_transcripts] builds from the resolved columns:
    [[
    out = pd.DataFrame({"x": df[x_col], "y": df[y_col],
                        "gene": df[gene_col].astype(str),
                        "cell_id": df[cell_col] if cell_col is not None else pd.NA})
    out = _coerce_numeric(out, ["x", "y"])
    out["cell_id"] = out["cell_id"].astype("string")
    out["gene"] = out["gene"].astype("string")
    ]] *)
Definition transcript_table (df : frame) (xc yc gc : string) (cell_col : option string)
  : frame :=
  let out := {| index_name := index_name df; index := index df;
                columns := [("x", get_col df xc);
                            ("y", get_col df yc);
                            ("gene", astype_str (get_col df gc));
                            ("cell_id", col_or_na df cell_col)] |} in
  let out := _coerce_numeric out ["x"; "y"] in
  let out := set_col out "cell_id" (astype_string (get_col out "cell_id")) in
  set_col out "gene" (astype_string (get_col out "gene")).

(** The table [_load_cell_metadata] builds from the resolved columns:
    [[
    out = pd.DataFrame({"cell_id": df[cell_col].astype("string"),
                        "x": df[x_col] if x_col is not None else pd.NA,
                        "y": df[y_col] if y_col is not None else pd.NA,
                        "cell_type": df[type_col] if type_col is not None else pd.NA})
    out = _coerce_numeric(out, ["x", "y"])
    out["cell_type"] = out["cell_type"].astype("string")
    ]] *)
Definition cell_table (df : frame) (cc : string) (x_col y_col type_col : option string)
  : frame :=
  let out := {| index_name := index_name df; index := index df;
                columns := [("cell_id", astype_string (get_col df cc));
                            ("x", col_or_na df x_col);
                            ("y", col_or_na df y_col);
                            ("cell_type", col_or_na df type_col)] |} in
  let out := _coerce_numeric out ["x"; "y"] in
  set_col out "cell_type" (astype_string (get_col out "cell_type")).

Definition _load_transcripts (path : Path) : result frame :=
  (perform df <- _read_table path ;;
   let df := _standardize_columns df in
   let colmap := _lower_map_columns (column_names df) in
   let x_col := _first_present colmap ["x"; "x_location"; "x_um"; "xcoord"; "x_coord"] in
   let y_col := _first_present colmap ["y"; "y_location"; "y_um"; "ycoord"; "y_coord"] in
   let gene_col := _first_present colmap
                     ["gene"; "feature_name"; "feature"; "target"; "symbol"] in
   let cell_col := _first_present colmap ["cell_id"; "cellid"; "cell"; "cell_id_int"] in
   match x_col, y_col, gene_col with
   | Some xc, Some yc, Some gc =>
       let out := transcript_table df xc yc gc cell_col in
       exec warn_if (any_na (get_col out "x") || any_na (get_col out "y"))
                    (NaNCoordinates xenium
                       (count_na_rows (get_col out "x") (get_col out "y"))) ;;
       ret out
   | _, _, _ =>
       raise (MissingColumns xenium "transcript table"
                (missing_of [("x", x_col); ("y", y_col); ("gene", gene_col)])
                (column_names df) path)
   end)%result.

Definition _load_cell_metadata (path : Path) : result frame :=
  (perform df <- _read_table path ;;
   let df := _standardize_columns df in
   let colmap := _lower_map_columns (column_names df) in
   let cell_col := _first_present colmap ["cell_id"; "cellid"; "cell"; "barcode"] in
   let x_col := _first_present colmap ["x"; "x_centroid"; "centroid_x"; "centerx"] in
   let y_col := _first_present colmap ["y"; "y_centroid"; "centroid_y"; "centery"] in
   let type_col := _first_present colmap
                     ["cell_type"; "celltype"; "annotation"; "cluster"; "graphclust";
                      "kmeans"; "label"] in
   match cell_col with
   | None => raise (MissingColumns xenium "cell metadata table" ["cell_id"]
                                   (column_names df) path)
   | Some cc =>
       let out := cell_table df cc x_col y_col type_col in
       exec warn_if (any_na (get_col out "cell_id"))
                    (NaNCellId xenium (count_na (get_col out "cell_id"))) ;;
       ret out
   end)%result.

Definition _load_expression_table_csv (path : Path) : result frame :=
  (perform df <- or_raise (read_csv path) (ReadFailed xenium "expression matrix" path) ;;
   let df := _standardize_columns df in
   let colmap := _lower_map_columns (column_names df) in
   let cell_col := _first_present colmap ["cell_id"; "cellid"; "cell"; "barcode"] in
   let gene_col := _first_present colmap ["gene"; "feature"; "feature_name"; "symbol"] in
   let count_col := _first_present colmap ["count"; "counts"; "umi"; "umis"; "value"; "expr"] in
   match cell_col, gene_col, count_col, Nat.leb (ncols df) 6 with
   | Some cc, Some gc, Some nc, true => ret (pivot_long df cc gc nc)
   | _, _, _, _ =>
       if Nat.ltb (ncols df) 2 then raise (TooFewColumns xenium path)
       else
         let first := first_lowered df in
         if Text.mem first ["cell_id"; "cellid"; "cell"; "barcode"]
         then ret (wide_by_first_column df)
         else if Text.mem first ["gene"; "feature"; "feature_name"; "symbol"]
         then ret (wide_transposed df)
         else exec warn (FormatAmbiguous xenium) ;; ret (wide_by_first_column df)
   end)%result.

(** The ceiling of the dense fallback: [max_elements = 50_000_000]. *)
Definition max_elements : Z := 50000000.

(** The message of the error raised above the ceiling. *)
Definition too_large_message (n_features n_barcodes : Z) (path : Path) : string :=
  "Xenium: reading cell_feature_matrix.h5 without scipy would require allocating a huge dense matrix. "
  ++ "Install the optional dependency 'scipy' for sparse loading, or export a smaller matrix. "
  ++ "(features=" ++ Text.str_of_Z n_features ++ ", barcodes=" ++ Text.str_of_Z n_barcodes
  ++ ", file=" ++ str_of_path path ++ ")".

(** [dense[col, rows] = vals] on one row of the dense array: the values are
    stored one index after the other; a single value is repeated. *)
Fixpoint store_all (row : list cell) (rows : list Z) (vals : list Q) : option (list cell) :=
  match rows, vals with
  | [], _ => Some row
  | r :: rows', v :: vals' =>
      match py_store row r (Num v) with
      | Some row' => store_all row' rows' vals'
      | None => None
      end
  | _ :: _, [] => None
  end.

Definition assign_row (row : list cell) (rows : list Z) (vals : list Q) : result (list cell) :=
  let vals' := match vals with
               | [v] => repeat v (length rows)
               | _ => vals
               end in
  if negb (Nat.eqb (length vals') (length rows))
  then raise (LengthMismatch "values" (length vals) (Z.of_nat (length rows)))
  else or_raise (store_all row rows vals') IndexOutOfRange.

(** One column of the CSC matrix, that is one barcode, as a dense row. *)
Definition dense_row (m : h5matrix) (n_features : nat) (col : nat) : result (list cell) :=
  let zero := repeat (Num 0) n_features in
  match py_index (h5_indptr m) (Z.of_nat col), py_index (h5_indptr m) (Z.of_nat col + 1) with
  | Some start, Some stop =>
      if (stop <=? start)%Z then ret zero
      else assign_row zero (py_slice (h5_indices m) start stop) (py_slice (h5_data m) start stop)
  | _, _ => raise IndexOutOfRange
  end.

Fixpoint dense_rows (m : h5matrix) (n_features : nat) (cols : list nat)
  : result (list (list cell)) :=
  match cols with
  | [] => ret []
  | c :: cols' =>
      (perform r <- dense_row m n_features c ;;
       perform rs <- dense_rows m n_features cols' ;;
       ret (r :: rs))%result
  end.

(** The feature names of the [features] group: [name], else [feature_name],
    else the first dataset. *)
Definition feature_names_of (feat_g : list (string * list string)) : option (list string) :=
  match assoc "name" feat_g with
  | Some v => Some v
  | None =>
      match assoc "feature_name" feat_g with
      | Some v => Some v
      | None => match feat_g with
                | (_, v) :: _ => Some v
                | [] => None
                end
      end
  end.

(** The dense fallback once the guard has passed: the advisory, the array of
    zeros ([np.zeros] refuses a negative dimension), the loop over the
    barcodes and the table. *)
Definition dense_fallback (g : h5matrix) (cells genes : list string)
  (n_features n_barcodes : Z) : result frame :=
  (exec warn (DenseH5 n_features n_barcodes) ;;
   if (n_features <? 0)%Z || (n_barcodes <? 0)%Z then raise NegativeDimensions
   else
     perform dense <- dense_rows g (Z.to_nat n_features) (seq 0 (Z.to_nat n_barcodes)) ;;
     frame_of_rows (Z.to_nat n_barcodes) (Z.to_nat n_features) dense cells genes)%result.

Definition _load_10x_h5 (path : Path) : result frame :=
  if negb have_h5py then raise (MissingDependency xenium "h5py" path)
  else
    (perform f <- or_raise (h5_read path) (ReadFailed xenium "H5 matrix" path) ;;
     perform g <- or_raise f (H5MissingGroup xenium "/matrix" path) ;;
     perform feat_g <- or_raise (h5_features g) (H5MissingGroup xenium "/matrix/features" path) ;;
     perform genes <- or_raise (feature_names_of feat_g) (ReadFailed xenium "H5 matrix" path) ;;
     let cells := h5_barcodes g in
     let '(n_features, n_barcodes) := h5_shape g in
     if have_scipy then
       perform mat <- or_raise (csc_matrix (h5_data g) (h5_indices g) (h5_indptr g)
                                           (n_features, n_barcodes))
                               (LibraryFailure "scipy.sparse.csc_matrix") ;;
       from_spmatrix (sp_transpose mat) cells genes
     else if (n_features * n_barcodes >? max_elements)%Z
     then raise (DenseTooLarge xenium (too_large_message n_features n_barcodes path))
     else dense_fallback g cells genes n_features n_barcodes)%result.

(** [_first_existing(paths)] *)
Definition _first_existing (paths : list Path) : option Path :=
  List.find (exists_ fs) paths.

(** [_read_tsv_first_col(path, prefer_second_col)] *)
Definition _read_tsv_first_col (path : Path) (prefer_second_col : bool)
  : result (list string) :=
  (perform lines <- or_raise (read_lines path) (LibraryFailure "open") ;;
   let rows := map (fun line => Text.split_char "009"%char (Text.rstrip_char "010"%char line))
                   (List.filter (fun line => negb (String.eqb (Text.strip line) EmptyString))
                                lines) in
   match rows with
   | [] => ret []
   | r0 :: _ =>
       if prefer_second_col && Nat.leb 2 (length r0)
       then or_raise (fold_right (fun r acc => match nth_error r 1, acc with
                                               | Some v, Some l => Some (v :: l)
                                               | _, _ => None
                                               end) (Some []) rows)
                     IndexOutOfRange
       else ret (map (fun r => hd EmptyString r) rows)
   end)%result.

Definition _load_mex_dir (path : Path) : result frame :=
  if negb have_scipy then raise (MissingDependency xenium "scipy" path)
  else
    let matrix_path := _first_existing [join path "matrix.mtx.gz"; join path "matrix.mtx"] in
    let barcodes_path := _first_existing [join path "barcodes.tsv.gz"; join path "barcodes.tsv"] in
    let features_path :=
      _first_existing [join path "features.tsv.gz"; join path "features.tsv";
                       join path "genes.tsv.gz"; join path "genes.tsv"] in
    match matrix_path, barcodes_path, features_path with
    | Some mp, Some bp, Some fp =>
        (perform mat <- or_raise (mmread mp) (ReadFailed xenium "MEX matrix" mp) ;;
         perform barcodes <- _read_tsv_first_col bp false ;;
         perform features <- _read_tsv_first_col fp true ;;
         from_spmatrix (sp_transpose mat) barcodes features)%result
    | _, _, _ => raise (MexMissingFiles xenium path)
    end.

Definition _load_expression_matrix (path : Path) : result frame :=
  if is_dir fs path then _load_mex_dir path
  else if Text.endswith ".h5" (suffixes_lower path) then _load_10x_h5 path
  else _load_expression_table_csv path.

Definition _validate_transcripts (df : frame) : result unit :=
  match first_missing df _TRANSCRIPT_REQUIRED_OUT_COLS with
  | Some c => raise (OutputColumnMissing xenium "transcript_data" c)
  | None =>
      if Nat.eqb (nrows df) 0 then ret tt
      else
        let n_bad := count_na_rows (get_col df "x") (get_col df "y") in
        warn_if (negb (Nat.eqb n_bad 0)) (MissingXY xenium n_bad)
  end.

Definition _validate_cell_metadata (df : frame) : result unit :=
  match first_missing df _CELL_REQUIRED_OUT_COLS with
  | Some c => raise (OutputColumnMissing xenium "cell_metadata" c)
  | None =>
      if Nat.eqb (nrows df) 0 then ret tt
      else warn_if (any_na (get_col df "cell_id"))
                   (MissingCellId xenium (count_na (get_col df "cell_id")))
  end.

Definition _validate_expression (df : frame) : result unit :=
  if is_empty df then ret tt
  else
    (exec warn_if (any_na (index df)) (MissingIndex xenium) ;;
     warn_if (negb (Nat.eqb (count_all_na df) 0)) (NaNValues xenium (count_all_na df)))%result.

Definition parse_xenium (input_dir : Path) : result Canonical.dataset :=
  let base := input_dir in
  if negb (exists_ fs base) then raise (InputDirMissing xenium base)
  else if negb (is_dir fs base) then raise (InputNotADirectory xenium base)
  else
    (let candidates := _discover_files base in
     perform transcript_df <-
       load_role xenium "transcript file" (transcript candidates) _empty_transcript_df
                 _load_transcripts ;;
     perform cell_df <-
       load_role xenium "cell metadata file" (cell_metadata candidates)
                 _empty_cell_metadata_df _load_cell_metadata ;;
     perform expr_df <-
       load_role xenium "expression matrix" (expression candidates) empty_frame
                 _load_expression_matrix ;;
     perform metadata <- _load_metadata_json xenium (json_files candidates) ;;
     let metadata := setdefault "input_dir" (MStr (str_of_path base)) metadata in
     let metadata :=
       setdefault "files"
         (MDict [("transcript", path_or_none (transcript candidates));
                 ("cell_metadata", path_or_none (cell_metadata candidates));
                 ("expression", path_or_none (expression candidates));
                 ("json", MList (map (fun p => MStr (str_of_path p)) (json_files candidates)))])
         metadata in
     exec _validate_transcripts transcript_df ;;
     exec _validate_cell_metadata cell_df ;;
     exec _validate_expression expr_df ;;
     ret {| Canonical.platform_of := xenium;
            Canonical.transcript_data := transcript_df;
            Canonical.cell_metadata := cell_df;
            Canonical.expression_matrix := expr_df;
            Canonical.metadata := metadata |})%result.

End WithWorld.

End Xenium.

(** ** visium.py *)

Module Visium.

Import Frames World Pandas Columns Canonical.

Record _FileCandidates := {
  tissue_positions : option Path;
  expression : option Path;
  json_files : list Path
}.

(** A dense integer array with its shape. *)
Record ndarray := {
  n_rows : Z;
  n_cols : Z;
  values : list (list Z)
}.

(** [_MAX_DENSE_ENTRIES = 20_000_000] *)
Definition _MAX_DENSE_ENTRIES : Z := 20000000.

Section WithWorld.
Context `{Externals} (fs : node).

Definition _discover_files (base : Path) : _FileCandidates :=
  let spatial_dir := join base "spatial" in
  let has_spatial := exists_ fs spatial_dir && is_dir fs spatial_dir in
  {| tissue_positions :=
       if has_spatial
       then option_map (join spatial_dir)
              (List.find (fun n => exists_ fs (join spatial_dir n))
                         ["tissue_positions.csv"; "tissue_positions_list.csv"])
       else None;
     expression :=
       option_map (join base)
         (List.find (fun n => exists_ fs (join base n))
                    ["filtered_feature_bc_matrix.h5"; "filtered_feature_bc_matrix";
                     "raw_feature_bc_matrix.h5"; "raw_feature_bc_matrix"]);
     json_files :=
       sorted_paths
         (dedup_paths
            ((if has_spatial
              then glob_suffix fs spatial_dir ".json" ++ glob_suffix fs spatial_dir ".JSON"
              else []) ++
             glob_suffix fs base ".json" ++ glob_suffix fs base ".JSON")%list)
  |}.

Definition headerless_names : list string :=
  ["barcode"; "in_tissue"; "array_row"; "array_col";
   "pxl_row_in_fullres"; "pxl_col_in_fullres"].

(** The table of [_load_tissue_positions]: read with a header, and read again
    with the six standard names when that fails or when the six columns do
    not start with a barcode column. *)
Definition read_positions (path : Path) : result frame :=
  let again :=
    or_raise (read_csv_sniff_names path headerless_names)
             (LibraryFailure "pandas.read_csv") in
  match read_csv_sniff path with
  | Some df =>
      if Nat.eqb (ncols df) 6 && negb (String.eqb (first_lowered df) "barcode")
      then again
      else ret df
  | None => again
  end.

Definition _load_tissue_positions (path : Path) : result frame :=
  (perform df <- read_positions path ;;
   let df := _standardize_columns df in
   let col_lut := dict_by Text.lower (column_names df) in
   let barcode_col := col_lut !! "barcode" in
   let px_row_col := col_lut !! "pxl_row_in_fullres" in
   let px_col_col := col_lut !! "pxl_col_in_fullres" in
   match barcode_col, px_row_col, px_col_col with
   | Some bc, Some pr, Some pc =>
       ret {| index_name := index_name df; index := index df;
              columns := [("cell_id", astype_str (get_col df bc));
                          ("x", to_numeric (get_col df pc));
                          ("y", to_numeric (get_col df pr));
                          ("cell_type", broadcast (nrows df) NA)] |}
   | _, _, _ =>
       raise (MissingColumns visium "tissue_positions"
                (missing_of [("barcode", barcode_col);
                             ("pxl_row_in_fullres", px_row_col);
                             ("pxl_col_in_fullres", px_col_col)])
                (column_names df) path)
   end)%result.

(** [_first_existing(base, names)]: each name exactly, then up to case. *)
Definition _first_existing (base : Path) (names : list string) : option Path :=
  first_some
    (fun n =>
       if exists_ fs (join base n) then Some (join base n)
       else
         let lower := match iterdir fs base with
                      | Some l => dict_by (fun c => Text.lower (name c)) l
                      | None => ∅
                      end in
         lower !! Text.lower n)
    names.

(** The lines of [for line in f] that are not empty once their line feeds
    are cut. *)
Definition tsv_lines (lines : list string) : list string :=
  List.filter (fun l => negb (String.eqb l EmptyString))
              (map (Text.rstrip_char "010"%char) lines).

Definition _read_tsv_first_col (path : Path) : result (list string) :=
  (perform lines <- or_raise (read_lines path) (LibraryFailure "open") ;;
   ret (map (fun line => hd EmptyString (Text.split_char "009"%char line)) (tsv_lines lines)))%result.

Definition _read_tsv_first_or_second_col (path : Path) : result (list string) :=
  (perform lines <- or_raise (read_lines path) (LibraryFailure "open") ;;
   ret (map (fun line =>
               let parts := Text.split_char "009"%char line in
               match parts with
               | p0 :: p1 :: _ =>
                   if negb (String.eqb (Text.strip p1) EmptyString) then p1 else p0
               | _ => hd EmptyString parts
               end)
            (tsv_lines lines)))%result.

(** [f.readline()]: the next line and the rest; the empty string at the end. *)
Definition readline (f : list string) : string * list string :=
  match f with
  | [] => (EmptyString, [])
  | l :: f' => (l, f')
  end.

(** [while line.startswith("%"): line = f.readline()] *)
Fixpoint skip_comments (line : string) (f : list string) : string * list string :=
  if Text.startswith "%" line
  then match f with
       | [] => (EmptyString, [])
       | l :: f' => skip_comments l f'
       end
  else (line, f).

Definition to_int (token : string) : result Z := or_raise (parse_int token) (BadNumber token).
Definition to_float (token : string) : result Q := or_raise (parse_float token) (BadNumber token).

(** [np.zeros((n_rows, n_cols))] *)
Definition zeros (r c : Z) : ndarray :=
  {| n_rows := r; n_cols := c;
     values := repeat (repeat 0%Z (Z.to_nat c)) (Z.to_nat r) |}.

(** [mat[r, c] = v] for indices within the shape. *)
Definition store (mat : ndarray) (r c : Z) (v : Z) : ndarray :=
  {| n_rows := n_rows mat; n_cols := n_cols mat;
     values :=
       let i := Z.to_nat r in
       let j := Z.to_nat c in
       match nth_error (values mat) i with
       | Some row =>
           (firstn i (values mat) ++
            (firstn j row ++ v :: skipn (S j) row) :: skipn (S i) (values mat))%list
       | None => values mat
       end |}.

(** The message of the error raised above the ceiling. *)
Definition too_large_message (rows cols : Z) (path : Path) : string :=
  "Visium: matrix is too large to load densely without scipy. "
  ++ "shape=(" ++ Text.str_of_Z rows ++ "," ++ Text.str_of_Z cols ++ ") entries="
  ++ Text.str_of_Z (rows * cols) ++ ". "
  ++ "Install 'scipy' for sparse loading or export a smaller panel. "
  ++ "(file: " ++ str_of_path path ++ ")".

(** The loop over the declared entries: [i] counts the entries read. *)
Fixpoint read_entries (path : Path) (total : Z) (remaining : nat) (i : Z)
  (f : list string) (mat : ndarray) : result ndarray :=
  match remaining with
  | O => ret mat
  | S remaining' =>
      let '(row, f') := readline f in
      if String.eqb row EmptyString then raise (UnexpectedEOF i total path)
      else
        match Text.split_ws (Text.strip row) with
        | p0 :: p1 :: p2 :: _ =>
            (perform r1 <- to_int p0 ;;
             perform c1 <- to_int p1 ;;
             perform v <- to_float p2 ;;
             let r := (r1 - 1)%Z in
             let c := (c1 - 1)%Z in
             if (r <? 0)%Z || (c <? 0)%Z || (n_rows mat <=? r)%Z || (n_cols mat <=? c)%Z
             then raise (EntryOutOfBounds (r + 1) (c + 1) (n_rows mat) (n_cols mat) path)
             else read_entries path total remaining' (i + 1) f' (store mat r c (trunc v)))%result
        | _ => raise (InvalidEntry row path)
        end
  end.

(** The dense load once the guard has passed: the array of zeros
    ([np.zeros] refuses a negative dimension) and the loop over the entries. *)
Definition dense_load (path : Path) (rows cols n_entries : Z) (f : list string)
  : result ndarray :=
  if (rows <? 0)%Z || (cols <? 0)%Z then raise NegativeDimensions
  else read_entries path n_entries (Z.to_nat n_entries) 0 f (zeros rows cols).

Definition _read_matrix_market_dense (path : Path) (max_dense_entries : Z) : result ndarray :=
  (perform f <- or_raise (read_lines path) (LibraryFailure "open") ;;
   let '(header, f) := readline f in
   if negb (Text.startswith "%%MatrixMarket" header) then raise (NotMatrixMarket path)
   else
     let '(line, f) := readline f in
     let '(line, f) := skip_comments line f in
     match Text.split_ws (Text.strip line) with
     | [d0; d1; d2] =>
         perform rows <- to_int d0 ;;
         perform cols <- to_int d1 ;;
         perform n_entries <- to_int d2 ;;
         if (rows * cols >? max_dense_entries)%Z
         then raise (DenseTooLarge visium (too_large_message rows cols path))
         else dense_load path rows cols n_entries f
     | _ => raise (InvalidDims line path)
     end)%result.

Definition _load_mex_dir (path : Path) : result frame :=
  let matrix_path := _first_existing path ["matrix.mtx.gz"; "matrix.mtx"] in
  let features_path :=
    _first_existing path ["features.tsv.gz"; "features.tsv"; "genes.tsv.gz"; "genes.tsv"] in
  let barcodes_path := _first_existing path ["barcodes.tsv.gz"; "barcodes.tsv"] in
  match matrix_path, features_path, barcodes_path with
  | Some mp, Some fp, Some bp =>
      (perform features <- _read_tsv_first_or_second_col fp ;;
       perform barcodes <- _read_tsv_first_col bp ;;
       perform mat <- _read_matrix_market_dense mp _MAX_DENSE_ENTRIES ;;
       if negb ((n_rows mat =? Z.of_nat (length features))%Z &&
                (n_cols mat =? Z.of_nat (length barcodes))%Z)
       then raise (ShapeMismatch visium (n_rows mat) (n_cols mat)
                                 (length features) (length barcodes) mp)
       else ret {| index_name := Some "cell_id";
                   index := map Str barcodes;
                   columns := combine features
                                (map (map (fun v => Num (inject_Z v))) (values mat)) |})%result
  | _, _, _ => raise (MexMissingFiles visium path)
  end.

Definition _load_expression_matrix (path : Path) : result frame :=
  if is_dir fs path then _load_mex_dir path
  else if Text.endswith ".h5" (suffixes_lower path) then raise (H5NeedsDependencies path)
  else raise (UnsupportedExpression path).

Definition _validate_transcripts (df : frame) : result unit :=
  match first_missing df _TRANSCRIPT_REQUIRED_OUT_COLS with
  | Some c => raise (OutputColumnMissing visium "transcript_data" c)
  | None => ret tt
  end.

Definition _validate_cell_metadata (df : frame) : result unit :=
  match first_missing df _CELL_REQUIRED_OUT_COLS with
  | Some c => raise (OutputColumnMissing visium "cell_metadata" c)
  | None => ret tt
  end.

Definition _validate_expression (df : frame) : result unit := ret tt.

Definition parse_visium (input_dir : Path) : result Canonical.dataset :=
  let base := input_dir in
  if negb (exists_ fs base) then raise (InputDirMissing visium base)
  else if negb (is_dir fs base) then raise (InputNotADirectory visium base)
  else
    (let candidates := _discover_files base in
     let transcript_df := _empty_transcript_df in
     perform cell_df <-
       load_role visium "tissue_positions file" (tissue_positions candidates)
                 _empty_cell_metadata_df _load_tissue_positions ;;
     perform expr_df <-
       load_role visium "expression matrix" (expression candidates) empty_frame
                 _load_expression_matrix ;;
     perform metadata <- _load_metadata_json visium (json_files candidates) ;;
     let metadata := setdefault "input_dir" (MStr (str_of_path base)) metadata in
     let metadata :=
       setdefault "files"
         (MDict [("tissue_positions", path_or_none (tissue_positions candidates));
                 ("expression", path_or_none (expression candidates));
                 ("json", MList (map (fun p => MStr (str_of_path p)) (json_files candidates)))])
         metadata in
     exec _validate_transcripts transcript_df ;;
     exec _validate_cell_metadata cell_df ;;
     exec _validate_expression expr_df ;;
     ret {| Canonical.platform_of := visium;
            Canonical.transcript_data := transcript_df;
            Canonical.cell_metadata := cell_df;
            Canonical.expression_matrix := expr_df;
            Canonical.metadata := metadata |})%result.

End WithWorld.

End Visium.

(** ** visium_hd.py *)

Module VisiumHD.

Import Frames World Pandas Columns Canonical.

Record _VisiumRoot := {
  root : Path;
  bin_name : option string
}.

Record _FileCandidates := {
  positions : option Path;
  expression : option Path;
  json_files : list Path
}.

(** The longest run of digits at the head of a string, and what follows. *)
Fixpoint span_digits (s : string) : string * string :=
  match s with
  | EmptyString => (EmptyString, EmptyString)
  | String a s' =>
      if Text.isdigit a
      then let '(ds, rest) := span_digits s' in (String a ds, rest)
      else (EmptyString, s)
  end.

(** The number a string of digits writes. *)
Fixpoint digits_value_aux (acc : Z) (s : string) : Z :=
  match s with
  | EmptyString => acc
  | String a s' => digits_value_aux (10 * acc + Text.digit_value a) s'
  end.

Definition digits_value (s : string) : Z := digits_value_aux 0 s.

(** [re.search] for one or more digits (group 1), optional blanks, then
    [um]: the leftmost place where digits, taken greedily, are followed by
    optional blanks and [um]; the value of group 1. Taking fewer digits never
    helps, since a digit is neither a blank nor the letter u. *)
Fixpoint search_digits_um (s : string) : option Z :=
  match s with
  | EmptyString => None
  | String a s' =>
      if Text.isdigit a
      then let '(ds, rest) := span_digits s in
           if Text.startswith "um" (Text.lstrip rest) then Some (digits_value ds)
           else search_digits_um s'
      else search_digits_um s'
  end.

(** [re.search] for one or more digits: the first run of digits. *)
Fixpoint search_digits (s : string) : option Z :=
  match s with
  | EmptyString => None
  | String a s' =>
      if Text.isdigit a then Some (digits_value (fst (span_digits s)))
      else search_digits s'
  end.

(** [bin_size_um(p)] *)
Definition bin_size_um (p : Path) : option Z :=
  match search_digits_um (Text.lower (name p)) with
  | Some v => Some v
  | None => search_digits (name p)
  end.

(** [scored.sort(key=lambda t: t[0])], a stable sort. *)
Fixpoint insert_scored (x : Z * Path) (l : list (Z * Path)) : list (Z * Path) :=
  match l with
  | [] => [x]
  | y :: l' => if (fst x <? fst y)%Z then x :: l else y :: insert_scored x l'
  end.

Definition sort_scored (l : list (Z * Path)) : list (Z * Path) :=
  fold_left (fun acc x => insert_scored x acc) l [].

(** The split of the bins into [scored] and [unscored]. *)
Definition scored_of (bins : list Path) : list (Z * Path) :=
  flat_map (fun d => match bin_size_um d with
                     | Some v => [(v, d)]
                     | None => []
                     end) bins.

Definition unscored_of (bins : list Path) : list Path :=
  List.filter (fun d => match bin_size_um d with
                        | Some _ => false
                        | None => true
                        end) bins.

(** The choice among the bin directories, none when there is no bin. *)
Definition choose_bin (bins : list Path) : option Path :=
  match sort_scored (scored_of bins) with
  | (_, chosen) :: _ => Some chosen
  | [] => hd_error (Text.sort_by name (unscored_of bins))
  end.

Section WithWorld.
Context `{Externals} (fs : node).

Definition _discover_visium_root (base : Path) : _VisiumRoot :=
  let binned := join base "binned_outputs" in
  if negb (exists_ fs binned) || negb (is_dir fs binned)
  then {| root := base; bin_name := None |}
  else
    let bins := match iterdir fs binned with
                | Some l => List.filter (is_dir fs) l
                | None => []
                end in
    match choose_bin bins with
    | Some chosen => {| root := chosen; bin_name := Some (name chosen) |}
    | None => {| root := base; bin_name := None |}
    end.

(** [_first_existing(paths)] *)
Definition _first_existing (paths : list Path) : option Path :=
  List.find (exists_ fs) paths.

Definition _discover_files (root : Path) : _FileCandidates :=
  let spatial := join root "spatial" in
  let positions :=
    if exists_ fs spatial && is_dir fs spatial
    then _first_existing [join spatial "tissue_positions.csv";
                          join spatial "tissue_positions_list.csv";
                          join spatial "tissue_positions.parquet";
                          join spatial "tissue_positions_list.parquet"]
    else None in
  let expression :=
    match List.find (fun n => exists_ fs (join root n))
                    ["filtered_feature_bc_matrix.h5"; "filtered_feature_bc_matrix.H5";
                     "raw_feature_bc_matrix.h5"; "raw_feature_bc_matrix.H5"] with
    | Some n => Some (join root n)
    | None =>
        match List.find (fun n => exists_ fs (join root n) && is_dir fs (join root n))
                        ["filtered_feature_bc_matrix"; "raw_feature_bc_matrix"] with
        | Some n => Some (join root n)
        | None =>
            _first_existing [join root "expression.csv"; join root "expression.csv.gz";
                             join root "matrix.csv"; join root "matrix.csv.gz";
                             join root "expression.tsv"]
        end
    end in
  {| positions := positions;
     expression := expression;
     json_files := sorted_paths (glob_suffix fs root ".json" ++ glob_suffix fs root ".JSON")%list
  |}.

(** [a or b] on optional column names. *)
Definition or_opt (a b : option string) : option string :=
  match a with
  | Some v => if String.eqb v EmptyString then b else Some v
  | None => b
  end.

(** [it.fillna(0).astype(int) == 1], one value at a time. *)
Definition in_tissue_is_one (c : cell) : bool :=
  match c with
  | Num q => (trunc q =? 1)%Z
  | _ => (0 =? 1)%Z
  end.

(** The rows of a column that a boolean mask keeps. *)
Definition select_rows (mask : list bool) (col : list cell) : list cell :=
  map snd (List.filter fst (combine mask col)).

(** [out.loc[mask].reset_index(drop=True)] *)
Definition filter_rows (out : frame) (mask : list bool) : frame :=
  let kept := length (List.filter (fun b => b) (firstn (nrows out) mask)) in
  {| index_name := None;
     index := range_index kept;
     columns := map (fun kv => (fst kv, select_rows mask (snd kv))) (columns out) |}.

(** The table [_load_positions_as_cell_metadata] builds from the resolved
    columns:
    [[
    out = pd.DataFrame({"cell_id": df[barcode_col].astype("string"),
                        "x": df[x_src], "y": df[y_src], "cell_type": pd.NA})
    out = _coerce_numeric(out, ["x", "y"])
    out["cell_type"] = out["cell_type"].astype("string")
    ]] *)
Definition positions_table (df : frame) (bc xs ys : string) : frame :=
  let out := {| index_name := index_name df; index := index df;
                columns := [("cell_id", astype_string (get_col df bc));
                            ("x", get_col df xs);
                            ("y", get_col df ys);
                            ("cell_type", broadcast (nrows df) NA)] |} in
  let out := _coerce_numeric out ["x"; "y"] in
  set_col out "cell_type" (astype_string (get_col out "cell_type")).

(** The tissue filter:
    [[
    if in_tissue_col is not None:
        it = pd.to_numeric(df[in_tissue_col], errors="coerce")
        if it.notna().any():
            before = len(out)
            out = out.loc[it.fillna(0).astype(int) == 1].reset_index(drop=True)
            after = len(out)
            if after != before:
                logger.info(...)
    ]] *)
Definition keep_in_tissue (df : frame) (in_tissue_col : option string) (out : frame)
  : result frame :=
  match in_tissue_col with
  | Some ic =>
      let it := to_numeric (get_col df ic) in
      if any_number it then
        let before := nrows out in
        let out' := filter_rows out (map in_tissue_is_one it) in
        let after := nrows out' in
        (exec warn_if (negb (Nat.eqb after before)) (TissueFiltered before after) ;;
         ret out')%result
      else ret out
  | None => ret out
  end.

Definition _load_positions_as_cell_metadata (path : Path) : result frame :=
  let suf := suffixes_lower path in
  (perform df <-
     (if Text.endswith ".parquet" suf
      then or_raise (read_parquet path) (ReadFailed visium_hd "tissue positions parquet" path)
      else or_raise (read_csv path) (ReadFailed visium_hd "tissue positions CSV" path)) ;;
   let df := _standardize_columns df in
   let colmap := _lower_map_columns (column_names df) in
   let barcode_col := _first_present colmap
                        ["barcode"; "barcodes"; "spot"; "spot_id"; "cell_id"] in
   let in_tissue_col := _first_present colmap ["in_tissue"; "tissue"] in
   let px_row_col := _first_present colmap
                       ["pxl_row_in_fullres"; "pixel_row"; "pxl_row"; "row_px"] in
   let px_col_col := _first_present colmap
                       ["pxl_col_in_fullres"; "pixel_col"; "pxl_col"; "col_px"] in
   let array_row_col := _first_present colmap ["array_row"; "row"; "grid_row"] in
   let array_col_col := _first_present colmap ["array_col"; "col"; "grid_col"] in
   match barcode_col with
   | None => raise (MissingColumns visium_hd "tissue positions" ["barcode"]
                                   (column_names df) path)
   | Some bc =>
       let x_src := or_opt px_col_col array_col_col in
       let y_src := or_opt px_row_col array_row_col in
       match x_src, y_src with
       | Some xs, Some ys =>
           let out := positions_table df bc xs ys in
           perform out <- keep_in_tissue df in_tissue_col out ;;
           exec warn_if (any_na (get_col out "x") || any_na (get_col out "y"))
                        (NaNCoordinates visium_hd
                           (count_na_rows (get_col out "x") (get_col out "y"))) ;;
           ret out
       | _, _ => raise (MissingColumns visium_hd "tissue positions" ["x"; "y"]
                                       (column_names df) path)
       end
   end)%result.

(** The reader [_load_expression_table_csv] picks by suffix: gzipped CSV,
    tab-separated, else plain CSV. *)
Definition read_expression_table (path : Path) : option frame :=
  let suf := suffixes_lower path in
  if Text.endswith ".csv.gz" suf then read_csv_gzip path
  else if Text.endswith ".tsv" suf then read_csv_tab path
  else read_csv path.

Definition _load_expression_table_csv (path : Path) : result frame :=
  (perform df <-
     or_raise (read_expression_table path)
              (ReadFailed visium_hd "expression matrix table" path) ;;
   let df := _standardize_columns df in
   let colmap := _lower_map_columns (column_names df) in
   let cell_col := _first_present colmap
                     ["cell_id"; "barcode"; "barcodes"; "spot"; "spot_id"] in
   let gene_col := _first_present colmap ["gene"; "feature"; "feature_name"; "symbol"] in
   let count_col := _first_present colmap ["count"; "counts"; "umi"; "umis"; "value"; "expr"] in
   match cell_col, gene_col, count_col, Nat.leb (ncols df) 6 with
   | Some cc, Some gc, Some nc, true => ret (pivot_long df cc gc nc)
   | _, _, _, _ =>
       if Nat.ltb (ncols df) 2 then raise (TooFewColumns visium_hd path)
       else
         let first := first_lowered df in
         if Text.mem first ["cell_id"; "barcode"; "barcodes"; "spot"; "spot_id"]
         then ret (wide_by_first_column df)
         else if Text.mem first ["gene"; "feature"; "feature_name"; "symbol"]
         then ret (wide_transposed df)
         else exec warn (FormatAmbiguous visium_hd) ;; ret (wide_by_first_column df)
   end)%result.

Definition _load_10x_h5 (path : Path) : result frame :=
  if negb have_h5py then raise (MissingDependency visium_hd "h5py" path)
  else if negb have_scipy then raise (MissingDependency visium_hd "scipy" path)
  else
    (perform f <- or_raise (h5_read path) (ReadFailed visium_hd "H5 matrix" path) ;;
     perform g <- or_raise f (H5MissingGroup visium_hd "/matrix" path) ;;
     perform feat_g <- or_raise (h5_features g)
                                (H5MissingGroup visium_hd "/matrix/features" path) ;;
     perform genes <- or_raise (Xenium.feature_names_of feat_g)
                               (ReadFailed visium_hd "H5 matrix" path) ;;
     let cells := h5_barcodes g in
     perform mat <- or_raise (csc_matrix (h5_data g) (h5_indices g) (h5_indptr g) (h5_shape g))
                             (LibraryFailure "scipy.sparse.csc_matrix") ;;
     from_spmatrix (sp_transpose mat) cells genes)%result.

(** [_read_tsv_first_col(path, prefer_second_col)] *)
Definition _read_tsv_first_col (path : Path) (prefer_second_col : bool)
  : result (list string) :=
  (perform lines <- or_raise (read_lines path) (LibraryFailure "open") ;;
   let rows := map (fun line => Text.split_char "009"%char (Text.rstrip_char "010"%char line))
                   (List.filter (fun line => negb (String.eqb (Text.strip line) EmptyString))
                                lines) in
   match rows with
   | [] => ret []
   | r0 :: _ =>
       if prefer_second_col && Nat.leb 2 (length r0)
       then or_raise (fold_right (fun r acc => match nth_error r 1, acc with
                                               | Some v, Some l => Some (v :: l)
                                               | _, _ => None
                                               end) (Some []) rows)
                     IndexOutOfRange
       else ret (map (fun r => hd EmptyString r) rows)
   end)%result.

Definition _load_mex_dir (path : Path) : result frame :=
  if negb have_scipy then raise (MissingDependency visium_hd "scipy" path)
  else
    let matrix_path := _first_existing [join path "matrix.mtx.gz"; join path "matrix.mtx"] in
    let barcodes_path := _first_existing [join path "barcodes.tsv.gz"; join path "barcodes.tsv"] in
    let features_path :=
      _first_existing [join path "features.tsv.gz"; join path "features.tsv";
                       join path "genes.tsv.gz"; join path "genes.tsv"] in
    match matrix_path, barcodes_path, features_path with
    | Some mp, Some bp, Some fp =>
        (perform mat <- or_raise (mmread mp) (ReadFailed visium_hd "MEX matrix" mp) ;;
         perform barcodes <- _read_tsv_first_col bp false ;;
         perform features <- _read_tsv_first_col fp true ;;
         from_spmatrix (sp_transpose mat) barcodes features)%result
    | _, _, _ => raise (MexMissingFiles visium_hd path)
    end.

Definition _load_expression_matrix (path : Path) : result frame :=
  if is_dir fs path then _load_mex_dir path
  else if Text.endswith ".h5" (suffixes_lower path) then _load_10x_h5 path
  else _load_expression_table_csv path.

Definition _validate_transcripts (df : frame) : result unit :=
  match first_missing df _TRANSCRIPT_REQUIRED_OUT_COLS with
  | Some c => raise (OutputColumnMissing visium_hd "transcript_data" c)
  | None => ret tt
  end.

Definition _validate_cell_metadata (df : frame) : result unit :=
  match first_missing df _CELL_REQUIRED_OUT_COLS with
  | Some c => raise (OutputColumnMissing visium_hd "cell_metadata" c)
  | None =>
      if Nat.eqb (nrows df) 0 then ret tt
      else warn_if (any_na (get_col df "cell_id"))
                   (MissingCellId visium_hd (count_na (get_col df "cell_id")))
  end.

Definition _validate_expression (df : frame) : result unit :=
  if is_empty df then ret tt
  else
    (exec warn_if (any_na (index df)) (MissingIndex visium_hd) ;;
     warn_if (negb (Nat.eqb (count_all_na df) 0)) (NaNValues visium_hd (count_all_na df)))%result.

Definition parse_visium_hd (input_dir : Path) : result Canonical.dataset :=
  let base := input_dir in
  if negb (exists_ fs base) then raise (InputDirMissing visium_hd base)
  else if negb (is_dir fs base) then raise (InputNotADirectory visium_hd base)
  else
    (let vis_root := _discover_visium_root base in
     let candidates := _discover_files (root vis_root) in
     let transcript_df := _empty_transcript_df in
     perform cell_df <-
       load_role visium_hd "tissue positions file" (positions candidates)
                 _empty_cell_metadata_df _load_positions_as_cell_metadata ;;
     perform expr_df <-
       load_role visium_hd "expression matrix" (expression candidates) empty_frame
                 _load_expression_matrix ;;
     perform metadata <- _load_metadata_json visium_hd (json_files candidates) ;;
     let metadata := setdefault "input_dir" (MStr (str_of_path base)) metadata in
     let metadata := setdefault "selected_root" (MStr (str_of_path (root vis_root))) metadata in
     let metadata := match bin_name vis_root with
                     | Some b => setdefault "bin" (MStr b) metadata
                     | None => metadata
                     end in
     let metadata :=
       setdefault "files"
         (MDict [("positions", path_or_none (positions candidates));
                 ("expression", path_or_none (expression candidates));
                 ("json", MList (map (fun p => MStr (str_of_path p)) (json_files candidates)))])
         metadata in
     exec _validate_transcripts transcript_df ;;
     exec _validate_cell_metadata cell_df ;;
     exec _validate_expression expr_df ;;
     ret {| Canonical.platform_of := visium_hd;
            Canonical.transcript_data := transcript_df;
            Canonical.cell_metadata := cell_df;
            Canonical.expression_matrix := expr_df;
            Canonical.metadata := metadata |})%result.

End WithWorld.

End VisiumHD.

(** ** universal.py: the detector *)

Module Universal.

Import Frames World Pandas.

Record DetectionResult := {
  platform : World.platform;
  reason : string
}.

Definition merscope_signature : list string :=
  ["detected_transcripts.csv"; "detected_transcripts.parquet";
   "cell_by_gene.csv"; "cell_by_gene.parquet";
   "entity_by_gene.csv"; "entity_by_gene.parquet"].

(** The three tests of [_merscope_in_dir] on the lowered names [dn] of a
    directory. *)
Definition has_transcripts (dn : list string) : bool :=
  existsb (Text.contains "detected_transcripts") dn.

Definition has_by_gene (dn : list string) : bool :=
  existsb (fun n => Text.contains "cell_by_gene" n || Text.contains "entity_by_gene" n) dn.

Definition merscope_strong (dn : list string) : bool :=
  Text.intersects merscope_signature dn.

Definition merscope_medium (dn : list string) : bool :=
  has_transcripts dn && has_by_gene dn.

Definition merscope_weak (dn : list string) : bool :=
  (has_transcripts dn || has_by_gene dn) &&
  existsb (Text.endswith_any [".csv"; ".csv.gz"; ".parquet"]) dn.

(** The tests of the CosMx branch on the lowered names of the directory. *)
Definition cosmx_strong (names : list string) : bool :=
  Text.intersects ["tx_file.csv"; "cell_metadata.csv"; "exprmat_file.csv"] names.

Definition cosmx_pair (names : list string) : bool :=
  existsb (fun n => Text.contains "tx_" n || Text.contains "transcript" n) names &&
  existsb (fun n => Text.contains "cell_metadata" n || Text.contains "cellmeta" n) names.

(** The tests of the Xenium branch. *)
Definition xenium_strong (names : list string) : bool :=
  Text.intersects ["transcripts.parquet"; "cells.parquet"; "cell_feature_matrix.h5";
                   "experiment.xenium"] names.

Definition xenium_pair (names : list string) : bool :=
  existsb (Text.startswith "transcripts") names && existsb (Text.startswith "cells") names.

Definition has_feature_bc_matrix (names : list string) : bool :=
  Text.mem "filtered_feature_bc_matrix" names ||
  Text.mem "filtered_feature_bc_matrix.h5" names ||
  Text.mem "raw_feature_bc_matrix" names ||
  Text.mem "raw_feature_bc_matrix.h5" names.

(** [_is_tabular_file(p)] *)
Definition _is_tabular_file (p : Path) : bool :=
  Text.mem (suffixes_lower p) [".csv"; ".tsv"; ".txt"; ".csv.gz"; ".tsv.gz"; ".txt.gz"].

Section WithTree.
Context (fs : node).

(** [{c.name.lower() for c in d.iterdir()}], empty when listing fails. *)
Definition _dirnames (d : Path) : list string :=
  match iterdir fs d with
  | Some l => map (fun c => Text.lower (name c)) l
  | None => []
  end.

Definition _merscope_in_dir (d : Path) (label : string) : option DetectionResult :=
  let dn := _dirnames d in
  if merscope_strong dn
  then Some {| platform := merscope; reason := "matched MERSCOPE signature in " ++ label |}
  else if merscope_medium dn
  then Some {| platform := merscope;
               reason := "found detected_transcripts* and cell_by_gene*/entity_by_gene* in "
                         ++ label |}
  else if merscope_weak dn
  then Some {| platform := merscope; reason := "weak MERSCOPE match in " ++ label |}
  else None.

(** The directories the MERSCOPE test visits, in order, with their labels. *)
Definition to_check (p : Path) : list (Path * string) :=
  let children := match iterdir fs p with
                  | Some l => sorted_paths l
                  | None => []
                  end in
  ([(p, "root")] ++
   (if exists_ fs (join p "analysis_outputs")
    then [(join p "analysis_outputs", "analysis_outputs")] else []) ++
   flat_map
     (fun child =>
        if negb (is_dir fs child) then []
        else
          (child, String.append "child:" (name child)) ::
          (if exists_ fs (join child "analysis_outputs")
           then [(join child "analysis_outputs",
                  String.append "child:" (String.append (name child) "/analysis_outputs"))]
           else []))
     children)%list.

Definition _looks_like_visium_root (p : Path) (names : list string) : bool :=
  if negb (Text.mem "spatial" names) then false
  else if negb (has_feature_bc_matrix names) then false
  else
    Text.intersects ["tissue_positions.csv"; "tissue_positions_list.csv";
                     "tissue_positions.parquet"; "tissue_positions_list.parquet"]
                    (_dirnames (join p "spatial")).

(** The second test of [_looks_like_visium_hd_root]: the path is itself a
    bin directory. *)
Definition looks_like_bin (p : Path) (names : list string) : bool :=
  Text.mem "spatial" names && has_feature_bc_matrix names &&
  ((Text.startswith "square_" (Text.lower (name p)) &&
    Text.contains "um" (Text.lower (name p))) ||
   String.eqb (Text.lower (name (parent p))) "binned_outputs").

Definition _looks_like_visium_hd_root (p : Path) (names : list string) : bool :=
  if Text.mem "binned_outputs" names
  then
    match iterdir fs (join p "binned_outputs") with
    | None => false
    | Some l =>
        if existsb (fun d => is_dir fs d &&
                             (_looks_like_visium_root d (_dirnames d) ||
                              Text.mem "spatial" (_dirnames d))) l
        then true
        else looks_like_bin p names
    end
  else looks_like_bin p names.

Definition detect_spatial_format (input_path : Path) : result DetectionResult :=
  let p := input_path in
  if is_file fs p then
    if _is_tabular_file p
    then ret {| platform := tabular; reason := "file suffix=" ++ suffixes_lower p |}
    else raise (UnsupportedFile (name p))
  else if negb (is_dir fs p) then raise (NeitherFileNorDirectory p)
  else
    let names := _dirnames p in
    match first_some (fun dl => _merscope_in_dir (fst dl) (snd dl)) (to_check p) with
    | Some res => ret res
    | None =>
        if _looks_like_visium_hd_root p names
        then ret {| platform := visium_hd; reason := "found Space Ranger binned_outputs/" |}
        else if _looks_like_visium_root p names
        then ret {| platform := visium;
                    reason := "found spatial/tissue_positions* and feature_bc_matrix" |}
        else if xenium_strong names
        then ret {| platform := xenium; reason := "matched Xenium signature filename" |}
        else if xenium_pair names
        then ret {| platform := xenium; reason := "found transcripts* and cells* files" |}
        else if Text.mem "cell_feature_matrix" names
        then ret {| platform := xenium; reason := "found cell_feature_matrix directory" |}
        else if cosmx_strong names
        then ret {| platform := cosmx; reason := "matched CosMx signature filename" |}
        else if cosmx_pair names
        then ret {| platform := cosmx; reason := "found tx/transcript and cell metadata files" |}
        else
          let tabulars :=
            match iterdir fs p with
            | Some l => List.filter (fun c => is_file fs c && _is_tabular_file c) l
            | None => []
            end in
          match tabulars with
          | [t] => ret {| platform := tabular;
                          reason := "directory contains single tabular file: " ++ name t |}
          | _ => raise (UndeterminedFormat p)
          end
    end.

End WithTree.

End Universal.

(** ** universal.py: the loader *)

Module Loader.

Import Frames World Pandas Columns Canonical.

Definition _TRANSCRIPT_COLS : list string := ["x"; "y"; "gene"; "cell_id"].
Definition _CELL_COLS : list string := ["cell_id"; "x"; "y"; "cell_type"].

(** What [load_spatial] raises: its own exceptions, and those of the
    detector and of the parsers, which it lets through. *)
Inductive failure :=
| PathMissing (path : Path)
| TabularNotAFile (path : Path)
| UnsupportedPlatform (p : platform)
| Raised (e : error).

Inductive outcome (A : Type) :=
| Loaded (a : A) (log : list advisory)
| Failed (f : failure).
Arguments Loaded {A} a log.
Arguments Failed {A} f.

Definition of_result {A} (r : result A) : outcome A :=
  match r with
  | Ok a log => Loaded a log
  | Err e => Failed (Raised e)
  end.

(** The platform tags, as the strings the code compares and stores. *)
Definition platform_name (p : platform) : string :=
  match p with
  | cosmx => "cosmx"
  | merscope => "merscope"
  | visium => "visium"
  | visium_hd => "visium_hd"
  | xenium => "xenium"
  | tabular => "tabular"
  end.

(** [colmap.setdefault(k, c)] *)
Definition setdefault_column (k c : string) (colmap : gmap string string)
  : gmap string string :=
  match colmap !! k with
  | Some _ => colmap
  | None => <[k := c]> colmap
  end.

(** [[
    colmap = {}
    for c in df.columns:
        colmap.setdefault(str(c).strip().lower(), c)
    ]] *)
Definition colmap_of (columns : list string) : gmap string string :=
  fold_left (fun colmap c => setdefault_column (Text.lower (Text.strip c)) c colmap) columns ∅.

(** [s.fillna(v)] and [df.fillna(v)] *)
Definition fillna_cell (v : Q) (c : cell) : cell :=
  match c with
  | NA => Num v
  | _ => c
  end.

Definition fillna (v : Q) (df : frame) : frame :=
  {| index_name := index_name df; index := index df;
     columns := map (fun kv => (fst kv, map (fillna_cell v) (snd kv))) (columns df) |}.

(** [df[cols]] for a list of labels of [df] *)
Definition select (df : frame) (cols : list string) : frame :=
  {| index_name := index_name df; index := index df;
     columns := map (fun c => (c, get_col df c)) cols |}.

Section WithWorld.
Context `{Externals} (fs : node).

(** The cell table of [_parse_tabular_cells]:
    [[
    cell_metadata = pd.DataFrame({
        "cell_id": df[cell_col].astype("string"),
        "x": pd.to_numeric(df[x_col], errors="coerce"),
        "y": pd.to_numeric(df[y_col], errors="coerce"),
        "cell_type": df[type_col].astype("string") if type_col is not None
                     else pd.Series([pd.NA] * len(df), dtype="string")})
    ]] *)
Definition cell_table (df : frame) (cell_col x_col y_col : string) (type_col : option string)
  : frame :=
  {| index_name := index_name df; index := index df;
     columns := [("cell_id", astype_string (get_col df cell_col));
                 ("x", to_numeric (get_col df x_col));
                 ("y", to_numeric (get_col df y_col));
                 ("cell_type", match type_col with
                               | Some tc => astype_string (get_col df tc)
                               | None => broadcast (nrows df) NA
                               end)] |}.

(** [[
    known_cols = {cell_col, x_col, y_col}
    if type_col is not None:
        known_cols.add(type_col)
    gene_cols = [c for c in df.columns if c not in known_cols]
    ]] *)
Definition known_cols (cell_col x_col y_col : string) (type_col : option string)
  : list string :=
  ([cell_col; x_col; y_col] ++ match type_col with
                               | Some tc => [tc]
                               | None => []
                               end)%list.

Definition gene_cols_of (df : frame) (known : list string) : list string :=
  List.filter (fun c => negb (Text.mem c known)) (column_names df).

(** The expression table of [_parse_tabular_cells]:
    [[
    if gene_cols:
        expr = df[gene_cols].copy()
        expr.index = cell_metadata["cell_id"].astype("string")
        expr.index.name = "cell_id"
        expr = expr.apply(pd.to_numeric, errors="coerce").fillna(0)
    else:
        expr = pd.DataFrame(index=pd.Index(cell_metadata["cell_id"].astype("string"),
                                           name="cell_id"))
    ]] *)
Definition expression_table (df cell_metadata : frame) (gene_cols : list string) : frame :=
  let ids := astype_string (get_col cell_metadata "cell_id") in
  match gene_cols with
  | [] => {| index_name := Some "cell_id"; index := ids; columns := [] |}
  | _ :: _ =>
      let expr := with_index (select df gene_cols) (Some "cell_id") ids in
      fillna 0 (apply_to_numeric expr)
  end.

Definition cell_id_aliases : list string := ["cell_id"; "cellid"; "cell"; "barcode"; "id"].
Definition x_aliases : list string :=
  ["x"; "x_coord"; "xcoord"; "x_centroid"; "centerx"; "centroid_x"].
Definition y_aliases : list string :=
  ["y"; "y_coord"; "ycoord"; "y_centroid"; "centery"; "centroid_y"].
Definition type_aliases : list string :=
  ["cell_type"; "celltype"; "type"; "annotation"; "cluster"; "label"].

(** [_parse_tabular_cells(path)] once the path is known to be a file. *)
Definition tabular_cells (path : Path) : result dataset :=
  (perform df <- or_raise (read_csv_sniff path)
                          (ReadFailed tabular "tabular cells file" path) ;;
   let df := _standardize_columns df in
   let colmap := colmap_of (column_names df) in
   let cell_col := _first_present colmap cell_id_aliases in
   let x_col := _first_present colmap x_aliases in
   let y_col := _first_present colmap y_aliases in
   let type_col := _first_present colmap type_aliases in
   match cell_col, x_col, y_col with
   | Some cc, Some xc, Some yc =>
       let cell_metadata := cell_table df cc xc yc type_col in
       let gene_cols := gene_cols_of df (known_cols cc xc yc type_col) in
       let expr := expression_table df cell_metadata gene_cols in
       let transcript_data := empty_with_columns _TRANSCRIPT_COLS in
       exec warn_if (any_na (get_col cell_metadata "x") || any_na (get_col cell_metadata "y"))
                    (NaNCoordinates tabular
                       (count_na_rows (get_col cell_metadata "x")
                                      (get_col cell_metadata "y"))) ;;
       ret {| platform_of := tabular;
              transcript_data := transcript_data;
              Canonical.cell_metadata := select cell_metadata _CELL_COLS;
              expression_matrix := expr;
              metadata := {[ "input_file" := MStr (str_of_path path) ]} |}
   | _, _, _ =>
       raise (MissingColumns tabular "tabular cells file"
                (missing_of [("cell_id", cell_col); ("x", x_col); ("y", y_col)])
                (column_names df) path)
   end)%result.

Definition _parse_tabular_cells (path : Path) : outcome dataset :=
  if negb (is_file fs path) then Failed (TabularNotAFile path)
  else of_result (tabular_cells path).

(** [_get_parser(platform)]: nothing where the code raises its
    unsupported-platform error. *)
Definition _get_parser (p : platform) : option (Path -> result dataset) :=
  match p with
  | cosmx => Some (Cosmx.parse_cosmx fs)
  | merscope => Some (Merscope.parse_merscope fs)
  | visium => Some (Visium.parse_visium fs)
  | visium_hd => Some (VisiumHD.parse_visium_hd fs)
  | xenium => Some (Xenium.parse_xenium fs)
  | tabular => None
  end.

(** The record stored under the key [detection]. *)
Definition detection_record (det : Universal.DetectionResult) (p : Path) : meta :=
  MDict [("platform", MStr (platform_name (Universal.platform det)));
         ("reason", MStr (Universal.reason det));
         ("input_path", MStr (str_of_path p))].

(** [[
    out.setdefault("metadata", {})
    out["metadata"].setdefault("detection", {...})
    ]]
    Every parser returns a [metadata] entry, so the first line changes
    nothing. *)
Definition with_detection (det : Universal.DetectionResult) (p : Path) (out : dataset)
  : dataset :=
  {| platform_of := platform_of out;
     transcript_data := transcript_data out;
     Canonical.cell_metadata := Canonical.cell_metadata out;
     expression_matrix := expression_matrix out;
     metadata := setdefault "detection" (detection_record det p) (metadata out) |}.

Definition load_spatial (input_path : Path) : outcome dataset :=
  let p := input_path in
  if negb (exists_ fs p) then Failed (PathMissing p)
  else
    match Universal.detect_spatial_format fs p with
    | Err e => Failed (Raised e)
    | Ok det log =>
        let parsed :=
          match Universal.platform det with
          | tabular => _parse_tabular_cells p
          | other =>
              match _get_parser other with
              | Some parse => of_result (parse p)
              | None => Failed (UnsupportedPlatform other)
              end
          end in
        match parsed with
        | Loaded out log' => Loaded (with_detection det p out) (log ++ log')%list
        | Failed f => Failed f
        end
    end.

End WithWorld.

End Loader.

(** ** A small concrete world, used to run the parsers *)

Module Sample.

Import Frames World.

Definition num (z : Z) : cell := Num (inject_Z z).

(** Decimal numbers with an optional sign and an optional fraction. *)
Fixpoint all_digits (s : string) : bool :=
  match s with
  | EmptyString => true
  | String a s' => Text.isdigit a && all_digits s'
  end.

Definition parse_nat (s : string) : option Z :=
  if String.eqb s EmptyString || negb (all_digits s) then None
  else Some (VisiumHD.digits_value s).

Definition parse_signed (s : string) : option Z :=
  match s with
  | String "-" s' => option_map Z.opp (parse_nat s')
  | _ => parse_nat s
  end.

Definition parse_decimal (s : string) : option Q :=
  match Text.split_char "." (Text.strip s) with
  | [i] => option_map inject_Z (parse_signed i)
  | [i; f] =>
      match parse_signed i, parse_nat f with
      | Some a, Some b =>
          let scale := (10 ^ Z.of_nat (String.length f))%Z in
          let frac := Qmake b (Z.to_pos scale) in
          Some (if Text.startswith "-" i then inject_Z a - frac else inject_Z a + frac)%Q
      | _, _ => None
      end
  | _ => None
  end.

Definition render (q : Q) : string :=
  if Pos.eqb (Qden q) 1 then Text.str_of_Z (Qnum q)
  else Text.str_of_Z (Qnum q) ++ "/" ++ Text.str_of_Z (Zpos (Qden q)).

Definition table (cols : list (string * list cell)) : frame :=
  {| index_name := None;
     index := range_index (match cols with
                           | [] => 0
                           | (_, c) :: _ => length c
                           end);
     columns := cols |}.

Fixpoint at_path {A} (files : list (Path * A)) (p : Path) : option A :=
  match files with
  | [] => None
  | (q, a) :: files' => if path_eqb p q then Some a else at_path files' p
  end.

(** The MERSCOPE transcripts of the parser's own test. *)
Definition merscope_transcripts : frame :=
  table [("global_x", [num 1; num 2; num 3]);
         ("global_y", [num 10; num 20; num 30]);
         ("gene", [Str "A"; Str "B"; Str "C"]);
         ("EntityID", [num 1; num (-1); num 2])].

(** A CosMx transcript table whose second gene is missing. *)
Definition cosmx_transcripts : frame :=
  table [("x", [num 1; num 2]);
         ("y", [num 5; num 6]);
         ("target", [Str "G1"; NA]);
         ("cell", [Str "c1"; Str "c2"])].

(** The long table of the specification. *)
Definition long_expression : frame :=
  table [("cell_id", [Str "c1"; Str "c1"; Str "c1"; Str "c2"]);
         ("gene", [Str "g1"; Str "g1"; Str "g2"; Str "g1"]);
         ("count", [num 5; num 3; num 1; num 4])].

(** Tissue positions with in_tissue 1, 0, 1. *)
Definition positions : frame :=
  table [("barcode", [Str "AA"; Str "BB"; Str "CC"]);
         ("in_tissue", [num 1; num 0; num 1]);
         ("array_row", [num 0; num 0; num 1]);
         ("array_col", [num 0; num 1; num 0]);
         ("pxl_row_in_fullres", [num 100; num 200; num 300]);
         ("pxl_col_in_fullres", [num 10; num 20; num 30])].

(** Tissue positions whose first in_tissue value is 1.5. *)
Definition fractional_positions : frame :=
  table [("barcode", [Str "AA"; Str "BB"]);
         ("in_tissue", [Num (3 # 2); num 0]);
         ("pxl_row_in_fullres", [num 100; num 200]);
         ("pxl_col_in_fullres", [num 10; num 20])].

Definition csv_files : list (Path * frame) :=
  [(["merscope"; "detected_transcripts.csv"], merscope_transcripts);
   (["cosmx"; "tx_file.csv"], cosmx_transcripts);
   (["xenium_csv"; "transcripts.csv"], cosmx_transcripts);
   (["cosmx"; "exprMat_file.csv"], long_expression);
   (["xenium_csv"; "expression.csv"], long_expression);
   (["hd"; "binned_outputs"; "square_002um"; "expression.csv"], long_expression);
   (["hd"; "binned_outputs"; "square_002um"; "spatial"; "tissue_positions.csv"], positions);
   (["frac"; "spatial"; "tissue_positions.csv"], fractional_positions)].

Definition lf : string := String "010"%char EmptyString.
Definition tab : string := String "009"%char EmptyString.

Definition text_files : list (Path * list string) :=
  [(["visium"; "filtered_feature_bc_matrix"; "matrix.mtx"],
    ["%%MatrixMarket matrix coordinate integer general" ++ lf;
     "% three features, two barcodes" ++ lf;
     "3 2 1" ++ lf;
     "1 1 7" ++ lf]);
   (["visium"; "filtered_feature_bc_matrix"; "features.tsv"],
    ["ENSG1" ++ tab ++ "A" ++ lf; "ENSG2" ++ tab ++ "B" ++ lf]);
   (["visium"; "filtered_feature_bc_matrix"; "barcodes.tsv"],
    ["AA" ++ lf; "BB" ++ lf]);
   (["xenium"; "cell_feature_matrix"; "features.tsv"],
    ["ENSG1" ++ tab ++ "A" ++ lf; "ENSG2" ++ tab ++ "B" ++ lf]);
   (["xenium"; "cell_feature_matrix"; "barcodes.tsv"],
    ["AA" ++ lf; "BB" ++ lf]);
   (["big"; "matrix.mtx"],
    ["%%MatrixMarket matrix coordinate integer general" ++ lf;
     "5000 5000 0" ++ lf])].

Definition sparse_files : list (Path * spmatrix) :=
  [(["xenium"; "cell_feature_matrix"; "matrix.mtx"],
    {| sp_rows := 3; sp_cols := 2; sp_entries := [(0, 0, inject_Z 7)] |})].

Definition h5_files : list (Path * option h5matrix) :=
  [(["xenium_h5"; "cell_feature_matrix.h5"],
    Some {| h5_data := []; h5_indices := []; h5_indptr := [];
            h5_shape := (10000, 10000)%Z;
            h5_features := Some [("name", ["A"])];
            h5_barcodes := ["AA"] |})].

(** The readers of the sample world; [scipy] tells whether scipy is there. *)
Definition world (scipy : bool) : Externals :=
  {| parse_num := parse_decimal;
     render_num := render;
     parse_int := parse_signed;
     parse_float := parse_decimal;
     read_csv := at_path csv_files;
     read_csv_gzip := fun _ => None;
     read_csv_tab := fun _ => None;
     read_parquet := fun _ => None;
     read_csv_sniff := at_path csv_files;
     read_csv_sniff_names := fun _ _ => None;
     read_json := fun _ => None;
     read_lines := at_path text_files;
     mmread := at_path sparse_files;
     h5_read := at_path h5_files;
     csc_matrix := fun _ _ _ _ => None;
     have_h5py := true;
     have_scipy := scipy |}.

Definition mex_dir : node :=
  Dir [("matrix.mtx", File); ("features.tsv", File); ("barcodes.tsv", File)].

(** The sample tree. *)
Definition tree : node :=
  Dir [("empty", Dir []);
       ("cosmx", Dir [("tx_file.csv", File); ("exprMat_file.csv", File)]);
       ("merscope", Dir [("detected_transcripts.csv", File)]);
       ("mixed", Dir [("detected_transcripts_region0.csv", File); ("tx_file.csv", File)]);
       ("visium", Dir [("filtered_feature_bc_matrix", mex_dir)]);
       ("xenium", Dir [("cell_feature_matrix", mex_dir)]);
       ("xenium_csv", Dir [("transcripts.csv", File)]);
       ("xenium_h5", Dir [("cell_feature_matrix.h5", File)]);
       ("big", Dir [("matrix.mtx", File)]);
       ("frac", Dir [("spatial", Dir [("tissue_positions.csv", File)])]);
       ("hd", Dir [("binned_outputs",
                    Dir [("square_008um", Dir []);
                         ("square_002um",
                          Dir [("spatial", Dir [("tissue_positions.csv", File)]);
                               ("expression.csv", File)])])]);
       ("hd_unnamed", Dir [("binned_outputs",
                            Dir [("fine", Dir []); ("coarse", Dir []); ("notes.txt", File)])])].

End Sample.

(** ** Statements shared by the properties below *)

Module Claims.

Import Frames World Pandas.





(** The platform of the first check that holds, in the order given. *)
Definition first_match (checks : list (bool * platform)) : option platform :=
  option_map snd (List.find fst checks).

(** Some signature of MERSCOPE, strong, medium or weak, on the names of a
    directory. *)
Definition merscope_any (dn : list string) : bool :=
  Universal.merscope_strong dn || Universal.merscope_medium dn || Universal.merscope_weak dn.

(** The checks of the detector on a directory, in their order of
    precedence. *)
Definition precedence (fs : node) (p : Path) : list (bool * platform) :=
  let names := Universal._dirnames fs p in
  [(existsb (fun dl => merscope_any (Universal._dirnames fs (fst dl))) (Universal.to_check fs p),
    merscope);
   (Universal._looks_like_visium_hd_root fs p names, visium_hd);
   (Universal._looks_like_visium_root fs p names, visium);
   (Universal.xenium_strong names || Universal.xenium_pair names ||
    Text.mem "cell_feature_matrix" names, xenium);
   (Universal.cosmx_strong names || Universal.cosmx_pair names, cosmx);
   (match iterdir fs p with
    | Some l => Nat.eqb (length (List.filter
                                   (fun c => is_file fs c && Universal._is_tabular_file c) l)) 1
    | None => false
    end, tabular)].

(** The platform a detection answers, nothing when it raises. *)
Definition detected (r : result Universal.DetectionResult) : option platform :=
  match r with
  | Ok d _ => Some (Universal.platform d)
  | Err _ => None
  end.


(** One role of an adapter: the file discovery found for it, its loader,
    the table of the result it fills and the empty table it stands for. *)
Record role := {
  found : option Path;
  load : Path -> result frame;
  table : Canonical.dataset -> frame;
  empty : frame
}.

(** An adapter call tolerates absent roles: a role without a file comes out
    as its empty table, a failure of the call is the failure of the loader
    of a role whose file was found, and the call succeeds when no role has
    a file. *)
Definition tolerant (r : result Canonical.dataset) (roles : list role) : Prop :=
  (forall ro, In ro roles -> found ro = None ->
     forall ds log, r = Ok ds log -> table ro ds = empty ro) /\
  (forall e, r = Err e ->
     exists ro p, In ro roles /\ found ro = Some p /\ load ro p = Err e) /\
  ((forall ro, In ro roles -> found ro = None) -> exists ds log, r = Ok ds log).

End Claims.

(** ** The orders the sorts follow *)




(** ** Statements shared by the further properties *)

Module Extras.

Import Frames World Pandas Canonical.

(** A platform parser: its tag, the call, the JSON side files its discovery
    lists for a directory, and its roles, each with the name the parser
    logs it under and the file the discovery picks for it. *)
Record parser := {
  tag : platform;
  run : Path -> result dataset;
  side_files : Path -> list Path;
  roles : Path -> list (string * option Path)
}.

Definition cosmx_parser `{Externals} (fs : node) : parser :=
  {| tag := cosmx; run := Cosmx.parse_cosmx fs;
     side_files := fun base => Cosmx.json_files (Cosmx._discover_files fs base);
     roles := fun base =>
       let c := Cosmx._discover_files fs base in
       [("transcript file", Cosmx.transcript c);
        ("cell metadata file", Cosmx.cell_metadata c);
        ("expression matrix file", Cosmx.expression c)] |}.

Definition merscope_parser `{Externals} (fs : node) : parser :=
  {| tag := merscope; run := Merscope.parse_merscope fs;
     side_files := fun base => Merscope.json_files (Merscope._discover_files fs base);
     roles := fun base =>
       let c := Merscope._discover_files fs base in
       [("transcript file", Merscope.transcript c);
        ("cell metadata file", Merscope.cell_metadata c);
        ("expression matrix file", Merscope.expression c)] |}.

Definition xenium_parser `{Externals} (fs : node) : parser :=
  {| tag := xenium; run := Xenium.parse_xenium fs;
     side_files := fun base => Xenium.json_files (Xenium._discover_files fs base);
     roles := fun base =>
       let c := Xenium._discover_files fs base in
       [("transcript file", Xenium.transcript c);
        ("cell metadata file", Xenium.cell_metadata c);
        ("expression matrix", Xenium.expression c)] |}.

Definition visium_parser `{Externals} (fs : node) : parser :=
  {| tag := visium; run := Visium.parse_visium fs;
     side_files := fun base => Visium.json_files (Visium._discover_files fs base);
     roles := fun base =>
       let c := Visium._discover_files fs base in
       [("tissue_positions file", Visium.tissue_positions c);
        ("expression matrix", Visium.expression c)] |}.

Definition visium_hd_parser `{Externals} (fs : node) : parser :=
  {| tag := visium_hd; run := VisiumHD.parse_visium_hd fs;
     side_files := fun base =>
       VisiumHD.json_files
         (VisiumHD._discover_files fs
            (VisiumHD.root (VisiumHD._discover_visium_root fs base)));
     roles := fun base =>
       let c := VisiumHD._discover_files fs
                  (VisiumHD.root (VisiumHD._discover_visium_root fs base)) in
       [("tissue positions file", VisiumHD.positions c);
        ("expression matrix", VisiumHD.expression c)] |}.

(** The five parsers [_get_parser] dispatches to. *)
Definition parsers `{Externals} (fs : node) : list parser :=
  [cosmx_parser fs; merscope_parser fs; xenium_parser fs; visium_parser fs;
   visium_hd_parser fs].

(** The files the discoveries of the five parsers pick for their roles in a
    directory, and the side files they list. *)
Definition discovered (fs : node) (base : Path) : list (option Path) :=
  let c := Cosmx._discover_files fs base in
  let m := Merscope._discover_files fs base in
  let x := Xenium._discover_files fs base in
  let v := Visium._discover_files fs base in
  let h := VisiumHD._discover_files fs
             (VisiumHD.root (VisiumHD._discover_visium_root fs base)) in
  [Cosmx.transcript c; Cosmx.cell_metadata c; Cosmx.expression c;
   Merscope.transcript m; Merscope.cell_metadata m; Merscope.expression m;
   Xenium.transcript x; Xenium.cell_metadata x; Xenium.expression x;
   Visium.tissue_positions v; Visium.expression v;
   VisiumHD.positions h; VisiumHD.expression h].

Definition listed (fs : node) (base : Path) : list Path :=
  (Cosmx.json_files (Cosmx._discover_files fs base) ++
   Merscope.json_files (Merscope._discover_files fs base) ++
   Xenium.json_files (Xenium._discover_files fs base) ++
   Visium.json_files (Visium._discover_files fs base) ++
   VisiumHD.json_files
     (VisiumHD._discover_files fs
        (VisiumHD.root (VisiumHD._discover_visium_root fs base))))%list.

(** The metadata of a parser: the documents of the side files, then the
    parser's own entries, each stored unless its key is already there. *)
Definition with_defaults (defaults : list (string * meta)) (m : gmap string meta)
  : gmap string meta :=
  fold_left (fun d kv => setdefault (fst kv) (snd kv) d) defaults m.

(** The keys a parser stores of its own. *)
Definition own_keys : list string := ["input_dir"; "selected_root"; "bin"; "files"].

(** The endings of the names the side-file patterns match. *)
Definition json_name (n : string) : bool :=
  Text.endswith_any [".json"; ".JSON"; ".xenium"; ".XENIUM"] n.

(** A side file [json.load] fails on. *)
Definition unreadable `{Externals} (f : Path) : bool :=
  match read_json f with
  | Some _ => false
  | None => true
  end.

(** One round of the loop of [_load_metadata_json]. *)
Definition json_step `{Externals} (P : platform) (acc : result (gmap string meta)) (f : Path)
  : result (gmap string meta) :=
  bind acc (fun m =>
    match read_json f with
    | Some j => ret (<[name f := MJson j]> m)
    | None => bind (warn (JsonUnreadable P f)) (fun _ => ret m)
    end).

(** What a successful call of a parser went through. *)
Definition parsed `{Externals} (fs : node) (pr : parser) (base : Path) (ds : dataset)
  (log : list advisory) : Prop :=
  is_dir fs base = true /\
  platform_of ds = tag pr /\
  column_names (transcript_data ds) = _TRANSCRIPT_REQUIRED_OUT_COLS /\
  column_names (Canonical.cell_metadata ds) = _CELL_REQUIRED_OUT_COLS /\
  exists m lm rest files,
    _load_metadata_json (tag pr) (side_files pr base) = Ok m lm /\
    metadata ds = with_defaults (("input_dir", MStr (str_of_path base)) ::
                                 rest ++ [("files", MDict files)])%list m /\
    List.Forall (fun kv => In (fst kv) ["selected_root"; "bin"]) rest /\
    forall n, In (n, None) (roles pr base) -> In (RoleFileNotFound (tag pr) n) log.

(** The value of the expression table of a cell-level file for a value of
    the file: its reading as a number, and 0 where it has none. *)
Definition count_or_zero `{Externals} (v : cell) : cell :=
  match to_numeric_cell v with
  | Num q => Num q
  | _ => Num 0
  end.

(** A number or a missing value. *)
Definition numeric_or_missing (v : cell) : Prop :=
  v = NA \/ exists q, v = Num q.










(** Strings without a dot. *)
Fixpoint no_dot (s : string) : bool :=
  match s with
  | EmptyString => true
  | String a s' => negb (Ascii.eqb a ".") && no_dot s'
  end.

(** The endings [_is_tabular_file] accepts. *)
Definition tabular_endings : list string :=
  [".csv"; ".tsv"; ".txt"; ".csv.gz"; ".tsv.gz"; ".txt.gz"].



(** A dense array whose rows fit its shape. *)
Definition well_shaped (mat : Visium.ndarray) : Prop :=
  (0 <= Visium.n_rows mat)%Z /\ (0 <= Visium.n_cols mat)%Z /\
  length (Visium.values mat) = Z.to_nat (Visium.n_rows mat) /\
  List.Forall (fun row => length row = Z.to_nat (Visium.n_cols mat)) (Visium.values mat).

(** The rows the feature and barcode readers of Xenium and Visium HD split
    a file into: the lines that are not blank, their line feeds cut, split
    at the tabs. *)
Definition tsv_rows (lines : list string) : list (list string) :=
  map (fun line => Text.split_char "009"%char (Text.rstrip_char "010"%char line))
      (List.filter (fun line => negb (String.eqb (Text.strip line) EmptyString)) lines).

(** What [add_root] keeps of the search roots of MERSCOPE: the first root
    stays first, every root is a directory and none is listed twice. *)
Definition roots_ok (fs : node) (first : Path) (roots : list Path) : Prop :=
  hd_error roots = Some first /\
  List.Forall (fun r => is_dir fs r = true) roots /\
  List.NoDup roots.

End Extras.

(** ** More of the concrete world *)

Module Examples.

Import Frames World.

(** A cell-level table: a padded label, coordinates and counts given as
    numbers and as text, a cell type under the name Cluster. *)
Definition cells : frame :=
  Sample.table [(" Cell_ID", [Str "c1"; Str "c2"; Str "c3"]);
                ("X", [Sample.num 1; Str "7.5"; Str "left"]);
                ("Y", [Sample.num 4; Sample.num 5; Sample.num 6]);
                ("Cluster", [Str "T"; NA; Str "B"]);
                ("GeneA", [Sample.num 2; Str "n/a"; NA]);
                ("GeneB", [Str "3"; Sample.num 0; Sample.num 1])].

(** An expression table with the genes in its rows and six cells in its
    columns. *)
Definition by_gene : frame :=
  Sample.table [("Gene", [Str "A"; Str "B"]);
                ("c1", [Sample.num 1; Sample.num 0]);
                ("c2", [Sample.num 0; Str "2"]);
                ("c3", [Sample.num 3; NA]);
                ("c4", [Sample.num 0; Sample.num 0]);
                ("c5", [Str "x"; Sample.num 5]);
                ("c6", [Sample.num 6; Sample.num 6])].


Definition manifest : json := JObject [("run", JAtom "12")].

Definition tables : list (Path * frame) :=
  [(["cells.csv"], cells);
   (["ids"; "cell_metadata.csv"], Sample.table [("CellID", [Str "a"; Str "b"])]);
   (["ids"; "tx_file.csv"],
    Sample.table [("x", [Sample.num 1]); ("target", [Str "G"]); ("cell", [Str "a"])]);
   (["wide"; "exprMat_file.csv"], by_gene);
   (["run"; "detected_transcripts.csv"], Sample.merscope_transcripts)].

Definition documents : list (Path * json) :=
  [(["run"; "manifest.json"], manifest)].

(** A MEX directory of two features and three barcodes; the entry of the
    second feature and the third barcode is given twice. *)
Definition texts : list (Path * list string) :=
  [(["mex"; "matrix.mtx"],
    ["%%MatrixMarket matrix coordinate integer general" ++ Sample.lf;
     "% written by hand" ++ Sample.lf;
     "2 3 3" ++ Sample.lf;
     "1 1 7" ++ Sample.lf;
     "2 3 4" ++ Sample.lf;
     "2 3 5.9" ++ Sample.lf]);
   (["mex"; "features.tsv"],
    ["ENSG1" ++ Sample.tab ++ "A" ++ Sample.lf; "ENSG2" ++ Sample.lf]);
   (["mex"; "barcodes.tsv"],
    ["AA" ++ Sample.lf; Sample.lf; "BB" ++ Sample.lf; "CC" ++ Sample.lf])].

(** Readers that know the tables, the texts and the one document above. *)
Definition world : Externals :=
  {| parse_num := Sample.parse_decimal;
     render_num := Sample.render;
     parse_int := Sample.parse_signed;
     parse_float := Sample.parse_decimal;
     read_csv := Sample.at_path tables;
     read_csv_gzip := fun _ => None;
     read_csv_tab := fun _ => None;
     read_parquet := fun _ => None;
     read_csv_sniff := Sample.at_path tables;
     read_csv_sniff_names := fun _ _ => None;
     read_json := Sample.at_path documents;
     read_lines := Sample.at_path texts;
     mmread := fun _ => None;
     h5_read := fun _ => None;
     csc_matrix := fun _ _ _ _ => None;
     have_h5py := false;
     have_scipy := false |}.

(** A cell-level file, a directory holding nothing but such a file, a MEX
    directory, a CosMx directory with a wide expression file, a MERSCOPE
    export with its [analysis_outputs/], and a MERSCOPE run with a readable
    and an unreadable side file. *)
Definition tree : node :=
  Dir [("cells.csv", File);
       ("drop", Dir [("cells.csv", File)]);
       ("mex", Dir [("matrix.mtx", File); ("features.tsv", File); ("barcodes.tsv", File)]);
       ("wide", Dir [("exprMat_file.csv", File)]);
       ("vizgen", Dir [("detected_transcripts.csv", File);
                       ("region_0", Dir [("cell_by_gene.csv", File)]);
                       ("analysis_outputs", Dir [("detected_transcripts.csv", File)])]);
       ("run", Dir [("detected_transcripts.csv", File);
                    ("manifest.json", File);
                    ("broken.json", File)])].

End Examples.

(** * Properties *)

Lemma lower_map_lookup_acc (cols : list string) (m : gmap string string) (l : string) :
  fold_left Columns.lower_map_step cols m !! l =
  match m !! l with
  | Some v => Some v
  | None => List.find (Columns.matches l) cols
  end.
Proof.
  revert m. induction cols as [|c cols IH]; intros m; simpl.
  - destruct (m !! l); reflexivity.
  - rewrite IH. unfold Columns.lower_map_step, Columns.matches.
    destruct (String.eqb_spec (Text.lower (Text.strip c)) l) as [->|Hne].
    + destruct (m !! l) eqn:Hm; [rewrite Hm; reflexivity|].
      rewrite lookup_insert_eq. reflexivity.
    + destruct (m !! Text.lower (Text.strip c)) eqn:Hm; [reflexivity|].
      rewrite lookup_insert_ne by exact Hne. reflexivity.
Qed.

Lemma lower_map_lookup (cols : list string) (l : string) :
  Columns._lower_map_columns cols !! l = List.find (Columns.matches l) cols.
Proof.
  unfold Columns._lower_map_columns. rewrite lower_map_lookup_acc.
  rewrite lookup_empty. reflexivity.
Qed.

Lemma find_matches_none (cols : list string) (a : string) :
  List.find (Columns.matches a) cols = None <->
  existsb (Columns.matches a) cols = false.
Proof.
  induction cols as [|c cols IH]; simpl; [tauto|].
  destruct (Columns.matches a c); simpl; [split; discriminate | exact IH].
Qed.

Lemma resolve_refines_spec (cols aliases : list string) :
  Columns.resolve cols aliases = Columns.resolve_spec cols aliases.
Proof.
  unfold Columns.resolve, Columns.resolve_spec.
  induction aliases as [|a aliases IH]; simpl; [reflexivity|].
  rewrite lower_map_lookup.
  destruct (existsb (Columns.matches a) cols) eqn:He.
  - destruct (List.find (Columns.matches a) cols) eqn:Hf; [reflexivity|].
    apply find_matches_none in Hf. congruence.
  - apply find_matches_none in He. rewrite He. exact IH.
Qed.

(** C4. The column resolver follows the priority order of the alias list, not
    the order of the table: the map built by [_lower_map_columns] sends a
    lowered, trimmed name to the first column carrying it, [_first_present]
    answers with the entry of the first alias that the map holds and with
    nothing when no alias is present, and with aliases a, b and columns b, a
    the answer is a. *)
Theorem C4_resolver_alias_priority :
  (forall (cols : list string) (l : string),
      Columns._lower_map_columns cols !! l = List.find (Columns.matches l) cols)
  /\ (forall (m : gmap string string) (aliases : list string),
      Columns._first_present m aliases =
      match List.find (fun a => bool_decide (is_Some (m !! a))) aliases with
      | Some a => m !! a
      | None => None
      end)
  /\ (forall cols aliases : list string,
      Columns.resolve cols aliases = Columns.resolve_spec cols aliases)
  /\ Columns.resolve ["b"; "a"] ["a"; "b"] = Some "a".
Proof.
  split; [exact lower_map_lookup|].
  split.
  - intros m aliases. induction aliases as [|a aliases IH]; simpl; [reflexivity|].
    destruct (m !! a) eqn:Hm.
    + rewrite bool_decide_eq_true_2 by eauto. exact (eq_sym Hm).
    + rewrite bool_decide_eq_false_2 by (intros [v Hv]; congruence). exact IH.
  - split; [exact resolve_refines_spec|].
    vm_compute. reflexivity.
Qed.

(** ** The result monad *)

Import Frames World Pandas.

Lemma bind_ok_inv {A B} (m : result A) (k : A -> result B) (b : B) (log : list advisory) :
  bind m k = Ok b log ->
  exists a l1 l2, m = Ok a l1 /\ k a = Ok b l2 /\ log = (l1 ++ l2)%list.
Proof.
  unfold bind. destruct m as [a l1|e]; [|discriminate].
  destruct (k a) as [b' l2|e] eqn:Hk; [|discriminate].
  intros [= <- <-]. exists a, l1, l2. auto.
Qed.

Lemma bind_err_inv {A B} (m : result A) (k : A -> result B) (e : error) :
  bind m k = Err e ->
  m = Err e \/ exists a l, m = Ok a l /\ k a = Err e.
Proof.
  unfold bind. destruct m as [a l1|e']; [|intros [= ->]; left; reflexivity].
  destruct (k a) as [b' l2|e'] eqn:Hk; [discriminate|].
  intros [= ->]. right. exists a, l1. auto.
Qed.

Lemma or_raise_ok_inv {A} (o : option A) (e : error) (a : A) (log : list advisory) :
  or_raise o e = Ok a log -> o = Some a /\ log = [].
Proof. destruct o; cbn; [intros [= <- <-]; auto | discriminate]. Qed.

Lemma warn_if_ok (b : bool) (a : advisory) :
  warn_if b a = Ok tt (if b then [a] else []).
Proof. destruct b; reflexivity. Qed.

(** ** What the loaders put into their tables *)



Lemma cosmx_transcript_columns `{Externals} (df : frame) (xc yc gc : string)
  (cell_col : option string) :
  columns (Cosmx.transcript_table df xc yc gc cell_col) =
  [("x", to_numeric (get_col df xc));
   ("y", to_numeric (get_col df yc));
   ("gene", astype_string (astype_str (get_col df gc)));
   ("cell_id", astype_string (col_or_na df cell_col))].
Proof. reflexivity. Qed.

Lemma xenium_transcript_columns `{Externals} (df : frame) (xc yc gc : string)
  (cell_col : option string) :
  columns (Xenium.transcript_table df xc yc gc cell_col) =
  [("x", to_numeric (get_col df xc));
   ("y", to_numeric (get_col df yc));
   ("gene", astype_string (astype_str (get_col df gc)));
   ("cell_id", astype_string (col_or_na df cell_col))].
Proof. reflexivity. Qed.

Lemma merscope_transcript_columns `{Externals} (df : frame) (xc yc gc : string)
  (cell_col : option string) :
  columns (Merscope.transcript_table df xc yc gc cell_col) =
  [("x", to_numeric (get_col df xc));
   ("y", to_numeric (get_col df yc));
   ("gene", astype_string (astype_str (get_col df gc)));
   ("cell_id", astype_string (Merscope.cell_series_of df cell_col))].
Proof. reflexivity. Qed.









(** ** The long-format pivot *)



















(** ** The tissue filter of Visium HD *)

(** On whole numbers the test of the filter is equality with 1. *)
Lemma in_tissue_is_one_whole (z : Z) :
  VisiumHD.in_tissue_is_one (Num (inject_Z z)) = Qeq_bool (inject_Z z) 1.
Proof.
  unfold VisiumHD.in_tissue_is_one, trunc, Qeq_bool, inject_Z. cbn.
  rewrite Z.quot_1_r, !Z.mul_1_r. reflexivity.
Qed.

(** The filter keeps the rows of the mask, in their order. *)
Lemma filter_rows_column (out : frame) (mask : list bool) (c : string) (col : list cell) :
  In (c, col) (columns out) ->
  In (c, VisiumHD.select_rows mask col) (columns (VisiumHD.filter_rows out mask)).
Proof.
  intros Hin. unfold VisiumHD.filter_rows. cbn [columns].
  apply in_map_iff. exists (c, col). split; [reflexivity | exact Hin].
Qed.

(** C7. On a positions table whose in_tissue values are 1.5 and 0 the Visium
    HD loader keeps the row of 1.5: the filter compares the value cut to an
    integer with 1, so a value that is not 1 passes it. *)
Theorem C7_fractional_in_tissue_row_is_kept :
  get_col (_standardize_columns Sample.fractional_positions) "in_tissue"
    = [Num (3 # 2); Sample.num 0] /\
  ~ (3 # 2 == 1)%Q /\
  exists out log,
    @VisiumHD._load_positions_as_cell_metadata (Sample.world true)
      ["frac"; "spatial"; "tissue_positions.csv"] = Ok out log /\
    get_col out "cell_id" = [Str "AA"] /\
    nrows out = 1.
Proof.
  split; [reflexivity|]. split; [intros Hq; discriminate Hq|].
  eexists _, _. split; [vm_compute; reflexivity|]. split; reflexivity.
Qed.

(** ** The detector *)

Lemma is_dir_not_file (fs : node) (p : Path) : is_dir fs p = true -> is_file fs p = false.
Proof. unfold is_dir, is_file. destruct (node_at fs p) as [[|l]|]; congruence. Qed.

Lemma is_dir_exists (fs : node) (p : Path) : is_dir fs p = true -> exists_ fs p = true.
Proof. unfold is_dir, exists_. destruct (node_at fs p) as [[|l]|]; congruence. Qed.

Lemma merscope_in_dir_platform (fs : node) (d : Path) (label : string)
  (r : Universal.DetectionResult) :
  Universal._merscope_in_dir fs d label = Some r -> Universal.platform r = merscope.
Proof.
  unfold Universal._merscope_in_dir.
  destruct (Universal.merscope_strong _); [intros [= <-]; reflexivity|].
  destruct (Universal.merscope_medium _); [intros [= <-]; reflexivity|].
  destruct (Universal.merscope_weak _); [intros [= <-]; reflexivity|discriminate].
Qed.

Lemma merscope_in_dir_some (fs : node) (d : Path) (label : string) :
  Claims.merscope_any (Universal._dirnames fs d) =
  match Universal._merscope_in_dir fs d label with Some _ => true | None => false end.
Proof.
  unfold Universal._merscope_in_dir, Claims.merscope_any.
  destruct (Universal.merscope_strong _); [reflexivity|].
  destruct (Universal.merscope_medium _); [reflexivity|].
  destruct (Universal.merscope_weak _); reflexivity.
Qed.

Lemma merscope_first_root (fs : node) (l : list (Path * string)) :
  match first_some (fun dl => Universal._merscope_in_dir fs (fst dl) (snd dl)) l with
  | Some r => Universal.platform r = merscope /\
              existsb (fun dl => Claims.merscope_any (Universal._dirnames fs (fst dl))) l = true
  | None => existsb (fun dl => Claims.merscope_any (Universal._dirnames fs (fst dl))) l = false
  end.
Proof.
  induction l as [|[d label] l IH]; [reflexivity|].
  cbn [first_some existsb fst snd].
  rewrite (merscope_in_dir_some fs d label).
  destruct (Universal._merscope_in_dir fs d label) as [r|] eqn:Hr.
  - split; [exact (merscope_in_dir_platform _ _ _ _ Hr) | reflexivity].
  - exact IH.
Qed.

(** C5. On a directory the detector answers with the platform of the first
    check that holds, in the order MERSCOPE (over its candidate roots),
    Visium HD, Visium, Xenium, CosMx, single tabular file, and raises when
    none holds; so a directory that carries both a weak MERSCOPE signature
    and a strong CosMx signature is detected as merscope. *)
Theorem C5_detector_precedence (fs : node) (p : Path) :
  is_dir fs p = true ->
  Claims.detected (Universal.detect_spatial_format fs p)
    = Claims.first_match (Claims.precedence fs p)
  /\ (Universal.merscope_weak (Universal._dirnames fs p) = true ->
      Universal.cosmx_strong (Universal._dirnames fs p) = true ->
      exists reason,
        Universal.detect_spatial_format fs p
          = Ok {| Universal.platform := merscope; Universal.reason := reason |} []).
Proof.
  intros Hdir. split.
  - unfold Universal.detect_spatial_format, Claims.precedence, Claims.first_match.
    rewrite (is_dir_not_file _ _ Hdir), Hdir. cbn [negb].
    pose proof (merscope_first_root fs (Universal.to_check fs p)) as Hm.
    destruct (first_some _ (Universal.to_check fs p)) as [r|].
    + destruct Hm as [Hp He]. cbn [List.find fst]. rewrite He. cbn. congruence.
    + cbn [List.find fst]. rewrite Hm.
      destruct (Universal._looks_like_visium_hd_root _ _ _); [reflexivity|].
      destruct (Universal._looks_like_visium_root _ _ _); [reflexivity|].
      destruct (Universal.xenium_strong _); [reflexivity|].
      destruct (Universal.xenium_pair _); [reflexivity|].
      destruct (Text.mem "cell_feature_matrix" _); [reflexivity|].
      destruct (Universal.cosmx_strong _); [reflexivity|].
      destruct (Universal.cosmx_pair _); [reflexivity|].
      cbn [orb].
      destruct (iterdir fs p) as [l|]; [|reflexivity].
      destruct (List.filter _ l) as [|t [|t' ts]]; reflexivity.
  - intros Hweak _.
    unfold Universal.detect_spatial_format.
    rewrite (is_dir_not_file _ _ Hdir), Hdir. cbn [negb].
    unfold Universal.to_check. cbn [app first_some fst snd].
    unfold Universal._merscope_in_dir at 1. rewrite Hweak.
    destruct (Universal.merscope_strong _); [eexists; reflexivity|].
    destruct (Universal.merscope_medium _); eexists; reflexivity.
Qed.

(** A directory with a transcript-only MERSCOPE drop next to the CosMx
    transcript file is detected as merscope. *)
Lemma C5_witness :
  Claims.detected (Universal.detect_spatial_format Sample.tree ["mixed"]) = Some merscope /\
  Universal.cosmx_strong (Universal._dirnames Sample.tree ["mixed"]) = true.
Proof.
  destruct (proj2 (C5_detector_precedence Sample.tree ["mixed"] eq_refl) eq_refl eq_refl)
    as [reason Hr].
  rewrite Hr. split; reflexivity.
Defined.

(** ** The choice of the Visium HD bin *)
















Lemma name_join (b : Path) (x : string) : name (join b x) = x.
Proof. unfold name, join. apply last_last. Qed.




(** ** The shape check of the MEX loaders *)

Lemma from_spmatrix_mismatch (m : spmatrix) (idx cols : list string) :
  (sp_rows m, sp_cols m) <> (length idx, length cols) ->
  exists what given expected,
    from_spmatrix m idx cols = Err (LengthMismatch what given expected).
Proof.
  intros Hne. unfold from_spmatrix.
  destruct (Nat.eqb_spec (length cols) (sp_cols m)) as [Hc|Hc]; cbn [negb].
  - destruct (Nat.eqb_spec (length idx) (sp_rows m)) as [Hi|Hi]; cbn [negb].
    + exfalso. apply Hne. congruence.
    + eexists _, _, _. reflexivity.
  - eexists _, _, _. reflexivity.
Qed.

(** C8. A MEX load whose matrix does not have the shape (number of feature
    names, number of barcode names) raises: the Visium loader, which reads
    the matrix itself, raises its shape-mismatch error; the Xenium and
    Visium HD loaders, which hand the sparse matrix and the labels to pandas,
    fail with the length-mismatch error of the table constructor. No table
    is returned, truncated or padded. *)
Theorem C8_mex_shape_mismatch_is_fatal `{Externals} (fs : node) (path mp fp bp : Path)
  (features barcodes : list string) (lf lb : list advisory) :
  (forall (mat : Visium.ndarray) (lm : list advisory),
     Visium._first_existing fs path ["matrix.mtx.gz"; "matrix.mtx"] = Some mp ->
     Visium._first_existing fs path
       ["features.tsv.gz"; "features.tsv"; "genes.tsv.gz"; "genes.tsv"] = Some fp ->
     Visium._first_existing fs path ["barcodes.tsv.gz"; "barcodes.tsv"] = Some bp ->
     Visium._read_tsv_first_or_second_col fp = Ok features lf ->
     Visium._read_tsv_first_col bp = Ok barcodes lb ->
     Visium._read_matrix_market_dense mp Visium._MAX_DENSE_ENTRIES = Ok mat lm ->
     (Visium.n_rows mat, Visium.n_cols mat)
       <> (Z.of_nat (length features), Z.of_nat (length barcodes)) ->
     Visium._load_mex_dir fs path =
       Err (ShapeMismatch visium (Visium.n_rows mat) (Visium.n_cols mat)
                          (length features) (length barcodes) mp))
  /\
  (forall mat : spmatrix,
     have_scipy = true ->
     Xenium._first_existing fs [join path "matrix.mtx.gz"; join path "matrix.mtx"] = Some mp ->
     Xenium._first_existing fs [join path "barcodes.tsv.gz"; join path "barcodes.tsv"]
       = Some bp ->
     Xenium._first_existing fs [join path "features.tsv.gz"; join path "features.tsv";
                                join path "genes.tsv.gz"; join path "genes.tsv"] = Some fp ->
     mmread mp = Some mat ->
     Xenium._read_tsv_first_col bp false = Ok barcodes lb ->
     Xenium._read_tsv_first_col fp true = Ok features lf ->
     (sp_rows mat, sp_cols mat) <> (length features, length barcodes) ->
     exists what given expected,
       Xenium._load_mex_dir fs path = Err (LengthMismatch what given expected))
  /\
  (forall mat : spmatrix,
     have_scipy = true ->
     VisiumHD._first_existing fs [join path "matrix.mtx.gz"; join path "matrix.mtx"] = Some mp ->
     VisiumHD._first_existing fs [join path "barcodes.tsv.gz"; join path "barcodes.tsv"]
       = Some bp ->
     VisiumHD._first_existing fs [join path "features.tsv.gz"; join path "features.tsv";
                                  join path "genes.tsv.gz"; join path "genes.tsv"] = Some fp ->
     mmread mp = Some mat ->
     VisiumHD._read_tsv_first_col bp false = Ok barcodes lb ->
     VisiumHD._read_tsv_first_col fp true = Ok features lf ->
     (sp_rows mat, sp_cols mat) <> (length features, length barcodes) ->
     exists what given expected,
       VisiumHD._load_mex_dir fs path = Err (LengthMismatch what given expected)).
Proof.
  repeat split.
  - intros mat lm Hmp Hfp Hbp Hf Hb Hm Hne.
    unfold Visium._load_mex_dir. rewrite Hmp, Hfp, Hbp, Hf. cbn [bind].
    rewrite Hb. cbn [bind]. rewrite Hm. cbn [bind].
    destruct (Z.eqb_spec (Visium.n_rows mat) (Z.of_nat (length features))) as [Hr|Hr];
      [|reflexivity].
    destruct (Z.eqb_spec (Visium.n_cols mat) (Z.of_nat (length barcodes))) as [Hc|Hc];
      [|reflexivity].
    exfalso. apply Hne. congruence.
  - intros mat Hsci Hmp Hbp Hfp Hm Hb Hf Hne.
    unfold Xenium._load_mex_dir. rewrite Hsci, Hmp, Hbp, Hfp, Hm. cbn [negb or_raise bind ret].
    rewrite Hb. cbn [bind]. rewrite Hf. cbn [bind].
    destruct (from_spmatrix_mismatch (sp_transpose mat) barcodes features)
      as (what & given & expected & Herr).
    { cbn. intros [= Hc Hr]. apply Hne. congruence. }
    rewrite Herr. eexists _, _, _. reflexivity.
  - intros mat Hsci Hmp Hbp Hfp Hm Hb Hf Hne.
    unfold VisiumHD._load_mex_dir. rewrite Hsci, Hmp, Hbp, Hfp, Hm. cbn [negb or_raise bind ret].
    rewrite Hb. cbn [bind]. rewrite Hf. cbn [bind].
    destruct (from_spmatrix_mismatch (sp_transpose mat) barcodes features)
      as (what & given & expected & Herr).
    { cbn. intros [= Hc Hr]. apply Hne. congruence. }
    rewrite Herr. eexists _, _, _. reflexivity.
Qed.

(** A Visium MEX directory whose matrix declares three features where the
    feature list names two: the load raises the shape-mismatch error. *)
Lemma C8_witness :
  @Visium._load_mex_dir (Sample.world true) Sample.tree ["visium"; "filtered_feature_bc_matrix"]
    = Err (ShapeMismatch visium 3 2 2 2
                         ["visium"; "filtered_feature_bc_matrix"; "matrix.mtx"]).
Proof.
  refine (proj1 (@C8_mex_shape_mismatch_is_fatal (Sample.world true) Sample.tree
                   ["visium"; "filtered_feature_bc_matrix"]
                   ["visium"; "filtered_feature_bc_matrix"; "matrix.mtx"]
                   ["visium"; "filtered_feature_bc_matrix"; "features.tsv"]
                   ["visium"; "filtered_feature_bc_matrix"; "barcodes.tsv"]
                   ["A"; "B"] ["AA"; "BB"] [] [])
                {| Visium.n_rows := 3; Visium.n_cols := 2;
                   Visium.values := [[7; 0]; [0; 0]; [0; 0]]%Z |} []
                eq_refl eq_refl eq_refl eq_refl eq_refl eq_refl _).
  intros Heq. discriminate Heq.
Defined.

(** ** The ceiling of the dense loads *)

Lemma append_assoc (a b c : string) : ((a ++ b) ++ c = a ++ b ++ c)%string.
Proof.
  induction a as [|x a IH]; [reflexivity|].
  change (String x ((a ++ b) ++ c) = String x (a ++ b ++ c))%string.
  rewrite IH. reflexivity.
Qed.

Lemma contains_unfold (sub s : string) :
  Text.contains sub s =
  Text.startswith sub s ||
  match s with
  | EmptyString => false
  | String _ s' => Text.contains sub s'
  end.
Proof. destruct s; reflexivity. Qed.

Lemma startswith_app (p s : string) : Text.startswith p (p ++ s) = true.
Proof.
  induction p as [|a p IH]; [reflexivity|].
  change (Ascii.eqb a a && Text.startswith p (p ++ s) = true).
  rewrite Ascii.eqb_refl. exact IH.
Qed.

Lemma contains_app_r (sub pre s : string) :
  Text.contains sub s = true -> Text.contains sub (pre ++ s) = true.
Proof.
  intros Hs. induction pre as [|a pre IH]; [exact Hs|].
  change (Text.contains sub (String a (pre ++ s)) = true).
  rewrite contains_unfold, IH. apply orb_true_r.
Qed.

Lemma contains_app_l (sub post : string) : Text.contains sub (sub ++ post) = true.
Proof. rewrite contains_unfold, startswith_app. reflexivity. Qed.

Lemma visium_message_states_shape (rows cols : Z) (path : Path) :
  Text.contains ("shape=(" ++ Text.str_of_Z rows ++ "," ++ Text.str_of_Z cols ++ ")")
                (Visium.too_large_message rows cols path) = true
  /\ Text.contains "Install 'scipy' for sparse loading"
                   (Visium.too_large_message rows cols path) = true.
Proof.
  unfold Visium.too_large_message. split.
  - apply contains_app_r.
    replace ("shape=(" ++ Text.str_of_Z rows ++ "," ++ Text.str_of_Z cols ++ ") entries=" ++
             Text.str_of_Z (rows * cols) ++ ". " ++
             "Install 'scipy' for sparse loading or export a smaller panel. " ++
             "(file: " ++ str_of_path path ++ ")")
      with (("shape=(" ++ Text.str_of_Z rows ++ "," ++ Text.str_of_Z cols ++ ")") ++
            " entries=" ++ Text.str_of_Z (rows * cols) ++ ". " ++
            "Install 'scipy' for sparse loading or export a smaller panel. " ++
            "(file: " ++ str_of_path path ++ ")")
      by (rewrite !append_assoc; reflexivity).
    apply contains_app_l.
  - do 8 apply contains_app_r. rewrite contains_unfold. reflexivity.
Qed.

Lemma xenium_message_states_shape (n_features n_barcodes : Z) (path : Path) :
  Text.contains ("(features=" ++ Text.str_of_Z n_features ++ ", barcodes=" ++
                 Text.str_of_Z n_barcodes ++ ",")
                (Xenium.too_large_message n_features n_barcodes path) = true
  /\ Text.contains "Install the optional dependency 'scipy' for sparse loading"
                   (Xenium.too_large_message n_features n_barcodes path) = true.
Proof.
  unfold Xenium.too_large_message. split.
  - do 2 apply contains_app_r.
    replace ("(features=" ++ Text.str_of_Z n_features ++ ", barcodes=" ++
             Text.str_of_Z n_barcodes ++ ", file=" ++ str_of_path path ++ ")")
      with (("(features=" ++ Text.str_of_Z n_features ++ ", barcodes=" ++
             Text.str_of_Z n_barcodes ++ ",") ++ " file=" ++ str_of_path path ++ ")")
      by (rewrite !append_assoc; reflexivity).
    apply contains_app_l.
  - apply contains_app_r. rewrite contains_unfold. reflexivity.
Qed.

(** C9, as stated, fails: above the ceiling both dense loaders raise, but the
    message of neither states the ceiling. A 5000 by 5000 Matrix Market
    file (25 000 000 entries, ceiling 20 000 000) and a 10000 by 10000 HDF5
    matrix read without scipy (ceiling 50 000 000) are refused with a
    message that holds the shape and not the ceiling. *)
Lemma C9_message_omits_ceiling :
  (exists msg,
     @Visium._read_matrix_market_dense (Sample.world false) ["big"; "matrix.mtx"]
       Visium._MAX_DENSE_ENTRIES = Err (DenseTooLarge visium msg) /\
     Text.contains (Text.str_of_Z Visium._MAX_DENSE_ENTRIES) msg = false)
  /\
  (exists msg,
     @Xenium._load_10x_h5 (Sample.world false) ["xenium_h5"; "cell_feature_matrix.h5"]
       = Err (DenseTooLarge xenium msg) /\
     Text.contains (Text.str_of_Z Xenium.max_elements) msg = false).
Proof.
  split; eexists; (split; [vm_compute; reflexivity|]); vm_compute; reflexivity.
Qed.

(** C9, amended. A dense load whose element count exceeds the ceiling fails
    before the array is built, with a message that states the actual shape
    and suggests installing scipy for sparse loading (the message does not
    state the ceiling); at or below the ceiling the dense load proceeds.
    This holds for the Matrix Market reader of Visium, under any ceiling it
    is given, and for the HDF5 loader of Xenium when scipy is absent. *)
Theorem C9_dense_ceiling_amended `{Externals} (path : Path) :
  (forall (lines f1 f2 f : list string) (header l2 line d0 d1 d2 : string)
          (rows cols n cap : Z),
     read_lines path = Some lines ->
     Visium.readline lines = (header, f1) ->
     Text.startswith "%%MatrixMarket" header = true ->
     Visium.readline f1 = (l2, f2) ->
     Visium.skip_comments l2 f2 = (line, f) ->
     Text.split_ws (Text.strip line) = [d0; d1; d2] ->
     parse_int d0 = Some rows -> parse_int d1 = Some cols -> parse_int d2 = Some n ->
     ((rows * cols > cap)%Z ->
      Visium._read_matrix_market_dense path cap
        = Err (DenseTooLarge visium (Visium.too_large_message rows cols path)) /\
      Text.contains ("shape=(" ++ Text.str_of_Z rows ++ "," ++ Text.str_of_Z cols ++ ")")
                    (Visium.too_large_message rows cols path) = true /\
      Text.contains "Install 'scipy' for sparse loading"
                    (Visium.too_large_message rows cols path) = true)
     /\
     ((rows * cols <= cap)%Z ->
      Visium._read_matrix_market_dense path cap = Visium.dense_load path rows cols n f))
  /\
  (forall (g : h5matrix) (feat_g : list (string * list string)) (genes : list string)
          (n_features n_barcodes : Z),
     have_h5py = true -> have_scipy = false ->
     h5_read path = Some (Some g) ->
     h5_features g = Some feat_g ->
     Xenium.feature_names_of feat_g = Some genes ->
     h5_shape g = (n_features, n_barcodes) ->
     ((n_features * n_barcodes > Xenium.max_elements)%Z ->
      Xenium._load_10x_h5 path
        = Err (DenseTooLarge xenium (Xenium.too_large_message n_features n_barcodes path)) /\
      Text.contains ("(features=" ++ Text.str_of_Z n_features ++ ", barcodes=" ++
                     Text.str_of_Z n_barcodes ++ ",")
                    (Xenium.too_large_message n_features n_barcodes path) = true /\
      Text.contains "Install the optional dependency 'scipy' for sparse loading"
                    (Xenium.too_large_message n_features n_barcodes path) = true)
     /\
     ((n_features * n_barcodes <= Xenium.max_elements)%Z ->
      Xenium._load_10x_h5 path
        = Xenium.dense_fallback g (h5_barcodes g) genes n_features n_barcodes)).
Proof.
  split.
  - intros lines f1 f2 f header l2 line d0 d1 d2 rows cols n cap
           Hread Hh Hmm Hl2 Hskip Hdims Hr Hc Hn.
    assert (Hrun : Visium._read_matrix_market_dense path cap =
                   if (rows * cols >? cap)%Z
                   then Err (DenseTooLarge visium (Visium.too_large_message rows cols path))
                   else Visium.dense_load path rows cols n f).
    { unfold Visium._read_matrix_market_dense. rewrite Hread. cbn [or_raise bind ret].
      rewrite Hh, Hmm. cbn [negb]. rewrite Hl2, Hskip, Hdims.
      unfold Visium.to_int. rewrite Hr, Hc, Hn. cbn [or_raise bind ret].
      destruct (rows * cols >? cap)%Z; [reflexivity|].
      destruct (Visium.dense_load path rows cols n f); reflexivity. }
    split.
    + intros Hgt. rewrite Hrun. destruct (Z.gtb_spec (rows * cols) cap); [|lia].
      split; [reflexivity | apply visium_message_states_shape].
    + intros Hle. rewrite Hrun. destruct (Z.gtb_spec (rows * cols) cap); [lia|reflexivity].
  - intros g feat_g genes n_features n_barcodes Hh5 Hsci Hread Hfeat Hgenes Hshape.
    assert (Hrun : Xenium._load_10x_h5 path =
                   if (n_features * n_barcodes >? Xenium.max_elements)%Z
                   then Err (DenseTooLarge xenium
                               (Xenium.too_large_message n_features n_barcodes path))
                   else Xenium.dense_fallback g (h5_barcodes g) genes n_features n_barcodes).
    { unfold Xenium._load_10x_h5. rewrite Hh5, Hread. cbn [negb or_raise bind ret].
      rewrite Hfeat. cbn [or_raise bind ret]. rewrite Hgenes. cbn [or_raise bind ret].
      rewrite Hshape, Hsci.
      destruct (n_features * n_barcodes >? Xenium.max_elements)%Z; [reflexivity|].
      destruct (Xenium.dense_fallback _ _ _ _ _); reflexivity. }
    split.
    + intros Hgt. rewrite Hrun.
      destruct (Z.gtb_spec (n_features * n_barcodes) Xenium.max_elements); [|lia].
      split; [reflexivity | apply xenium_message_states_shape].
    + intros Hle. rewrite Hrun.
      destruct (Z.gtb_spec (n_features * n_barcodes) Xenium.max_elements);
        [lia|reflexivity].
Qed.

(** The 5000 by 5000 Matrix Market file under the ceiling of Visium: the
    read fails with the message that states the shape. *)
Lemma C9_witness :
  @Visium._read_matrix_market_dense (Sample.world false) ["big"; "matrix.mtx"]
    Visium._MAX_DENSE_ENTRIES
    = Err (DenseTooLarge visium (Visium.too_large_message 5000 5000 ["big"; "matrix.mtx"])).
Proof.
  refine (proj1 (proj1 (proj1 (@C9_dense_ceiling_amended (Sample.world false)
                                 ["big"; "matrix.mtx"])
                              _ _ _ _ _ _ _ "5000" "5000" "0" 5000%Z 5000%Z 0%Z
                              Visium._MAX_DENSE_ENTRIES
                              eq_refl eq_refl eq_refl eq_refl eq_refl eq_refl
                              eq_refl eq_refl eq_refl) _)).
  reflexivity.
Defined.

(** ** The adapters and their absent roles *)

Lemma load_role_ok_inv (P : platform) (n : string) (f : option Path) (e : frame)
  (l : Path -> result frame) (good : frame -> Prop) (out : frame) (log : list advisory) :
  good e ->
  (forall p o lg, l p = Ok o lg -> good o) ->
  load_role P n f e l = Ok out log ->
  good out /\ (f = None -> out = e).
Proof.
  intros He Hl. unfold load_role. destruct f as [p|].
  - intros Hp. split; [exact (Hl _ _ _ Hp) | discriminate].
  - cbn. intros [= <- <-]. split; [exact He | reflexivity].
Qed.

Lemma load_role_err_inv (P : platform) (n : string) (f : option Path) (e : frame)
  (l : Path -> result frame) (err : error) :
  load_role P n f e l = Err err -> exists p, f = Some p /\ l p = Err err.
Proof.
  unfold load_role. destruct f as [p|]; [|discriminate].
  intros Hp. exists p. auto.
Qed.

Lemma load_role_absent (P : platform) (n : string) (e : frame) (l : Path -> result frame) :
  load_role P n None e l = Ok e [RoleFileNotFound P n].
Proof. reflexivity. Qed.

Section Tolerance.

Variables (P : platform) (good1 good2 good3 : frame -> Prop).
Variables (r1 r2 r3 : Claims.role) (n1 n2 n3 : string).

Let run (ro : Claims.role) (n : string) : result frame :=
  load_role P n (Claims.found ro) (Claims.empty ro) (Claims.load ro).

Hypothesis good_empty1 : good1 (Claims.empty r1).
Hypothesis good_empty2 : good2 (Claims.empty r2).
Hypothesis good_empty3 : good3 (Claims.empty r3).
Hypothesis good_load1 : forall p o lg, Claims.load r1 p = Ok o lg -> good1 o.
Hypothesis good_load2 : forall p o lg, Claims.load r2 p = Ok o lg -> good2 o.
Hypothesis good_load3 : forall p o lg, Claims.load r3 p = Ok o lg -> good3 o.

(** An adapter of two roles. *)
Lemma tolerant_two (K : frame -> frame -> result Canonical.dataset)
  (r : result Canonical.dataset) :
  r = bind (run r1 n1) (fun a => bind (run r2 n2) (fun b => K a b)) ->
  (forall a b, good1 a -> good2 b ->
     exists ds log, K a b = Ok ds log /\ Claims.table r1 ds = a /\ Claims.table r2 ds = b) ->
  Claims.tolerant r [r1; r2].
Proof.
  intros -> HK. unfold run. repeat split.
  - intros ro Hin Hnone ds log Hr.
    apply bind_ok_inv in Hr as (a & la & ma & Ha & Hr & _).
    apply bind_ok_inv in Hr as (b & lb & mb & Hb & Hr & _).
    destruct (load_role_ok_inv _ _ _ _ _ good1 _ _ good_empty1 good_load1 Ha) as [Hga Hea].
    destruct (load_role_ok_inv _ _ _ _ _ good2 _ _ good_empty2 good_load2 Hb) as [Hgb Heb].
    destruct (HK a b Hga Hgb) as (ds' & log' & HKab & Ht1 & Ht2).
    rewrite HKab in Hr. injection Hr as <- _.
    destruct Hin as [<-|[<-|[]]].
    + rewrite Ht1. exact (Hea Hnone).
    + rewrite Ht2. exact (Heb Hnone).
  - intros e Hr.
    apply bind_err_inv in Hr as [Ha|(a & la & Ha & Hr)].
    { apply load_role_err_inv in Ha as (p & Hf & Hp). exists r1, p. cbn. auto. }
    apply bind_err_inv in Hr as [Hb|(b & lb & Hb & Hr)].
    { apply load_role_err_inv in Hb as (p & Hf & Hp). exists r2, p. cbn. auto. }
    exfalso.
    destruct (load_role_ok_inv _ _ _ _ _ good1 _ _ good_empty1 good_load1 Ha) as [Hga _].
    destruct (load_role_ok_inv _ _ _ _ _ good2 _ _ good_empty2 good_load2 Hb) as [Hgb _].
    destruct (HK a b Hga Hgb) as (ds' & log' & HKab & _). congruence.
  - intros Hall.
    rewrite (Hall r1 (or_introl eq_refl)), (Hall r2 (or_intror (or_introl eq_refl))).
    rewrite !load_role_absent. cbn [bind].
    destruct (HK _ _ good_empty1 good_empty2) as (ds & log & HKab & _).
    rewrite HKab. eexists _, _. reflexivity.
Qed.

(** An adapter of three roles. *)
Lemma tolerant_three (K : frame -> frame -> frame -> result Canonical.dataset)
  (r : result Canonical.dataset) :
  r = bind (run r1 n1)
        (fun a => bind (run r2 n2) (fun b => bind (run r3 n3) (fun c => K a b c))) ->
  (forall a b c, good1 a -> good2 b -> good3 c ->
     exists ds log, K a b c = Ok ds log /\
       Claims.table r1 ds = a /\ Claims.table r2 ds = b /\ Claims.table r3 ds = c) ->
  Claims.tolerant r [r1; r2; r3].
Proof.
  intros -> HK. unfold run. repeat split.
  - intros ro Hin Hnone ds log Hr.
    apply bind_ok_inv in Hr as (a & la & ma & Ha & Hr & _).
    apply bind_ok_inv in Hr as (b & lb & mb & Hb & Hr & _).
    apply bind_ok_inv in Hr as (c & lc & mc & Hc & Hr & _).
    destruct (load_role_ok_inv _ _ _ _ _ good1 _ _ good_empty1 good_load1 Ha) as [Hga Hea].
    destruct (load_role_ok_inv _ _ _ _ _ good2 _ _ good_empty2 good_load2 Hb) as [Hgb Heb].
    destruct (load_role_ok_inv _ _ _ _ _ good3 _ _ good_empty3 good_load3 Hc) as [Hgc Hec].
    destruct (HK a b c Hga Hgb Hgc) as (ds' & log' & HKab & Ht1 & Ht2 & Ht3).
    rewrite HKab in Hr. injection Hr as <- _.
    destruct Hin as [<-|[<-|[<-|[]]]].
    + rewrite Ht1. exact (Hea Hnone).
    + rewrite Ht2. exact (Heb Hnone).
    + rewrite Ht3. exact (Hec Hnone).
  - intros e Hr.
    apply bind_err_inv in Hr as [Ha|(a & la & Ha & Hr)].
    { apply load_role_err_inv in Ha as (p & Hf & Hp). exists r1, p. cbn. auto. }
    apply bind_err_inv in Hr as [Hb|(b & lb & Hb & Hr)].
    { apply load_role_err_inv in Hb as (p & Hf & Hp). exists r2, p. cbn. auto. }
    apply bind_err_inv in Hr as [Hc|(c & lc & Hc & Hr)].
    { apply load_role_err_inv in Hc as (p & Hf & Hp). exists r3, p. cbn. auto. }
    exfalso.
    destruct (load_role_ok_inv _ _ _ _ _ good1 _ _ good_empty1 good_load1 Ha) as [Hga _].
    destruct (load_role_ok_inv _ _ _ _ _ good2 _ _ good_empty2 good_load2 Hb) as [Hgb _].
    destruct (load_role_ok_inv _ _ _ _ _ good3 _ _ good_empty3 good_load3 Hc) as [Hgc _].
    destruct (HK a b c Hga Hgb Hgc) as (ds' & log' & HKab & _). congruence.
  - intros Hall.
    rewrite (Hall r1 (or_introl eq_refl)), (Hall r2 (or_intror (or_introl eq_refl))),
      (Hall r3 (or_intror (or_intror (or_introl eq_refl)))).
    rewrite !load_role_absent. cbn [bind].
    destruct (HK _ _ _ good_empty1 good_empty2 good_empty3) as (ds & log & HKab & _).
    rewrite HKab. eexists _, _. reflexivity.
Qed.

End Tolerance.

(** Case analysis on the tests of a hypothesis or of the goal. *)
Ltac split_tests_in H :=
  repeat match type of H with
         | context [if ?b then _ else _] => revert H; destruct b; intros H
         end.

Ltac split_tests :=
  repeat match goal with
         | |- context [if ?b then _ else _] => destruct b
         end.

Lemma metadata_json_ok `{Externals} (P : platform) (files : list Path) :
  exists m l, _load_metadata_json P files = Ok m l.
Proof.
  unfold _load_metadata_json.
  assert (Hacc : forall (acc : result (gmap string meta)),
             (exists m l, acc = Ok m l) ->
             exists m l,
               fold_left
                 (fun acc f =>
                    bind acc (fun m =>
                      match read_json f with
                      | Some j => ret (<[name f := MJson j]> m)
                      | None => bind (warn (JsonUnreadable P f)) (fun _ => ret m)
                      end)) files acc = Ok m l).
  { induction files as [|f files IH]; intros acc Hacc; [exact Hacc|].
    cbn [fold_left]. apply IH. destruct Hacc as (m & l & ->).
    cbn [bind]. destruct (read_json f); cbn; eexists _, _; reflexivity. }
  apply Hacc. eexists _, _. reflexivity.
Qed.

Lemma cosmx_cell_columns `{Externals} (df : frame) (cc : string) (x y t : option string) :
  column_names (Cosmx.cell_table df cc x y t) = Canonical._CELL_REQUIRED_OUT_COLS.
Proof. reflexivity. Qed.

Lemma cosmx_load_transcripts_good `{Externals} (p : Path) (o : frame) (lg : list advisory) :
  Cosmx._load_transcripts p = Ok o lg ->
  column_names o = Canonical._TRANSCRIPT_REQUIRED_OUT_COLS.
Proof.
  unfold Cosmx._load_transcripts. destruct (read_csv p) as [df|]; [|discriminate].
  cbn [or_raise bind ret].
  destruct (Columns._first_present _ ["x"; _; _; _; _; _]) as [xc|];
  destruct (Columns._first_present _ ["y"; _; _; _; _; _]) as [yc|];
  destruct (Columns._first_present _ ["gene"; _; _; _; _]) as [gc|];
  try discriminate.
  unfold warn_if. intros Hload. split_tests_in Hload; cbn in Hload;
    injection Hload as <- _; reflexivity.
Qed.

Lemma cosmx_load_cell_metadata_good `{Externals} (p : Path) (o : frame) (lg : list advisory) :
  Cosmx._load_cell_metadata p = Ok o lg ->
  column_names o = Canonical._CELL_REQUIRED_OUT_COLS.
Proof.
  unfold Cosmx._load_cell_metadata. destruct (read_csv p) as [df|]; [|discriminate].
  cbn [or_raise bind ret].
  destruct (Columns._first_present _ ["cell_id"; _; _; _]) as [cc|]; [|discriminate].
  unfold warn_if. intros Hload. split_tests_in Hload; cbn in Hload;
    injection Hload as <- _; reflexivity.
Qed.

Lemma cosmx_validate_transcripts_ok `{Externals} (df : frame) :
  column_names df = Canonical._TRANSCRIPT_REQUIRED_OUT_COLS ->
  exists l, Cosmx._validate_transcripts df = Ok tt l.
Proof.
  intros Hc. unfold Cosmx._validate_transcripts, first_missing, has_column.
  rewrite Hc. cbn [Canonical._TRANSCRIPT_REQUIRED_OUT_COLS List.find Text.mem existsb negb
                   String.eqb Ascii.eqb Bool.eqb orb].
  unfold warn_if. split_tests; cbn; eexists; reflexivity.
Qed.

Ltac columns_present Hc :=
  unfold first_missing, has_column; rewrite Hc;
  cbn [Canonical._TRANSCRIPT_REQUIRED_OUT_COLS Canonical._CELL_REQUIRED_OUT_COLS
       List.find Text.mem existsb negb String.eqb Ascii.eqb Bool.eqb orb].

Ltac validator_ok := unfold warn_if; split_tests; cbn; eexists; reflexivity.

Lemma cosmx_validate_cell_metadata_ok `{Externals} (df : frame) :
  column_names df = Canonical._CELL_REQUIRED_OUT_COLS ->
  exists l, Cosmx._validate_cell_metadata df = Ok tt l.
Proof. intros Hc. unfold Cosmx._validate_cell_metadata. columns_present Hc. validator_ok. Qed.

Lemma cosmx_validate_expression_ok `{Externals} (df : frame) :
  exists l, Cosmx._validate_expression df = Ok tt l.
Proof. unfold Cosmx._validate_expression. validator_ok. Qed.

(** MERSCOPE *)
Lemma merscope_load_transcripts_good `{Externals} (p : Path) (o : frame) (lg : list advisory) :
  Merscope._load_transcripts p = Ok o lg ->
  column_names o = Canonical._TRANSCRIPT_REQUIRED_OUT_COLS.
Proof.
  unfold Merscope._load_transcripts.
  destruct (Merscope._read_table p) as [df l|]; [|discriminate]. cbn [bind].
  destruct (Columns._first_present _ ["global_x"; _; _; _; _]) as [xc|];
  destruct (Columns._first_present _ ["global_y"; _; _; _; _]) as [yc|];
  destruct (Columns._first_present _ ["gene"; _; _; _]) as [gc|];
  try discriminate.
  unfold warn_if. intros Hload. split_tests_in Hload; cbn in Hload;
    injection Hload as <- _; reflexivity.
Qed.

Lemma merscope_load_cell_metadata_good `{Externals} (p : Path) (o : frame) (lg : list advisory) :
  Merscope._load_cell_metadata p = Ok o lg ->
  column_names o = Canonical._CELL_REQUIRED_OUT_COLS.
Proof.
  unfold Merscope._load_cell_metadata.
  destruct (Merscope._read_table p) as [df l|]; [|discriminate]. cbn [bind].
  destruct (Columns._first_present _ ["entityid"; _; _; _; _; _]) as [cc|]; [|discriminate].
  unfold warn_if. intros Hload. split_tests_in Hload; cbn in Hload;
    injection Hload as <- _; reflexivity.
Qed.

Lemma merscope_validate_transcripts_ok `{Externals} (df : frame) :
  column_names df = Canonical._TRANSCRIPT_REQUIRED_OUT_COLS ->
  exists l, Merscope._validate_transcripts df = Ok tt l.
Proof. intros Hc. unfold Merscope._validate_transcripts. columns_present Hc. validator_ok. Qed.

Lemma merscope_validate_cell_metadata_ok `{Externals} (df : frame) :
  column_names df = Canonical._CELL_REQUIRED_OUT_COLS ->
  exists l, Merscope._validate_cell_metadata df = Ok tt l.
Proof. intros Hc. unfold Merscope._validate_cell_metadata. columns_present Hc. validator_ok. Qed.

Lemma merscope_validate_expression_ok `{Externals} (df : frame) :
  exists l, Merscope._validate_expression df = Ok tt l.
Proof. unfold Merscope._validate_expression. validator_ok. Qed.

(** Xenium *)
Lemma xenium_load_transcripts_good `{Externals} (p : Path) (o : frame) (lg : list advisory) :
  Xenium._load_transcripts p = Ok o lg ->
  column_names o = Canonical._TRANSCRIPT_REQUIRED_OUT_COLS.
Proof.
  unfold Xenium._load_transcripts.
  destruct (Xenium._read_table p) as [df l|]; [|discriminate]. cbn [bind].
  destruct (Columns._first_present _ ["x"; _; _; _; _]) as [xc|];
  destruct (Columns._first_present _ ["y"; _; _; _; _]) as [yc|];
  destruct (Columns._first_present _ ["gene"; _; _; _; _]) as [gc|];
  try discriminate.
  unfold warn_if. intros Hload. split_tests_in Hload; cbn in Hload;
    injection Hload as <- _; reflexivity.
Qed.

Lemma xenium_load_cell_metadata_good `{Externals} (p : Path) (o : frame) (lg : list advisory) :
  Xenium._load_cell_metadata p = Ok o lg ->
  column_names o = Canonical._CELL_REQUIRED_OUT_COLS.
Proof.
  unfold Xenium._load_cell_metadata.
  destruct (Xenium._read_table p) as [df l|]; [|discriminate]. cbn [bind].
  destruct (Columns._first_present _ ["cell_id"; _; _; _]) as [cc|]; [|discriminate].
  unfold warn_if. intros Hload. split_tests_in Hload; cbn in Hload;
    injection Hload as <- _; reflexivity.
Qed.

Lemma xenium_validate_transcripts_ok `{Externals} (df : frame) :
  column_names df = Canonical._TRANSCRIPT_REQUIRED_OUT_COLS ->
  exists l, Xenium._validate_transcripts df = Ok tt l.
Proof. intros Hc. unfold Xenium._validate_transcripts. columns_present Hc. validator_ok. Qed.

Lemma xenium_validate_cell_metadata_ok `{Externals} (df : frame) :
  column_names df = Canonical._CELL_REQUIRED_OUT_COLS ->
  exists l, Xenium._validate_cell_metadata df = Ok tt l.
Proof. intros Hc. unfold Xenium._validate_cell_metadata. columns_present Hc. validator_ok. Qed.

Lemma xenium_validate_expression_ok `{Externals} (df : frame) :
  exists l, Xenium._validate_expression df = Ok tt l.
Proof. unfold Xenium._validate_expression. validator_ok. Qed.

(** Visium *)
Lemma visium_load_tissue_positions_good `{Externals} (p : Path) (o : frame)
  (lg : list advisory) :
  Visium._load_tissue_positions p = Ok o lg ->
  column_names o = Canonical._CELL_REQUIRED_OUT_COLS.
Proof.
  unfold Visium._load_tissue_positions.
  destruct (Visium.read_positions p) as [df l|]; [|discriminate]. cbn [bind].
  destruct (_ !! "barcode") as [bc|];
  destruct (_ !! "pxl_row_in_fullres") as [pr|];
  destruct (_ !! "pxl_col_in_fullres") as [pc|];
  try discriminate.
  cbn. intros [= <- _]. reflexivity.
Qed.

Lemma visium_validate_transcripts_ok `{Externals} (df : frame) :
  column_names df = Canonical._TRANSCRIPT_REQUIRED_OUT_COLS ->
  exists l, Visium._validate_transcripts df = Ok tt l.
Proof. intros Hc. unfold Visium._validate_transcripts. columns_present Hc. validator_ok. Qed.

Lemma visium_validate_cell_metadata_ok `{Externals} (df : frame) :
  column_names df = Canonical._CELL_REQUIRED_OUT_COLS ->
  exists l, Visium._validate_cell_metadata df = Ok tt l.
Proof. intros Hc. unfold Visium._validate_cell_metadata. columns_present Hc. validator_ok. Qed.

(** Visium HD *)
Lemma filter_rows_names (out : frame) (mask : list bool) :
  column_names (VisiumHD.filter_rows out mask) = column_names out.
Proof.
  unfold VisiumHD.filter_rows, column_names. cbn [columns].
  rewrite map_map. reflexivity.
Qed.

Lemma keep_in_tissue_names `{Externals} (df out o : frame) (ic : option string)
  (lg : list advisory) :
  VisiumHD.keep_in_tissue df ic out = Ok o lg -> column_names o = column_names out.
Proof.
  unfold VisiumHD.keep_in_tissue. destruct ic as [ic|]; [|intros [= <- _]; reflexivity].
  destruct (any_number _); [|intros [= <- _]; reflexivity].
  unfold warn_if. cbv zeta. intros Hk. split_tests_in Hk; cbn in Hk;
    inversion Hk; subst; apply filter_rows_names.
Qed.

Lemma visium_hd_load_positions_good `{Externals} (p : Path) (o : frame) (lg : list advisory) :
  VisiumHD._load_positions_as_cell_metadata p = Ok o lg ->
  column_names o = Canonical._CELL_REQUIRED_OUT_COLS.
Proof.
  unfold VisiumHD._load_positions_as_cell_metadata.
  destruct (if Text.endswith ".parquet" (suffixes_lower p) then _ else _) as [df l|];
    [|discriminate].
  cbn [bind].
  destruct (Columns._first_present _ ["barcode"; _; _; _; _]) as [bc|]; [|discriminate].
  destruct (VisiumHD.or_opt _ _) as [xs|]; [|discriminate].
  destruct (VisiumHD.or_opt _ _) as [ys|]; [|discriminate].
  destruct (VisiumHD.keep_in_tissue _ _ _) as [out l'|] eqn:Hk; [|discriminate].
  apply keep_in_tissue_names in Hk.
  cbn [bind]. unfold warn_if. intros Hload. split_tests_in Hload; cbn in Hload;
    injection Hload as <- _; exact Hk.
Qed.

Lemma visium_hd_validate_transcripts_ok `{Externals} (df : frame) :
  column_names df = Canonical._TRANSCRIPT_REQUIRED_OUT_COLS ->
  exists l, VisiumHD._validate_transcripts df = Ok tt l.
Proof. intros Hc. unfold VisiumHD._validate_transcripts. columns_present Hc. validator_ok. Qed.

Lemma visium_hd_validate_cell_metadata_ok `{Externals} (df : frame) :
  column_names df = Canonical._CELL_REQUIRED_OUT_COLS ->
  exists l, VisiumHD._validate_cell_metadata df = Ok tt l.
Proof. intros Hc. unfold VisiumHD._validate_cell_metadata. columns_present Hc. validator_ok. Qed.

Lemma visium_hd_validate_expression_ok `{Externals} (df : frame) :
  exists l, VisiumHD._validate_expression df = Ok tt l.
Proof. unfold VisiumHD._validate_expression. validator_ok. Qed.

(** C1. For each of the five platform adapters, called on a directory: a
    role for which discovery finds no file comes out as the empty table
    with the four canonical columns (the empty matrix for the expression
    role), the call fails only with the failure of the loader of a role
    whose file was found, hence a missing-column error only after a file
    was found, and it succeeds when no role has a file. Visium and Visium
    HD have no transcript role: their transcript table is always the empty
    one. *)
Theorem C1_missing_role_is_not_fatal `{Externals} (fs : node) (base : Path) :
  is_dir fs base = true ->
  (let c := Cosmx._discover_files fs base in
   Claims.tolerant (Cosmx.parse_cosmx fs base)
     [{| Claims.found := Cosmx.transcript c; Claims.load := Cosmx._load_transcripts;
         Claims.table := Canonical.transcript_data;
         Claims.empty := Canonical._empty_transcript_df |};
      {| Claims.found := Cosmx.cell_metadata c; Claims.load := Cosmx._load_cell_metadata;
         Claims.table := Canonical.cell_metadata;
         Claims.empty := Canonical._empty_cell_metadata_df |};
      {| Claims.found := Cosmx.expression c; Claims.load := Cosmx._load_expression_matrix;
         Claims.table := Canonical.expression_matrix;
         Claims.empty := empty_frame |}])
  /\
  (let c := Merscope._discover_files fs base in
   Claims.tolerant (Merscope.parse_merscope fs base)
     [{| Claims.found := Merscope.transcript c; Claims.load := Merscope._load_transcripts;
         Claims.table := Canonical.transcript_data;
         Claims.empty := Canonical._empty_transcript_df |};
      {| Claims.found := Merscope.cell_metadata c;
         Claims.load := Merscope._load_cell_metadata;
         Claims.table := Canonical.cell_metadata;
         Claims.empty := Canonical._empty_cell_metadata_df |};
      {| Claims.found := Merscope.expression c;
         Claims.load := Merscope._load_expression_matrix;
         Claims.table := Canonical.expression_matrix;
         Claims.empty := empty_frame |}])
  /\
  (let c := Xenium._discover_files fs base in
   Claims.tolerant (Xenium.parse_xenium fs base)
     [{| Claims.found := Xenium.transcript c; Claims.load := Xenium._load_transcripts;
         Claims.table := Canonical.transcript_data;
         Claims.empty := Canonical._empty_transcript_df |};
      {| Claims.found := Xenium.cell_metadata c; Claims.load := Xenium._load_cell_metadata;
         Claims.table := Canonical.cell_metadata;
         Claims.empty := Canonical._empty_cell_metadata_df |};
      {| Claims.found := Xenium.expression c;
         Claims.load := Xenium._load_expression_matrix fs;
         Claims.table := Canonical.expression_matrix;
         Claims.empty := empty_frame |}])
  /\
  (let c := Visium._discover_files fs base in
   Claims.tolerant (Visium.parse_visium fs base)
     [{| Claims.found := Visium.tissue_positions c;
         Claims.load := Visium._load_tissue_positions;
         Claims.table := Canonical.cell_metadata;
         Claims.empty := Canonical._empty_cell_metadata_df |};
      {| Claims.found := Visium.expression c;
         Claims.load := Visium._load_expression_matrix fs;
         Claims.table := Canonical.expression_matrix;
         Claims.empty := empty_frame |}] /\
   forall ds log, Visium.parse_visium fs base = Ok ds log ->
                  Canonical.transcript_data ds = Canonical._empty_transcript_df)
  /\
  (let c := VisiumHD._discover_files fs (VisiumHD.root (VisiumHD._discover_visium_root fs base)) in
   Claims.tolerant (VisiumHD.parse_visium_hd fs base)
     [{| Claims.found := VisiumHD.positions c;
         Claims.load := VisiumHD._load_positions_as_cell_metadata;
         Claims.table := Canonical.cell_metadata;
         Claims.empty := Canonical._empty_cell_metadata_df |};
      {| Claims.found := VisiumHD.expression c;
         Claims.load := VisiumHD._load_expression_matrix fs;
         Claims.table := Canonical.expression_matrix;
         Claims.empty := empty_frame |}] /\
   forall ds log, VisiumHD.parse_visium_hd fs base = Ok ds log ->
                  Canonical.transcript_data ds = Canonical._empty_transcript_df)
  /\
  (column_names Canonical._empty_transcript_df = ["x"; "y"; "gene"; "cell_id"] /\
   nrows Canonical._empty_transcript_df = 0 /\
   column_names Canonical._empty_cell_metadata_df = ["cell_id"; "x"; "y"; "cell_type"] /\
   nrows Canonical._empty_cell_metadata_df = 0 /\
   is_empty empty_frame = true).
Proof.
  intros Hdir. pose proof (is_dir_exists _ _ Hdir) as Hex.
  split; [|split; [|split; [|split; [|split]]]].
  - cbv zeta.
    eapply tolerant_three
      with (good1 := fun t => column_names t = Canonical._TRANSCRIPT_REQUIRED_OUT_COLS)
           (good2 := fun t => column_names t = Canonical._CELL_REQUIRED_OUT_COLS)
           (good3 := fun _ => True);
      [reflexivity | reflexivity | exact I
      | apply cosmx_load_transcripts_good | apply cosmx_load_cell_metadata_good
      | intros; exact I
      | unfold Cosmx.parse_cosmx; rewrite Hex, Hdir; reflexivity
      | ].
    intros a b c Ha Hb _. cbv beta.
    destruct (metadata_json_ok cosmx (Cosmx.json_files (Cosmx._discover_files fs base)))
      as (m & lm & ->).
    destruct (cosmx_validate_transcripts_ok a Ha) as [l1 ->].
    destruct (cosmx_validate_cell_metadata_ok b Hb) as [l2 ->].
    destruct (cosmx_validate_expression_ok c) as [l3 ->].
    cbn [bind ret]. eexists _, _. split; [reflexivity|]. cbn. auto.
  - cbv zeta.
    eapply tolerant_three
      with (good1 := fun t => column_names t = Canonical._TRANSCRIPT_REQUIRED_OUT_COLS)
           (good2 := fun t => column_names t = Canonical._CELL_REQUIRED_OUT_COLS)
           (good3 := fun _ => True);
      [reflexivity | reflexivity | exact I
      | apply merscope_load_transcripts_good | apply merscope_load_cell_metadata_good
      | intros; exact I
      | unfold Merscope.parse_merscope; rewrite Hex, Hdir; reflexivity
      | ].
    intros a b c Ha Hb _. cbv beta.
    destruct (metadata_json_ok merscope
                (Merscope.json_files (Merscope._discover_files fs base))) as (m & lm & ->).
    destruct (merscope_validate_transcripts_ok a Ha) as [l1 ->].
    destruct (merscope_validate_cell_metadata_ok b Hb) as [l2 ->].
    destruct (merscope_validate_expression_ok c) as [l3 ->].
    cbn [bind ret]. eexists _, _. split; [reflexivity|]. cbn. auto.
  - cbv zeta.
    eapply tolerant_three
      with (good1 := fun t => column_names t = Canonical._TRANSCRIPT_REQUIRED_OUT_COLS)
           (good2 := fun t => column_names t = Canonical._CELL_REQUIRED_OUT_COLS)
           (good3 := fun _ => True);
      [reflexivity | reflexivity | exact I
      | apply xenium_load_transcripts_good | apply xenium_load_cell_metadata_good
      | intros; exact I
      | unfold Xenium.parse_xenium; rewrite Hex, Hdir; reflexivity
      | ].
    intros a b c Ha Hb _. cbv beta.
    destruct (metadata_json_ok xenium
                (Xenium.json_files (Xenium._discover_files fs base))) as (m & lm & ->).
    destruct (xenium_validate_transcripts_ok a Ha) as [l1 ->].
    destruct (xenium_validate_cell_metadata_ok b Hb) as [l2 ->].
    destruct (xenium_validate_expression_ok c) as [l3 ->].
    cbn [bind ret]. eexists _, _. split; [reflexivity|]. cbn. auto.
  - cbv zeta. split.
    + eapply tolerant_two
        with (good1 := fun t => column_names t = Canonical._CELL_REQUIRED_OUT_COLS)
             (good2 := fun _ => True);
        [reflexivity | exact I
        | apply visium_load_tissue_positions_good | intros; exact I
        | unfold Visium.parse_visium; rewrite Hex, Hdir; reflexivity
        | ].
      intros a b Ha _. cbv beta.
      destruct (metadata_json_ok visium
                  (Visium.json_files (Visium._discover_files fs base))) as (m & lm & ->).
      destruct (visium_validate_cell_metadata_ok a Ha) as [l2 ->].
      cbn. eexists _, _. split; [reflexivity|]. cbn. auto.
    + intros ds log Hp. unfold Visium.parse_visium in Hp.
      rewrite Hex, Hdir in Hp. cbn [negb] in Hp. cbv zeta in Hp.
      repeat (apply bind_ok_inv in Hp as (? & ? & ? & _ & Hp & _)).
      injection Hp as <- _. reflexivity.
  - cbv zeta. split.
    + eapply tolerant_two
        with (good1 := fun t => column_names t = Canonical._CELL_REQUIRED_OUT_COLS)
             (good2 := fun _ => True);
        [reflexivity | exact I
        | apply visium_hd_load_positions_good | intros; exact I
        | unfold VisiumHD.parse_visium_hd; rewrite Hex, Hdir; reflexivity
        | ].
      intros a b Ha _. cbv beta.
      destruct (metadata_json_ok visium_hd
                  (VisiumHD.json_files
                     (VisiumHD._discover_files fs
                        (VisiumHD.root (VisiumHD._discover_visium_root fs base)))))
        as (m & lm & ->).
      destruct (visium_hd_validate_cell_metadata_ok a Ha) as [l2 ->].
      destruct (visium_hd_validate_expression_ok b) as [l3 ->].
      cbn. eexists _, _. split; [reflexivity|]. cbn. auto.
    + intros ds log Hp. unfold VisiumHD.parse_visium_hd in Hp.
      rewrite Hex, Hdir in Hp. cbn [negb] in Hp. cbv zeta in Hp.
      repeat (apply bind_ok_inv in Hp as (? & ? & ? & _ & Hp & _)).
      injection Hp as <- _. reflexivity.
  - repeat split; reflexivity.
Qed.

(** An empty directory given to the CosMx adapter: the call succeeds and
    every table is the empty one of its role. *)
Lemma C1_witness :
  exists ds log,
    @Cosmx.parse_cosmx (Sample.world true) Sample.tree ["empty"] = Ok ds log /\
    Canonical.transcript_data ds = Canonical._empty_transcript_df /\
    Canonical.cell_metadata ds = Canonical._empty_cell_metadata_df /\
    Canonical.expression_matrix ds = empty_frame.
Proof.
  destruct (proj1 (@C1_missing_role_is_not_fatal (Sample.world true) Sample.tree ["empty"]
                     eq_refl)) as (Hempty & _ & Hok).
  destruct Hok as (ds & log & Hds).
  { intros ro [<-|[<-|[<-|[]]]]; reflexivity. }
  exists ds, log. split; [exact Hds|].
  split; [|split].
  - exact (Hempty _ (or_introl eq_refl) eq_refl ds log Hds).
  - exact (Hempty _ (or_intror (or_introl eq_refl)) eq_refl ds log Hds).
  - exact (Hempty _ (or_intror (or_intror (or_introl eq_refl))) eq_refl ds log Hds).
Defined.

(** * Further properties *)

Import Canonical Extras.

(** ** Names of the files a directory listing gives *)

Lemma in_glob_suffix (fs : node) (b : Path) (suf : string) (f : Path) :
  In f (glob_suffix fs b suf) ->
  Text.endswith suf (name f) = true /\ exists n, f = join b n.
Proof.
  unfold glob_suffix, iterdir.
  destruct (node_at fs b) as [[|l]|]; try (intros []).
  intros Hin. apply List.filter_In in Hin as [Hin Hsuf]. split; [exact Hsuf|].
  apply in_map_iff in Hin as (kv & <- & _). eexists. reflexivity.
Qed.

Lemma in_insert_path (x y : Path) (l : list Path) :
  In x (insert_path y l) <-> x = y \/ In x l.
Proof.
  induction l as [|z l IH]; cbn [insert_path].
  - cbn. intuition.
  - destruct (path_ltb y z); cbn [In]; [intuition|]. rewrite IH. intuition.
Qed.

Lemma in_sorted_paths_acc (l acc : list Path) (x : Path) :
  In x (fold_left (fun acc x => insert_path x acc) l acc) <-> In x l \/ In x acc.
Proof.
  revert acc. induction l as [|y l IH]; intros acc; cbn [fold_left].
  - cbn. intuition.
  - rewrite IH, in_insert_path. cbn [In]. intuition.
Qed.

Lemma in_sorted_paths (l : list Path) (x : Path) : In x (sorted_paths l) <-> In x l.
Proof. unfold sorted_paths. rewrite in_sorted_paths_acc. cbn. intuition. Qed.

Lemma in_dedup_paths_aux (seen l : list Path) (x : Path) :
  In x (dedup_paths_aux seen l) -> In x l.
Proof.
  revert seen. induction l as [|y l IH]; intros seen; cbn [dedup_paths_aux]; [auto|].
  destruct (existsb (path_eqb y) seen); cbn [In]; [intros Hx; right; eauto|].
  intros [->|Hx]; [left; reflexivity | right; eauto].
Qed.

Lemma in_dedup_paths (l : list Path) (x : Path) : In x (dedup_paths l) -> In x l.
Proof. apply in_dedup_paths_aux. Qed.

(** ** The JSON side files *)

Lemma metadata_json_fold `{Externals} (P : platform) (files : list Path)
  (m0 : gmap string meta) (l0 : list advisory) :
  exists m,
    fold_left (json_step P) files (Ok m0 l0)
    = Ok m (l0 ++ map (JsonUnreadable P) (List.filter unreadable files))%list /\
    (forall k v, m !! k = Some v ->
       m0 !! k = Some v \/
       exists f j, In f files /\ name f = k /\ read_json f = Some j /\ v = MJson j) /\
    (forall k, is_Some (m0 !! k) -> is_Some (m !! k)) /\
    (forall f j, In f files -> read_json f = Some j -> is_Some (m !! name f)).
Proof.
  revert m0 l0. induction files as [|f files IH]; intros m0 l0.
  - exists m0. cbn. rewrite app_nil_r. repeat split; auto.
    intros f j [].
  - cbn [fold_left List.filter]. unfold unreadable at 1.
    destruct (read_json f) as [j|] eqn:Hj.
    + assert (Hs : json_step P (Ok m0 l0) f = Ok (<[name f := MJson j]> m0) l0).
      { unfold json_step. rewrite Hj. cbn. rewrite app_nil_r. reflexivity. }
      rewrite Hs.
      destruct (IH (<[name f := MJson j]> m0) l0) as (m & Hm & Hval & Hkeep & Hin).
      exists m. split; [exact Hm|]. repeat split.
      * intros k v Hk. destruct (Hval k v Hk) as [H0|(f' & j' & Hf' & Hn & Hr & Hv)].
        -- destruct (decide (name f = k)) as [<-|Hne].
           ++ rewrite lookup_insert_eq in H0. injection H0 as <-.
              right. exists f, j. cbn. auto.
           ++ rewrite lookup_insert_ne in H0 by exact Hne. left. exact H0.
        -- right. exists f', j'. cbn. auto.
      * intros k Hk. apply Hkeep.
        destruct (decide (name f = k)) as [<-|Hne].
        -- rewrite lookup_insert_eq. eauto.
        -- rewrite lookup_insert_ne by exact Hne. exact Hk.
      * intros f' j' [<-|Hf'] Hr.
        -- apply Hkeep. rewrite lookup_insert_eq. eauto.
        -- eapply Hin; eauto.
    + assert (Hs : json_step P (Ok m0 l0) f = Ok m0 (l0 ++ [JsonUnreadable P f])%list).
      { unfold json_step. rewrite Hj. reflexivity. }
      rewrite Hs.
      destruct (IH m0 (l0 ++ [JsonUnreadable P f])%list) as (m & Hm & Hval & Hkeep & Hin).
      exists m. cbn [map].
      split; [rewrite Hm, <- app_assoc; reflexivity|]. repeat split.
      * intros k v Hk. destruct (Hval k v Hk) as [H0|(f' & j' & Hf' & Hn & Hr & Hv)];
          [left; exact H0|]. right. exists f', j'. cbn. auto.
      * exact Hkeep.
      * intros f' j' [<-|Hf'] Hr; [congruence|]. eapply Hin; eauto.
Qed.

Lemma metadata_json_spec `{Externals} (P : platform) (files : list Path) :
  exists m,
    _load_metadata_json P files
      = Ok m (map (JsonUnreadable P) (List.filter unreadable files)) /\
    (forall k v, m !! k = Some v ->
       exists f j, In f files /\ name f = k /\ read_json f = Some j /\ v = MJson j) /\
    (forall f j, In f files -> read_json f = Some j -> is_Some (m !! name f)).
Proof.
  destruct (metadata_json_fold P files ∅ []) as (m & Hm & Hval & _ & Hin).
  exists m. split; [exact Hm|]. split; [|exact Hin].
  intros k v Hk. destruct (Hval k v Hk) as [H0|H1]; [|exact H1].
  rewrite lookup_empty in H0. discriminate.
Qed.

(** ** What a successful parse went through *)

Ltac role_columns Hload good :=
  eapply (load_role_ok_inv _ _ _ _ _ (fun t => column_names t = _));
  [| apply good | exact Hload]; reflexivity.

Ltac own_keys_only :=
  repeat (apply List.Forall_cons; [cbn; tauto|]); apply List.Forall_nil.

Ltac open_parser Hp :=
  match type of Hp with
  | context [exists_ ?fs ?base] =>
      destruct (exists_ fs base); [|discriminate];
      destruct (is_dir fs base); [|discriminate]
  end;
  cbn [negb] in Hp; cbv zeta in Hp.

(** A role without a file leaves its advisory in the log of the role. *)
Lemma load_role_reports (P : platform) (n : string) (e : frame)
  (l : Path -> result frame) (out : frame) (log : list advisory) :
  load_role P n None e l = Ok out log -> In (RoleFileNotFound P n) log.
Proof. cbn. intros [= _ <-]. left. reflexivity. Qed.

Ltac reported Hn H :=
  match type of H with
  | load_role _ _ ?f _ _ = _ => replace f with (@None Path) in H by (symmetry; exact Hn)
  end;
  apply load_role_reports in H;
  repeat first [exact H | apply in_or_app; left; exact H | apply in_or_app; right].

Lemma parse_cosmx_inv `{Externals} (fs : node) (base : Path) (ds : dataset)
  (log : list advisory) :
  Cosmx.parse_cosmx fs base = Ok ds log -> parsed fs (cosmx_parser fs) base ds log.
Proof.
  unfold Cosmx.parse_cosmx, parsed. intros Hp. open_parser Hp.
  apply bind_ok_inv in Hp as (t & lt & ? & Ht & Hp & ->).
  apply bind_ok_inv in Hp as (c & lc & ? & Hc & Hp & ->).
  apply bind_ok_inv in Hp as (e & le & ? & He & Hp & ->).
  apply bind_ok_inv in Hp as (m & lm & ? & Hm & Hp & _).
  repeat (apply bind_ok_inv in Hp as (? & ? & ? & _ & Hp & _)).
  injection Hp as <- _. cbn [platform_of transcript_data Canonical.cell_metadata metadata tag
                              side_files roles cosmx_parser].
  split; [reflexivity|]. split; [reflexivity|].
  split; [role_columns Ht cosmx_load_transcripts_good|].
  split; [role_columns Hc cosmx_load_cell_metadata_good|].
  exists m, lm. eexists [], _. split; [exact Hm|]. split; [reflexivity|].
  split; [own_keys_only|].
  intros n [[= <- Hn]|[[= <- Hn]|[[= <- Hn]|[]]]].
  - reported Hn Ht.
  - reported Hn Hc.
  - reported Hn He.
Qed.

Lemma parse_merscope_inv `{Externals} (fs : node) (base : Path) (ds : dataset)
  (log : list advisory) :
  Merscope.parse_merscope fs base = Ok ds log -> parsed fs (merscope_parser fs) base ds log.
Proof.
  unfold Merscope.parse_merscope, parsed. intros Hp. open_parser Hp.
  apply bind_ok_inv in Hp as (t & lt & ? & Ht & Hp & ->).
  apply bind_ok_inv in Hp as (c & lc & ? & Hc & Hp & ->).
  apply bind_ok_inv in Hp as (e & le & ? & He & Hp & ->).
  apply bind_ok_inv in Hp as (m & lm & ? & Hm & Hp & _).
  repeat (apply bind_ok_inv in Hp as (? & ? & ? & _ & Hp & _)).
  injection Hp as <- _. cbn [platform_of transcript_data Canonical.cell_metadata metadata tag
                              side_files roles merscope_parser].
  split; [reflexivity|]. split; [reflexivity|].
  split; [role_columns Ht merscope_load_transcripts_good|].
  split; [role_columns Hc merscope_load_cell_metadata_good|].
  exists m, lm. eexists [], _. split; [exact Hm|]. split; [reflexivity|].
  split; [own_keys_only|].
  intros n [[= <- Hn]|[[= <- Hn]|[[= <- Hn]|[]]]].
  - reported Hn Ht.
  - reported Hn Hc.
  - reported Hn He.
Qed.

Lemma parse_xenium_inv `{Externals} (fs : node) (base : Path) (ds : dataset)
  (log : list advisory) :
  Xenium.parse_xenium fs base = Ok ds log -> parsed fs (xenium_parser fs) base ds log.
Proof.
  unfold Xenium.parse_xenium, parsed. intros Hp. open_parser Hp.
  apply bind_ok_inv in Hp as (t & lt & ? & Ht & Hp & ->).
  apply bind_ok_inv in Hp as (c & lc & ? & Hc & Hp & ->).
  apply bind_ok_inv in Hp as (e & le & ? & He & Hp & ->).
  apply bind_ok_inv in Hp as (m & lm & ? & Hm & Hp & _).
  repeat (apply bind_ok_inv in Hp as (? & ? & ? & _ & Hp & _)).
  injection Hp as <- _. cbn [platform_of transcript_data Canonical.cell_metadata metadata tag
                              side_files roles xenium_parser].
  split; [reflexivity|]. split; [reflexivity|].
  split; [role_columns Ht xenium_load_transcripts_good|].
  split; [role_columns Hc xenium_load_cell_metadata_good|].
  exists m, lm. eexists [], _. split; [exact Hm|]. split; [reflexivity|].
  split; [own_keys_only|].
  intros n [[= <- Hn]|[[= <- Hn]|[[= <- Hn]|[]]]].
  - reported Hn Ht.
  - reported Hn Hc.
  - reported Hn He.
Qed.

Lemma parse_visium_inv `{Externals} (fs : node) (base : Path) (ds : dataset)
  (log : list advisory) :
  Visium.parse_visium fs base = Ok ds log -> parsed fs (visium_parser fs) base ds log.
Proof.
  unfold Visium.parse_visium, parsed. intros Hp. open_parser Hp.
  apply bind_ok_inv in Hp as (c & lc & ? & Hc & Hp & ->).
  apply bind_ok_inv in Hp as (e & le & ? & He & Hp & ->).
  apply bind_ok_inv in Hp as (m & lm & ? & Hm & Hp & _).
  repeat (apply bind_ok_inv in Hp as (? & ? & ? & _ & Hp & _)).
  injection Hp as <- _. cbn [platform_of transcript_data Canonical.cell_metadata metadata tag
                              side_files roles visium_parser].
  split; [reflexivity|]. split; [reflexivity|].
  split; [reflexivity|].
  split; [role_columns Hc visium_load_tissue_positions_good|].
  exists m, lm. eexists [], _. split; [exact Hm|]. split; [reflexivity|].
  split; [own_keys_only|].
  intros n [[= <- Hn]|[[= <- Hn]|[]]].
  - reported Hn Hc.
  - reported Hn He.
Qed.

Lemma parse_visium_hd_inv `{Externals} (fs : node) (base : Path) (ds : dataset)
  (log : list advisory) :
  VisiumHD.parse_visium_hd fs base = Ok ds log ->
  parsed fs (visium_hd_parser fs) base ds log.
Proof.
  unfold VisiumHD.parse_visium_hd, parsed. intros Hp. open_parser Hp.
  apply bind_ok_inv in Hp as (c & lc & ? & Hc & Hp & ->).
  apply bind_ok_inv in Hp as (e & le & ? & He & Hp & ->).
  apply bind_ok_inv in Hp as (m & lm & ? & Hm & Hp & _).
  repeat (apply bind_ok_inv in Hp as (? & ? & ? & _ & Hp & _)).
  injection Hp as <- _. cbn [platform_of transcript_data Canonical.cell_metadata metadata tag
                              side_files roles visium_hd_parser].
  split; [reflexivity|]. split; [reflexivity|].
  split; [reflexivity|].
  split; [role_columns Hc visium_hd_load_positions_good|].
  exists m, lm.
  assert (Hroles : forall n,
             In (n, None)
                [("tissue positions file",
                  VisiumHD.positions
                    (VisiumHD._discover_files fs
                       (VisiumHD.root (VisiumHD._discover_visium_root fs base))));
                 ("expression matrix",
                  VisiumHD.expression
                    (VisiumHD._discover_files fs
                       (VisiumHD.root (VisiumHD._discover_visium_root fs base))))] ->
             In (RoleFileNotFound visium_hd n) (lc ++ le ++ x0)%list).
  { intros n [[= <- Hn]|[[= <- Hn]|[]]].
    - reported Hn Hc.
    - reported Hn He. }
  destruct (VisiumHD.bin_name (VisiumHD._discover_visium_root fs base)) as [b|].
  - eexists [(_, _); (_, _)], _. split; [exact Hm|]. split; [reflexivity|].
    split; [own_keys_only | exact Hroles].
  - eexists [(_, _)], _. split; [exact Hm|]. split; [reflexivity|].
    split; [own_keys_only | exact Hroles].
Qed.

Lemma parser_inv `{Externals} (fs : node) (pr : parser) (base : Path) (ds : dataset)
  (log : list advisory) :
  In pr (parsers fs) -> run pr base = Ok ds log -> parsed fs pr base ds log.
Proof.
  intros [<-|[<-|[<-|[<-|[<-|[]]]]]]; cbn [run].
  - apply parse_cosmx_inv.
  - apply parse_merscope_inv.
  - apply parse_xenium_inv.
  - apply parse_visium_inv.
  - apply parse_visium_hd_inv.
Qed.

(** ** The metadata of the parsers *)

Lemma endswith_any_intro (sufs : list string) (suf n : string) :
  In suf sufs -> Text.endswith suf n = true -> Text.endswith_any sufs n = true.
Proof.
  intros Hin Hs. unfold Text.endswith_any. apply existsb_exists. exists suf. auto.
Qed.

Lemma in_json_globs (fs : node) (b : Path) (sufs : list string) (f : Path) :
  (forall suf, In suf sufs -> In suf [".json"; ".JSON"; ".xenium"; ".XENIUM"]) ->
  In f (flat_map (glob_suffix fs b) sufs) -> json_name (name f) = true.
Proof.
  intros Hsufs Hin. apply in_flat_map in Hin as (suf & Hsuf & Hf).
  apply in_glob_suffix in Hf as [Hend _].
  exact (endswith_any_intro _ suf _ (Hsufs _ Hsuf) Hend).
Qed.

Ltac json_suffixes := intros ? Hs; cbn in Hs |- *; tauto.

Lemma side_files_names `{Externals} (fs : node) (pr : parser) (base f : Path) :
  In pr (parsers fs) -> In f (side_files pr base) -> json_name (name f) = true.
Proof.
  intros [<-|[<-|[<-|[<-|[<-|[]]]]]];
    cbn [side_files cosmx_parser merscope_parser xenium_parser visium_parser visium_hd_parser].
  - unfold Cosmx._discover_files. cbn [Cosmx.json_files]. rewrite in_sorted_paths.
    intros Hf. apply (in_json_globs fs base [".json"; ".JSON"]); [json_suffixes|].
    cbn [flat_map]. rewrite app_nil_r. exact Hf.
  - unfold Merscope._discover_files. cbn [Merscope.json_files].
    intros Hf. apply in_dedup_paths, in_flat_map in Hf as (root & _ & Hf).
    apply in_app_or in Hf. rewrite !in_sorted_paths in Hf.
    apply (in_json_globs fs root [".json"; ".JSON"]); [json_suffixes|].
    cbn [flat_map]. rewrite app_nil_r. apply in_or_app. exact Hf.
  - unfold Xenium._discover_files. cbn [Xenium.json_files]. rewrite in_sorted_paths.
    intros Hf. apply (in_json_globs fs base [".json"; ".JSON"; ".xenium"; ".XENIUM"]);
      [json_suffixes|].
    cbn [flat_map]. rewrite app_nil_r. exact Hf.
  - unfold Visium._discover_files. cbn [Visium.json_files]. rewrite in_sorted_paths.
    intros Hf. apply in_dedup_paths in Hf. apply in_app_or in Hf as [Hf|Hf].
    + destruct (exists_ fs (join base "spatial") && is_dir fs (join base "spatial"));
        [|destruct Hf].
      apply (in_json_globs fs (join base "spatial") [".json"; ".JSON"]); [json_suffixes|].
      cbn [flat_map]. rewrite app_nil_r. exact Hf.
    + apply (in_json_globs fs base [".json"; ".JSON"]); [json_suffixes|].
      cbn [flat_map]. rewrite app_nil_r. exact Hf.
  - unfold VisiumHD._discover_files. cbn [VisiumHD.json_files]. rewrite in_sorted_paths.
    intros Hf.
    apply (in_json_globs fs (VisiumHD.root (VisiumHD._discover_visium_root fs base))
             [".json"; ".JSON"]); [json_suffixes|].
    cbn [flat_map]. rewrite app_nil_r. exact Hf.
Qed.

Lemma lookup_setdefault (k k' : string) (v : meta) (d : gmap string meta) :
  setdefault k v d !! k' =
  match d !! k' with
  | Some x => Some x
  | None => if String.eqb k' k then Some v else None
  end.
Proof.
  unfold setdefault. destruct (String.eqb_spec k' k) as [->|Hne].
  - destruct (d !! k) eqn:Hd; cbv beta iota; [rewrite Hd; reflexivity|].
    rewrite lookup_insert_eq. reflexivity.
  - destruct (d !! k) eqn:Hd; cbv beta iota.
    + destruct (d !! k'); reflexivity.
    + rewrite lookup_insert_ne by congruence. destruct (d !! k'); reflexivity.
Qed.

(** Among the entries a parser stores of its own, the first of a key stays;
    a document of a side file under that key goes before all of them. *)
Lemma lookup_with_defaults (defaults : list (string * meta)) (m : gmap string meta)
  (k : string) :
  with_defaults defaults m !! k =
  match m !! k with
  | Some x => Some x
  | None => assoc k defaults
  end.
Proof.
  unfold with_defaults. revert m.
  induction defaults as [|[k0 v0] defaults IH]; intros m; cbn [fold_left assoc fst snd].
  - destruct (m !! k); reflexivity.
  - rewrite IH, lookup_setdefault. destruct (m !! k); [reflexivity|].
    destruct (String.eqb k k0); reflexivity.
Qed.


Lemma assoc_some_in {A} (k : string) (l : list (string * A)) (v : A) :
  assoc k l = Some v -> In k (map fst l).
Proof.
  induction l as [|[k0 v0] l IH]; [discriminate|].
  cbn [assoc map fst]. destruct (String.eqb_spec k k0) as [->|Hne].
  - intros _. left. reflexivity.
  - intros Hk. right. exact (IH Hk).
Qed.

Lemma own_keys_not_json (k : string) :
  In k ("detection" :: own_keys) -> json_name k = false.
Proof. intros [<-|[<-|[<-|[<-|[<-|[]]]]]]; reflexivity. Qed.

(** The documents never sit under a key of the parser's own. *)
Lemma documents_not_own `{Externals} (fs : node) (pr : parser) (base : Path)
  (m : gmap string meta) (lm : list advisory) (k : string) :
  In pr (parsers fs) ->
  _load_metadata_json (tag pr) (side_files pr base) = Ok m lm ->
  In k ("detection" :: own_keys) -> m !! k = None.
Proof.
  intros Hpr Hm Hk.
  destruct (metadata_json_spec (tag pr) (side_files pr base)) as (m' & Hm' & Hval & _).
  rewrite Hm in Hm'. injection Hm' as <- _.
  destruct (m !! k) as [v|] eqn:Hv; [|reflexivity].
  destruct (Hval k v Hv) as (f & j & Hf & Hn & _).
  pose proof (side_files_names fs pr base f Hpr Hf) as Hj.
  rewrite Hn, (own_keys_not_json k Hk) in Hj. discriminate.
Qed.

Lemma rest_keys (rest : list (string * meta)) (files : list (string * meta)) (k : string) :
  List.Forall (fun kv => In (fst kv) ["selected_root"; "bin"]) rest ->
  In k (map fst (rest ++ [("files", MDict files)])%list) ->
  In k ["selected_root"; "bin"; "files"].
Proof.
  intros Hrest Hin. rewrite map_app in Hin. apply in_app_or in Hin as [Hin|Hin].
  - apply in_map_iff in Hin as (kv & <- & Hkv).
    rewrite List.Forall_forall in Hrest. specialize (Hrest kv Hkv). cbn in Hrest |- *. tauto.
  - cbn in Hin |- *. tauto.
Qed.

(** X1. A platform parser that returns hands back the canonical tables under
    its own tag: the transcript table has exactly the columns x, y, gene,
    cell_id and the cell table exactly cell_id, x, y, cell_type, in this
    order, whatever the columns of the files were called; and it returns
    only for a directory. *)
Theorem parser_output_schema `{Externals} (fs : node) (pr : parser) (base : Path)
  (ds : dataset) (log : list advisory) :
  In pr (parsers fs) ->
  run pr base = Ok ds log ->
  is_dir fs base = true /\
  platform_of ds = tag pr /\
  column_names (transcript_data ds) = ["x"; "y"; "gene"; "cell_id"] /\
  column_names (Canonical.cell_metadata ds) = ["cell_id"; "x"; "y"; "cell_type"].
Proof.
  intros Hpr Hrun.
  destruct (parser_inv fs pr base ds log Hpr Hrun) as (Hdir & Htag & Ht & Hc & _).
  auto.
Qed.

(** X2. [_load_metadata_json] never raises. It logs one advisory for each
    side file that cannot be read or parsed, in the order of the files, and
    returns a dictionary in which every key is the name of a readable side
    file and every value the parsed document of a file of that name; the
    name of every readable file is a key. *)
Theorem load_metadata_json_skips_unreadable `{Externals} (P : platform) (files : list Path) :
  exists m,
    _load_metadata_json P files
      = Ok m (map (JsonUnreadable P) (List.filter unreadable files)) /\
    (forall k v, m !! k = Some v ->
       exists f j, In f files /\ name f = k /\ read_json f = Some j /\ v = MJson j) /\
    (forall f j, In f files -> read_json f = Some j -> is_Some (m !! name f)).
Proof. exact (metadata_json_spec P files). Qed.


(** X21. A platform parser that returns has reported every role it found
    no file for: for each role the discovery picked no file for, the log
    holds the advisory naming the role under the tag of the parser. *)
Theorem absent_roles_are_reported `{Externals} (fs : node) (pr : parser) (base : Path)
  (ds : dataset) (log : list advisory) (n : string) :
  In pr (parsers fs) ->
  run pr base = Ok ds log ->
  In (n, None) (roles pr base) ->
  In (RoleFileNotFound (tag pr) n) log.
Proof.
  intros Hpr Hrun Hn.
  destruct (parser_inv fs pr base ds log Hpr Hrun)
    as (_ & _ & _ & _ & m & lm & rest & files & _ & _ & _ & Hroles).
  exact (Hroles n Hn).
Qed.

(** ** The loader *)

Lemma detect_logs_nothing (fs : node) (p : Path) (det : Universal.DetectionResult)
  (log : list advisory) :
  Universal.detect_spatial_format fs p = Ok det log -> log = [].
Proof.
  unfold Universal.detect_spatial_format, ret, raise. cbv zeta. intros Hd.
  repeat case_match; try discriminate; injection Hd as _ <-; reflexivity.
Qed.

Lemma get_parser_listed `{Externals} (fs : node) (pl : platform)
  (parse : Path -> result dataset) :
  Loader._get_parser fs pl = Some parse ->
  exists pr, In pr (parsers fs) /\ tag pr = pl /\ run pr = parse.
Proof.
  destruct pl; cbn [Loader._get_parser]; intros [= <-].
  - eexists; split; [left; reflexivity|]; split; reflexivity.
  - eexists; split; [right; left; reflexivity|]; split; reflexivity.
  - eexists; split; [do 3 right; left; reflexivity|]; split; reflexivity.
  - eexists; split; [do 4 right; left; reflexivity|]; split; reflexivity.
  - eexists; split; [do 2 right; left; reflexivity|]; split; reflexivity.
Qed.

Lemma get_parser_none `{Externals} (fs : node) (pl : platform) :
  Loader._get_parser fs pl = None -> pl = tabular.
Proof. destruct pl; cbn; congruence. Qed.

(** What [_parse_tabular_cells] returns, when it returns. *)
Lemma tabular_cells_inv `{Externals} (path : Path) (ds : dataset) (log : list advisory) :
  Loader.tabular_cells path = Ok ds log ->
  exists df cc xc yc,
    read_csv_sniff path = Some df /\
    let df' := _standardize_columns df in
    let colmap := Loader.colmap_of (column_names df') in
    let tc := Columns._first_present colmap Loader.type_aliases in
    let cm := Loader.cell_table df' cc xc yc tc in
    Columns._first_present colmap Loader.cell_id_aliases = Some cc /\
    Columns._first_present colmap Loader.x_aliases = Some xc /\
    Columns._first_present colmap Loader.y_aliases = Some yc /\
    ds = {| platform_of := tabular;
            transcript_data := empty_with_columns Loader._TRANSCRIPT_COLS;
            Canonical.cell_metadata := Loader.select cm Loader._CELL_COLS;
            expression_matrix :=
              Loader.expression_table df' cm
                (Loader.gene_cols_of df' (Loader.known_cols cc xc yc tc));
            metadata := {[ "input_file" := MStr (str_of_path path) ]} |} /\
    log = (if any_na (get_col cm "x") || any_na (get_col cm "y")
           then [NaNCoordinates tabular (count_na_rows (get_col cm "x") (get_col cm "y"))]
           else []).
Proof.
  unfold Loader.tabular_cells. destruct (read_csv_sniff path) as [df|]; [|discriminate].
  cbn [or_raise bind ret]. 
  destruct (Columns._first_present _ Loader.cell_id_aliases) as [cc|] eqn:Hcc;
    [|destruct (Columns._first_present _ Loader.x_aliases);
      destruct (Columns._first_present _ Loader.y_aliases); discriminate].
  destruct (Columns._first_present _ Loader.x_aliases) as [xc|] eqn:Hxc;
    [|destruct (Columns._first_present _ Loader.y_aliases); discriminate].
  destruct (Columns._first_present _ Loader.y_aliases) as [yc|] eqn:Hyc; [|discriminate].
  rewrite warn_if_ok. cbn [bind ret]. intros [= <- <-].
  exists df, cc, xc, yc. cbv zeta. rewrite app_nil_r. repeat split; auto.
Qed.

Lemma parse_tabular_inv `{Externals} (fs : node) (path : Path) (ds : dataset)
  (log : list advisory) :
  Loader._parse_tabular_cells fs path = Loader.Loaded ds log ->
  is_file fs path = true /\ Loader.tabular_cells path = Ok ds log.
Proof.
  unfold Loader._parse_tabular_cells. destruct (is_file fs path); [|discriminate].
  cbn [negb]. destruct (Loader.tabular_cells path); cbn; [|discriminate].
  intros [= <- <-]. auto.
Qed.

(** What [load_spatial] went through when it returns. *)
Lemma load_spatial_inv `{Externals} (fs : node) (p : Path) (ds : dataset)
  (log : list advisory) :
  Loader.load_spatial fs p = Loader.Loaded ds log ->
  exists det out,
    Universal.detect_spatial_format fs p = Ok det [] /\
    ds = Loader.with_detection det p out /\
    ((Universal.platform det = tabular /\
      Loader._parse_tabular_cells fs p = Loader.Loaded out log) \/
     (exists pr, In pr (parsers fs) /\ tag pr = Universal.platform det /\
                 run pr p = Ok out log)).
Proof.
  unfold Loader.load_spatial. destruct (exists_ fs p); [|discriminate]. cbn [negb].
  destruct (Universal.detect_spatial_format fs p) as [det dlog|] eqn:Hdet; [|discriminate].
  pose proof (detect_logs_nothing _ _ _ _ Hdet) as ->.
  cbv zeta. cbn [app]. intros Hl. exists det.
  destruct (Universal.platform det) eqn:Hpl.
  6: { destruct (Loader._parse_tabular_cells fs p) as [out l|] eqn:Ht; [|discriminate].
       injection Hl as <- <-. exists out. auto. }
  all: destruct (Loader._get_parser fs _) as [parse|] eqn:Hg in Hl; [|discriminate Hg];
    destruct (parse p) as [out l|] eqn:Hp; cbn [Loader.of_result] in Hl; [|discriminate];
    injection Hl as <- <-;
    destruct (get_parser_listed fs _ parse Hg) as (pr & Hin & Htag & Hrun);
    exists out; split; [reflexivity|]; split; [reflexivity|];
    right; exists pr; rewrite Hrun; auto.
Qed.

(** X4. When [load_spatial] returns, the platform tag of the result is the
    platform the detector answered for the path, the tables are those of
    the parser of that platform, and the metadata holds, under the key
    [detection], the record of that answer: no parser and no side file
    stores anything under this key. *)
Theorem load_spatial_records_detection `{Externals} (fs : node) (p : Path) (ds : dataset)
  (log : list advisory) :
  Loader.load_spatial fs p = Loader.Loaded ds log ->
  exists det,
    Universal.detect_spatial_format fs p = Ok det [] /\
    platform_of ds = Universal.platform det /\
    metadata ds !! "detection" = Some (Loader.detection_record det p).
Proof.
  intros Hl. destruct (load_spatial_inv fs p ds log Hl) as (det & out & Hdet & -> & Hout).
  exists det. split; [exact Hdet|].
  cbn [Loader.with_detection platform_of metadata]. rewrite lookup_setdefault.
  destruct Hout as [[Hpl Ht]|(pr & Hpr & Htag & Hrun)].
  - apply parse_tabular_inv in Ht as [_ Ht].
    apply tabular_cells_inv in Ht as (df & cc & xc & yc & _ & _ & _ & _ & -> & _).
    cbn [platform_of metadata]. split; [congruence|].
    rewrite lookup_singleton_ne by discriminate. reflexivity.
  - destruct (parser_inv fs pr p out log Hpr Hrun)
      as (_ & Hplat & _ & _ & m & lm & rest & files & Hm & Hmeta & Hrest & _).
    split; [congruence|].
    rewrite Hmeta, lookup_with_defaults.
    rewrite (documents_not_own fs pr p m lm "detection" Hpr Hm) by (cbn; tauto).
    destruct (assoc "detection" _) as [v|] eqn:Hv; [|reflexivity].
    exfalso. apply assoc_some_in in Hv. cbn [map fst] in Hv.
    destruct Hv as [Hv|Hv]; [discriminate|].
    pose proof (rest_keys rest files _ Hrest Hv) as Hown. cbn in Hown.
    intuition discriminate.
Qed.

(** X5. A directory that the detector answers [tabular] for, because it
    holds a single tabular file and no platform signature, cannot be
    loaded: [load_spatial] hands the directory itself to
    [_parse_tabular_cells], which refuses whatever is not a file. *)
Theorem load_spatial_refuses_tabular_directory `{Externals} (fs : node) (p : Path)
  (det : Universal.DetectionResult) (log : list advisory) :
  is_dir fs p = true ->
  Universal.detect_spatial_format fs p = Ok det log ->
  Universal.platform det = tabular ->
  Loader.load_spatial fs p = Loader.Failed (Loader.TabularNotAFile p).
Proof.
  intros Hdir Hdet Hpl. unfold Loader.load_spatial.
  rewrite (is_dir_exists _ _ Hdir), Hdet. cbn [negb]. cbv zeta. rewrite Hpl.
  unfold Loader._parse_tabular_cells. rewrite (is_dir_not_file _ _ Hdir). reflexivity.
Qed.

(** X6. [load_spatial] raises its missing-path error exactly when the path
    does not exist, and never the unsupported-platform error of
    [_get_parser]: the detector answers no platform it has no parser for,
    and [tabular] does not go through [_get_parser]. *)
Theorem load_spatial_own_failures `{Externals} (fs : node) (p : Path) :
  (forall q, Loader.load_spatial fs p = Loader.Failed (Loader.PathMissing q) <->
             exists_ fs p = false /\ q = p) /\
  (forall pl, Loader.load_spatial fs p <> Loader.Failed (Loader.UnsupportedPlatform pl)).
Proof.
  assert (Hparsers : forall (det : Universal.DetectionResult) (f : Loader.failure),
             match Universal.platform det with
             | tabular => Loader._parse_tabular_cells fs p
             | other => match Loader._get_parser fs other with
                        | Some parse => Loader.of_result (parse p)
                        | None => Loader.Failed (Loader.UnsupportedPlatform other)
                        end
             end = Loader.Failed f ->
             (exists e, f = Loader.Raised e) \/ f = Loader.TabularNotAFile p).
  { intros det f. destruct (Universal.platform det); cbn [Loader._get_parser].
    6: { unfold Loader._parse_tabular_cells. destruct (is_file fs p); cbn [negb].
         - destruct (Loader.tabular_cells p); cbn; [discriminate|].
           intros [= <-]. left. eauto.
         - intros [= <-]. right. reflexivity. }
    all: match goal with
         | |- Loader.of_result ?r = _ -> _ => destruct r; cbn; [discriminate|]
         end; intros [= <-]; left; eauto. }
  unfold Loader.load_spatial. cbv zeta. split.
  - intros q. destruct (exists_ fs p); cbn [negb].
    + split; [|intros [? _]; discriminate]. intros Hl. exfalso.
      destruct (Universal.detect_spatial_format fs p) as [det dlog|]; [|discriminate].
      destruct (match Universal.platform det with tabular => _ | _ => _ end) as [out l|f] eqn:Hp;
        [discriminate|].
      destruct (Hparsers det f Hp) as [[e ->]| ->]; discriminate.
    + split; [intros [= <-]; auto | intros [_ ->]; reflexivity].
  - intros pl. destruct (exists_ fs p); cbn [negb]; [|discriminate].
    destruct (Universal.detect_spatial_format fs p) as [det dlog|]; [|discriminate].
    destruct (match Universal.platform det with tabular => _ | _ => _ end) as [out l|f] eqn:Hp;
      [discriminate|].
    destruct (Hparsers det f Hp) as [[e ->]| ->]; discriminate.
Qed.

(** ** Cell-level tables *)


Lemma to_numeric_numeric `{Externals} (col : list cell) (v : cell) :
  In v (to_numeric col) -> numeric_or_missing v.
Proof.
  unfold to_numeric. intros Hin. apply in_map_iff in Hin as (c & <- & _).
  unfold numeric_or_missing, to_numeric_cell.
  destruct c as [|q|s]; [left; reflexivity | right; eauto |].
  destruct (parse_num s); [right; eauto | left; reflexivity].
Qed.

Lemma astype_string_idem `{Externals} (col : list cell) :
  astype_string (astype_string col) = astype_string col.
Proof.
  unfold astype_string. rewrite map_map. apply map_ext. intros [|q|s]; reflexivity.
Qed.

(** [df[c]] on a table built from a list of labels. *)
Lemma assoc_map_key {A} (f : string -> A) (l : list string) (c : string) :
  In c l -> assoc c (map (fun k => (k, f k)) l) = Some (f c).
Proof.
  induction l as [|k l IH]; intros Hin; [destruct Hin|].
  cbn [map assoc]. destruct (String.eqb_spec c k) as [->|Hne]; [reflexivity|].
  destruct Hin as [->|Hin]; [congruence | exact (IH Hin)].
Qed.

Lemma assoc_map_values {A B} (g : A -> B) (l : list (string * A)) (c : string) :
  assoc c (map (fun kv => (fst kv, g (snd kv))) l) = option_map g (assoc c l).
Proof.
  induction l as [|[k v] l IH]; [reflexivity|].
  cbn [map assoc fst snd]. destruct (String.eqb c k); [reflexivity | exact IH].
Qed.

(** X7. A cell-level file that [_parse_tabular_cells] accepts comes back in
    the canonical structure: the tag [tabular], an empty transcript table
    with the four transcript columns, a cell table with exactly the columns
    cell_id, x, y, cell_type whose coordinates are numbers or missing (a
    coordinate that does not read as a number is missing, never text), an
    expression table indexed by the cell ids under the name [cell_id], and
    a metadata dictionary holding the input file alone; the only advisory it
    can log is the one on missing coordinates. *)
Theorem tabular_cells_schema `{Externals} (fs : node) (path : Path) (ds : dataset)
  (log : list advisory) :
  Loader._parse_tabular_cells fs path = Loader.Loaded ds log ->
  is_file fs path = true /\
  platform_of ds = tabular /\
  transcript_data ds = empty_with_columns ["x"; "y"; "gene"; "cell_id"] /\
  column_names (Canonical.cell_metadata ds) = ["cell_id"; "x"; "y"; "cell_type"] /\
  (forall v, In v (get_col (Canonical.cell_metadata ds) "x") \/
             In v (get_col (Canonical.cell_metadata ds) "y") -> numeric_or_missing v) /\
  index_name (expression_matrix ds) = Some "cell_id" /\
  index (expression_matrix ds) = get_col (Canonical.cell_metadata ds) "cell_id" /\
  metadata ds = {[ "input_file" := MStr (str_of_path path) ]} /\
  (log = [] \/ exists n, log = [NaNCoordinates tabular n]).
Proof.
  intros Hp. apply parse_tabular_inv in Hp as [Hfile Ht].
  apply tabular_cells_inv in Ht as (df & cc & xc & yc & _ & _ & _ & _ & -> & ->).
  cbn [platform_of transcript_data Canonical.cell_metadata expression_matrix metadata].
  split; [exact Hfile|]. split; [reflexivity|]. split; [reflexivity|].
  split; [reflexivity|].
  split.
  { intros v [Hv|Hv]; exact (to_numeric_numeric _ v Hv). }
  split.
  { unfold Loader.expression_table. destruct (Loader.gene_cols_of _ _); reflexivity. }
  split.
  { unfold Loader.expression_table.
    destruct (Loader.gene_cols_of _ _); cbn [index Loader.fillna apply_to_numeric with_index];
      apply astype_string_idem. }
  split; [reflexivity|].
  destruct (any_na _ || any_na _); [right; eauto | left; reflexivity].
Qed.

(** X8. The expression table of a cell-level file whose labels are distinct
    once trimmed: its columns are the columns of the file that were not
    taken as cell id, x, y or cell type, in the order of the file, and each
    value is the number the value of the file reads as, and 0 where it
    reads as none; so the table holds no missing value. *)
Theorem tabular_expression_counts `{Externals} (fs : node) (path : Path) (df : frame)
  (ds : dataset) (log : list advisory) :
  read_csv_sniff path = Some df ->
  List.NoDup (column_names (_standardize_columns df)) ->
  Loader._parse_tabular_cells fs path = Loader.Loaded ds log ->
  let df' := _standardize_columns df in
  let cols := column_names df' in
  exists cc xc yc,
    Columns.resolve cols Loader.cell_id_aliases = Some cc /\
    Columns.resolve cols Loader.x_aliases = Some xc /\
    Columns.resolve cols Loader.y_aliases = Some yc /\
    let known := Loader.known_cols cc xc yc (Columns.resolve cols Loader.type_aliases) in
    column_names (expression_matrix ds)
      = List.filter (fun c => negb (Text.mem c known)) cols /\
    (forall c, In c (column_names (expression_matrix ds)) ->
       get_col (expression_matrix ds) c = map count_or_zero (get_col df' c)) /\
    (forall c col v, In (c, col) (columns (expression_matrix ds)) -> In v col ->
       exists q, v = Num q).
Proof.
  intros Hread _ Hp df' cols. apply parse_tabular_inv in Hp as [_ Ht].
  apply tabular_cells_inv in Ht as (df0 & cc & xc & yc & Hread' & Hcc & Hxc & Hyc & -> & _).
  rewrite Hread in Hread'. injection Hread' as <-.
  exists cc, xc, yc. fold df' in Hcc, Hxc, Hyc |- *. fold cols in Hcc, Hxc, Hyc |- *.
  split; [exact Hcc|]. split; [exact Hxc|]. split; [exact Hyc|].
  cbv zeta. cbn [expression_matrix].
  change (Columns._first_present (Loader.colmap_of cols) Loader.type_aliases)
    with (Columns.resolve cols Loader.type_aliases).
  set (known := Loader.known_cols cc xc yc _).
  unfold Loader.gene_cols_of. fold cols.
  set (genes := List.filter (fun c => negb (Text.mem c known)) cols).
  assert (Hcols : columns (Loader.expression_table df' (Loader.cell_table df' cc xc yc
                             (Columns.resolve cols Loader.type_aliases)) genes)
                  = map (fun c => (c, map count_or_zero (get_col df' c))) genes).
  { unfold Loader.expression_table. destruct genes as [|g genes]; [reflexivity|].
    cbn [columns Loader.fillna apply_to_numeric with_index Loader.select].
    rewrite !map_map. apply map_ext. intros c. cbn [fst snd].
    unfold to_numeric. rewrite map_map. f_equal. apply map_ext.
    intros v. unfold count_or_zero, to_numeric_cell.
    destruct v as [|q|s]; [reflexivity | reflexivity |].
    destruct (parse_num s); reflexivity. }
  split; [|split].
  - unfold column_names. rewrite Hcols, map_map. cbn [fst]. apply map_id.
  - intros c Hc. unfold column_names in Hc. rewrite Hcols, map_map in Hc.
    cbn [fst] in Hc. rewrite map_id in Hc.
    unfold get_col at 1. rewrite Hcols.
    rewrite (assoc_map_key (fun c => map count_or_zero (get_col df' c)) genes c Hc).
    reflexivity.
  - intros c col v Hin Hv. rewrite Hcols in Hin.
    apply in_map_iff in Hin as (c' & [= <- <-] & _).
    apply in_map_iff in Hv as (v' & <- & _).
    unfold count_or_zero. destruct (to_numeric_cell v'); eauto.
Qed.


(** ** The properties above on the concrete world *)

(** The MERSCOPE parser on a run holding its transcripts and two side
    files: the tables have the canonical columns. *)
Lemma parser_output_schema_witness :
  exists ds log,
    @Merscope.parse_merscope Examples.world Examples.tree ["run"] = Ok ds log /\
    platform_of ds = merscope /\
    column_names (transcript_data ds) = ["x"; "y"; "gene"; "cell_id"] /\
    column_names (Canonical.cell_metadata ds) = ["cell_id"; "x"; "y"; "cell_type"].
Proof.
  eexists _, _.
  eassert (Hp : @Merscope.parse_merscope Examples.world Examples.tree ["run"] = Ok _ _)
    by (vm_compute; reflexivity).
  split; [exact Hp|].
  apply (@parser_output_schema Examples.world Examples.tree (@merscope_parser Examples.world Examples.tree) ["run"]
           _ _ (or_intror (or_introl eq_refl)) Hp).
Defined.


(** The cell-level file of the concrete world, loaded by [load_spatial]:
    the result carries the tag the detector answered and the record of the
    detection. *)
Lemma load_spatial_records_detection_witness :
  exists ds log det,
    @Loader.load_spatial Examples.world Examples.tree ["cells.csv"] = Loader.Loaded ds log /\
    Universal.detect_spatial_format Examples.tree ["cells.csv"] = Ok det [] /\
    platform_of ds = tabular /\
    metadata ds !! "detection" = Some (@Loader.detection_record det ["cells.csv"]).
Proof.
  eexists _, _.
  eassert (Hl : @Loader.load_spatial Examples.world Examples.tree ["cells.csv"]
               = Loader.Loaded _ _) by (vm_compute; reflexivity).
  destruct (@load_spatial_records_detection Examples.world Examples.tree ["cells.csv"] _ _ Hl)
    as (det & Hdet & Hpl & Hrec).
  exists det. split; [exact Hl|]. split; [exact Hdet|]. split; [reflexivity | exact Hrec].
Defined.

(** A directory holding a single cell-level file: the detector answers
    tabular and the load fails. *)
Lemma load_spatial_refuses_tabular_directory_witness :
  Claims.detected (Universal.detect_spatial_format Examples.tree ["drop"]) = Some tabular /\
  @Loader.load_spatial Examples.world Examples.tree ["drop"]
    = Loader.Failed (Loader.TabularNotAFile ["drop"]).
Proof.
  split; [reflexivity|].
  apply (@load_spatial_refuses_tabular_directory Examples.world Examples.tree ["drop"]
           {| Universal.platform := tabular;
              Universal.reason := "directory contains single tabular file: cells.csv" |} []);
    reflexivity.
Defined.

(** The cell-level file of the concrete world: its third x, the text left,
    comes out missing and is reported. *)
Lemma tabular_cells_schema_witness :
  exists ds,
    @Loader._parse_tabular_cells Examples.world Examples.tree ["cells.csv"]
      = Loader.Loaded ds [NaNCoordinates tabular 1] /\
    column_names (Canonical.cell_metadata ds) = ["cell_id"; "x"; "y"; "cell_type"] /\
    index (expression_matrix ds) = [Str "c1"; Str "c2"; Str "c3"].
Proof.
  eexists. 
  eassert (Hp : @Loader._parse_tabular_cells Examples.world Examples.tree ["cells.csv"]
               = Loader.Loaded _ [NaNCoordinates tabular 1]) by (vm_compute; reflexivity).
  destruct (@tabular_cells_schema Examples.world Examples.tree ["cells.csv"] _ _ Hp)
    as (_ & _ & _ & Hcols & _ & _ & Hidx & _).
  split; [exact Hp|]. split; [exact Hcols|]. rewrite Hidx. reflexivity.
Defined.

(** The same file: the expression table has the columns GeneA and GeneB,
    and the text and the missing count of GeneA come out as 0. *)
Lemma tabular_expression_counts_witness :
  exists ds log,
    @Loader._parse_tabular_cells Examples.world Examples.tree ["cells.csv"]
      = Loader.Loaded ds log /\
    column_names (expression_matrix ds) = ["GeneA"; "GeneB"] /\
    get_col (expression_matrix ds) "GeneA" = [Sample.num 2; Sample.num 0; Sample.num 0].
Proof.
  eexists _, _.
  eassert (Hp : @Loader._parse_tabular_cells Examples.world Examples.tree ["cells.csv"]
               = Loader.Loaded _ _) by (vm_compute; reflexivity).
  assert (Hnd : List.NoDup (column_names (_standardize_columns Examples.cells))).
  { repeat (apply List.NoDup_cons; [cbn; intuition discriminate|]). apply List.NoDup_nil. }
  destruct (@tabular_expression_counts Examples.world Examples.tree ["cells.csv"]
              Examples.cells _ _ eq_refl Hnd Hp)
    as (cc & xc & yc & Hcc & Hxc & Hyc & Hcols & Hvals & _).
  split; [exact Hp|].
  injection Hcc as <-. injection Hxc as <-. injection Hyc as <-.
  split; [exact Hcols|].
  rewrite Hvals; [reflexivity|]. rewrite Hcols. vm_compute. tauto.
Defined.

(** ** Numeric coercion *)

Lemma mem_iff (c : string) (l : list string) : Text.mem c l = true <-> In c l.
Proof.
  unfold Text.mem. rewrite existsb_exists. split.
  - intros (x & Hin & Heq). apply String.eqb_eq in Heq. subst. exact Hin.
  - intros Hin. exists c. split; [exact Hin | apply String.eqb_refl].
Qed.

Lemma mem_cons (c c0 : string) (l : list string) :
  Text.mem c (c0 :: l) = String.eqb c c0 || Text.mem c l.
Proof. reflexivity. Qed.

Lemma has_column_assoc (df : frame) (c : string) :
  has_column df c = match assoc c (columns df) with Some _ => true | None => false end.
Proof.
  unfold has_column, column_names, Text.mem.
  induction (columns df) as [|[k v] l IH]; [reflexivity|].
  cbn [map fst existsb assoc]. destruct (String.eqb c k); [reflexivity | exact IH].
Qed.

Lemma replace_col_names (c : string) (v : list cell) (l : list (string * list cell)) :
  assoc c l <> None -> map fst (replace_col c v l) = map fst l.
Proof.
  induction l as [|[k w] l IH]; intros Hc; [cbn in Hc; congruence|].
  cbn [replace_col assoc] in *. destruct (String.eqb c k); [reflexivity|].
  cbn [map fst]. rewrite IH by exact Hc. reflexivity.
Qed.

Lemma assoc_replace_col (c c' : string) (v : list cell) (l : list (string * list cell)) :
  assoc c' (replace_col c v l) = if String.eqb c' c then Some v else assoc c' l.
Proof.
  induction l as [|[k w] l IH]; cbn [replace_col assoc].
  - destruct (String.eqb c' c); reflexivity.
  - destruct (String.eqb_spec c k) as [->|Hne]; cbn [assoc].
    + destruct (String.eqb c' k); reflexivity.
    + rewrite IH. destruct (String.eqb_spec c' k) as [->|Hne'].
      * destruct (String.eqb_spec k c); [congruence | reflexivity].
      * reflexivity.
Qed.

Lemma get_col_set_col (df : frame) (c c' : string) (v : list cell) :
  get_col (set_col df c v) c' = if String.eqb c' c then v else get_col df c'.
Proof.
  unfold get_col, set_col. cbn [columns]. rewrite assoc_replace_col.
  destruct (String.eqb c' c); reflexivity.
Qed.

Lemma to_numeric_idem `{Externals} (col : list cell) :
  to_numeric (to_numeric col) = to_numeric col.
Proof.
  unfold to_numeric. rewrite map_map. apply map_ext. intros [|q|s]; cbn; try reflexivity.
  destruct (parse_num s); reflexivity.
Qed.

Lemma replace_col_same (c : string) (v : list cell) (l : list (string * list cell)) :
  assoc c l = Some v -> replace_col c v l = l.
Proof.
  induction l as [|[k w] l IH]; [discriminate|].
  cbn [assoc replace_col]. destruct (String.eqb c k).
  - intros [= ->]. reflexivity.
  - intros Hc. rewrite (IH Hc). reflexivity.
Qed.

Lemma set_col_same (df : frame) (c : string) :
  has_column df c = true -> set_col df c (get_col df c) = df.
Proof.
  rewrite has_column_assoc. unfold set_col, get_col. destruct df as [n i l]. cbn [columns].
  destruct (assoc c l) as [v|] eqn:Hc; [|discriminate].
  intros _. rewrite (replace_col_same c v l Hc). reflexivity.
Qed.

Lemma coerce_numeric_fixed `{Externals} (cols : list string) (df : frame) :
  (forall c, In c cols -> has_column df c = true ->
             to_numeric (get_col df c) = get_col df c) ->
  _coerce_numeric df cols = df.
Proof.
  unfold _coerce_numeric. induction cols as [|c0 cols IH]; intros Hfix; [reflexivity|].
  cbn [fold_left]. destruct (has_column df c0) eqn:Hc0.
  - rewrite (Hfix c0 (or_introl eq_refl) Hc0), (set_col_same df c0 Hc0).
    apply IH. intros c Hc. apply Hfix. right. exact Hc.
  - apply IH. intros c Hc. apply Hfix. right. exact Hc.
Qed.

(** X10. [_coerce_numeric] changes nothing but the values of the columns it
    is given: the labels, their order and the index stay, a listed column
    that the table has holds the numeric reading of its values (missing
    where a value reads as no number), a listed label that the table lacks
    is passed over without an error and without a new column, and every
    other column is untouched. Coercing twice is coercing once. *)
Theorem coerce_numeric_touches_listed_columns `{Externals} (df : frame) (cols : list string) :
  let out := _coerce_numeric df cols in
  column_names out = column_names df /\
  index out = index df /\
  index_name out = index_name df /\
  (forall c, get_col out c =
             if Text.mem c cols && has_column df c then to_numeric (get_col df c)
             else get_col df c) /\
  _coerce_numeric out cols = out.
Proof.
  cbv zeta.
  assert (Hmain : forall cols df,
             column_names (_coerce_numeric df cols) = column_names df /\
             index (_coerce_numeric df cols) = index df /\
             index_name (_coerce_numeric df cols) = index_name df /\
             (forall c, get_col (_coerce_numeric df cols) c =
                        if Text.mem c cols && has_column df c then to_numeric (get_col df c)
                        else get_col df c)).
  { clear df cols. induction cols as [|c0 cols IH]; intros df.
    - cbn. repeat split.
    - unfold _coerce_numeric in *. cbn [fold_left].
      destruct (has_column df c0) eqn:Hc0.
      + specialize (IH (set_col df c0 (to_numeric (get_col df c0)))).
        destruct IH as (Hn & Hi & Hin & Hg).
        assert (Hnames : column_names (set_col df c0 (to_numeric (get_col df c0)))
                         = column_names df).
        { unfold column_names, set_col. cbn [columns]. apply replace_col_names.
          rewrite has_column_assoc in Hc0. destruct (assoc c0 (columns df)); congruence. }
        split; [rewrite Hn; exact Hnames|]. split; [rewrite Hi; reflexivity|].
        split; [rewrite Hin; reflexivity|].
        intros c. rewrite Hg. unfold has_column at 1. rewrite Hnames. fold (has_column df c).
        rewrite get_col_set_col, mem_cons.
        destruct (String.eqb_spec c c0) as [->|Hne].
        * rewrite Hc0. cbn [orb andb]. rewrite to_numeric_idem.
          destruct (Text.mem c0 cols); reflexivity.
        * reflexivity.
      + destruct (IH df) as (Hn & Hi & Hin & Hg).
        split; [exact Hn|]. split; [exact Hi|]. split; [exact Hin|].
        intros c. rewrite Hg, mem_cons.
        destruct (String.eqb_spec c c0) as [->|Hne]; [|reflexivity].
        rewrite Hc0, !andb_false_r. reflexivity. }
  destruct (Hmain cols df) as (Hn & Hi & Hin & Hg).
  split; [exact Hn|]. split; [exact Hi|]. split; [exact Hin|]. split; [exact Hg|].
  apply coerce_numeric_fixed. intros c Hc Hhas.
  unfold has_column in Hhas. rewrite Hn in Hhas. fold (has_column df c) in Hhas.
  rewrite Hg, Hhas. apply mem_iff in Hc. rewrite Hc. cbn [andb].
  apply to_numeric_idem.
Qed.

(** ** The tissue filter on whole flags *)







(** ** The size a bin directory is named after *)

Lemma lower_app (a b : string) : Text.lower (a ++ b) = Text.lower a ++ Text.lower b.
Proof.
  induction a as [|c a IH]; [reflexivity|].
  change (Text.lower (String c a ++ b)) with (String (Text.lower_ascii c) (Text.lower (a ++ b))).
  rewrite IH. reflexivity.
Qed.










(** ** The dense Matrix Market reader of Visium *)

Lemma zeros_well_shaped (r c : Z) :
  (0 <= r)%Z -> (0 <= c)%Z -> well_shaped (Visium.zeros r c).
Proof.
  intros Hr Hc. unfold well_shaped, Visium.zeros. cbn.
  split; [exact Hr|]. split; [exact Hc|]. split; [apply repeat_length|].
  apply List.Forall_forall. intros row Hrow. apply repeat_spec in Hrow. subst row.
  apply repeat_length.
Qed.

Lemma in_firstn_in {A} (n : nat) (l : list A) (x : A) : In x (firstn n l) -> In x l.
Proof. intros Hx. rewrite <- (firstn_skipn n l). apply in_or_app. left. exact Hx. Qed.

Lemma in_skipn_in {A} (n : nat) (l : list A) (x : A) : In x (skipn n l) -> In x l.
Proof. intros Hx. rewrite <- (firstn_skipn n l). apply in_or_app. right. exact Hx. Qed.

Lemma store_well_shaped (mat : Visium.ndarray) (r c v : Z) :
  (0 <= r < Visium.n_rows mat)%Z -> (0 <= c < Visium.n_cols mat)%Z ->
  well_shaped mat -> well_shaped (Visium.store mat r c v).
Proof.
  intros Hr Hc (H0r & H0c & Hlen & Hrows). unfold well_shaped, Visium.store. cbn.
  split; [exact H0r|]. split; [exact H0c|].
  destruct (nth_error (Visium.values mat) (Z.to_nat r)) as [row|] eqn:Hrow;
    [|split; assumption].
  assert (Hi : Z.to_nat r < length (Visium.values mat)) by (rewrite Hlen; lia).
  assert (Hrl : length row = Z.to_nat (Visium.n_cols mat)).
  { rewrite List.Forall_forall in Hrows. apply Hrows. eapply nth_error_In. exact Hrow. }
  split.
  - rewrite length_app. cbn [length]. rewrite firstn_length_le by lia.
    rewrite length_skipn. lia.
  - apply List.Forall_app. split; [|apply List.Forall_cons].
    + rewrite List.Forall_forall in *. intros x Hx. apply Hrows.
      eapply in_firstn_in. exact Hx.
    + rewrite length_app. cbn [length]. rewrite firstn_length_le by lia.
      rewrite length_skipn. lia.
    + rewrite List.Forall_forall in *. intros x Hx. apply Hrows.
      eapply in_skipn_in. exact Hx.
Qed.

Lemma to_int_ok `{Externals} (t : string) (z : Z) (l : list advisory) :
  Visium.to_int t = Ok z l -> l = [].
Proof. unfold Visium.to_int. intros Ht. apply or_raise_ok_inv in Ht as [_ ->]. reflexivity. Qed.

Lemma to_float_ok `{Externals} (t : string) (q : Q) (l : list advisory) :
  Visium.to_float t = Ok q l -> l = [].
Proof. unfold Visium.to_float. intros Ht. apply or_raise_ok_inv in Ht as [_ ->]. reflexivity. Qed.

Lemma read_entries_shape `{Externals} (path : Path) (total : Z) (remaining : nat) (i : Z)
  (f : list string) (mat out : Visium.ndarray) (log : list advisory) :
  Visium.read_entries path total remaining i f mat = Ok out log ->
  well_shaped mat ->
  log = [] /\ well_shaped out /\
  Visium.n_rows out = Visium.n_rows mat /\ Visium.n_cols out = Visium.n_cols mat.
Proof.
  revert i f mat log. induction remaining as [|n IH]; intros i f mat log.
  - cbn. intros [= <- <-] Hw. auto.
  - cbn [Visium.read_entries]. destruct (Visium.readline f) as [row f'].
    destruct (String.eqb row EmptyString); [discriminate|].
    destruct (Text.split_ws (Text.strip row)) as [|p0 [|p1 [|p2 ps]]]; try discriminate.
    intros Hr Hw.
    apply bind_ok_inv in Hr as (r1 & l1 & l1' & H1 & Hr & ->).
    apply bind_ok_inv in Hr as (c1 & l2 & l2' & H2 & Hr & ->).
    apply bind_ok_inv in Hr as (v & l3 & l3' & H3 & Hr & ->).
    apply to_int_ok in H1. apply to_int_ok in H2. apply to_float_ok in H3. subst l1 l2 l3.
    destruct ((r1 - 1 <? 0)%Z || (c1 - 1 <? 0)%Z || (Visium.n_rows mat <=? r1 - 1)%Z
              || (Visium.n_cols mat <=? c1 - 1)%Z) eqn:Hb; [discriminate|].
    apply orb_false_iff in Hb as [Hb Hb4]. apply orb_false_iff in Hb as [Hb Hb3].
    apply orb_false_iff in Hb as [Hb1 Hb2].
    apply Z.ltb_ge in Hb1, Hb2. apply Z.leb_gt in Hb3, Hb4.
    apply IH in Hr; [|apply store_well_shaped; [lia | lia | exact Hw]].
    destruct Hr as (-> & Hout & Hrows & Hcols). cbn in Hrows, Hcols. auto.
Qed.

(** What the dense reader went through when it returns. *)
Lemma read_matrix_market_dense_inv `{Externals} (path : Path) (max : Z)
  (mat : Visium.ndarray) (log : list advisory) :
  Visium._read_matrix_market_dense path max = Ok mat log ->
  log = [] /\ well_shaped mat /\ (Visium.n_rows mat * Visium.n_cols mat <= max)%Z.
Proof.
  unfold Visium._read_matrix_market_dense. intros Hr.
  apply bind_ok_inv in Hr as (f & l0 & l0' & Hf & Hr & ->).
  apply or_raise_ok_inv in Hf as [_ ->].
  destruct (Visium.readline f) as [header f1].
  destruct (Text.startswith "%%MatrixMarket" header); [|discriminate]. cbn [negb] in Hr.
  destruct (Visium.readline f1) as [line f2].
  destruct (Visium.skip_comments line f2) as [line' f3].
  destruct (Text.split_ws (Text.strip line')) as [|d0 [|d1 [|d2 [|d3 ds]]]]; try discriminate.
  apply bind_ok_inv in Hr as (rows & l1 & l1' & H1 & Hr & ->).
  apply bind_ok_inv in Hr as (cols & l2 & l2' & H2 & Hr & ->).
  apply bind_ok_inv in Hr as (n & l3 & l3' & H3 & Hr & ->).
  apply to_int_ok in H1. apply to_int_ok in H2. apply to_int_ok in H3. subst l1 l2 l3.
  destruct (rows * cols >? max)%Z eqn:Hmax; [discriminate|].
  unfold Visium.dense_load in Hr.
  destruct ((rows <? 0)%Z || (cols <? 0)%Z) eqn:Hneg; [discriminate|].
  apply orb_false_iff in Hneg as [Hn1 Hn2]. apply Z.ltb_ge in Hn1, Hn2.
  apply read_entries_shape in Hr; [|apply zeros_well_shaped; assumption].
  destruct Hr as (-> & Hw & Hrows & Hcols). cbn in Hrows, Hcols.
  split; [reflexivity|]. split; [exact Hw|].
  rewrite Hrows, Hcols. 
  destruct (Z.gtb_spec (rows * cols) max); [discriminate | lia].
Qed.

(** X13. A matrix that the dense Matrix Market reader of Visium returns has
    the shape its size line declares, rows and columns both non-negative
    and their product within the ceiling the reader was given, and each of
    its rows holds one value for each column; the reader logs nothing. *)
Theorem matrix_market_dense_is_well_shaped `{Externals} (path : Path) (max : Z)
  (mat : Visium.ndarray) (log : list advisory) :
  Visium._read_matrix_market_dense path max = Ok mat log ->
  log = [] /\
  (0 <= Visium.n_rows mat)%Z /\ (0 <= Visium.n_cols mat)%Z /\
  (Visium.n_rows mat * Visium.n_cols mat <= max)%Z /\
  length (Visium.values mat) = Z.to_nat (Visium.n_rows mat) /\
  List.Forall (fun row => length row = Z.to_nat (Visium.n_cols mat)) (Visium.values mat).
Proof.
  intros Hr. apply read_matrix_market_dense_inv in Hr as (Hlog & (H1 & H2 & H3 & H4) & Hmax).
  auto 7.
Qed.

Lemma map_fst_combine {A B} (l : list A) (l' : list B) :
  length l = length l' -> map fst (combine l l') = l.
Proof.
  revert l'. induction l as [|a l IH]; intros [|b l'] Hlen; try discriminate; [reflexivity|].
  cbn [combine map fst]. rewrite IH by (cbn in Hlen; lia). reflexivity.
Qed.

Lemma in_combine_snd {A B} (l : list A) (l' : list B) (x : A * B) :
  In x (combine l l') -> In (snd x) l'.
Proof. destruct x as [a b]. apply in_combine_r. Qed.

(** X14. A table that the MEX loader of Visium returns is cells by genes:
    its rows are labelled, under the name [cell_id], by the barcodes in the
    order of the barcode file, its columns by the feature names in the
    order of the feature file, no label is dropped or added, and every
    column holds one value for each barcode. *)
Theorem visium_mex_table_is_cells_by_genes `{Externals} (fs : node) (path : Path)
  (df : frame) (log : list advisory) :
  Visium._load_mex_dir fs path = Ok df log ->
  exists fp bp features barcodes lf lb,
    Visium._first_existing fs path
      ["features.tsv.gz"; "features.tsv"; "genes.tsv.gz"; "genes.tsv"] = Some fp /\
    Visium._first_existing fs path ["barcodes.tsv.gz"; "barcodes.tsv"] = Some bp /\
    Visium._read_tsv_first_or_second_col fp = Ok features lf /\
    Visium._read_tsv_first_col bp = Ok barcodes lb /\
    index_name df = Some "cell_id" /\
    index df = map Str barcodes /\
    column_names df = features /\
    List.Forall (fun kv => length (snd kv) = length barcodes) (columns df).
Proof.
  unfold Visium._load_mex_dir. intros Hl.
  destruct (Visium._first_existing fs path ["matrix.mtx.gz"; _]) as [mp|]; [|discriminate].
  destruct (Visium._first_existing fs path ["features.tsv.gz"; _; _; _]) as [fp|];
    [|discriminate].
  destruct (Visium._first_existing fs path ["barcodes.tsv.gz"; _]) as [bp|]; [|discriminate].
  apply bind_ok_inv in Hl as (features & lf & ? & Hf & Hl & _).
  apply bind_ok_inv in Hl as (barcodes & lb & ? & Hb & Hl & _).
  apply bind_ok_inv in Hl as (mat & lm & ? & Hm & Hl & _).
  destruct ((Visium.n_rows mat =? Z.of_nat (length features))%Z &&
            (Visium.n_cols mat =? Z.of_nat (length barcodes))%Z) eqn:Hshape;
    [|discriminate].
  apply andb_true_iff in Hshape as [Hr Hc]. apply Z.eqb_eq in Hr, Hc.
  cbn [negb] in Hl. injection Hl as <- _.
  apply read_matrix_market_dense_inv in Hm as (_ & (_ & _ & Hlen & Hrows) & _).
  exists fp, bp, features, barcodes, lf, lb.
  cbn [index_name index]. unfold column_names. cbn [columns].
  repeat split; try assumption.
  - apply map_fst_combine. rewrite length_map, Hlen, Hr. lia.
  - apply List.Forall_forall. intros kv Hkv. apply in_combine_snd in Hkv.
    apply in_map_iff in Hkv as (row & <- & Hrow). rewrite length_map.
    rewrite List.Forall_forall in Hrows. rewrite (Hrows row Hrow), Hc. lia.
Qed.

(** The matrix of the concrete MEX directory, two features by three
    barcodes, read under a ceiling of six entries. *)
Lemma matrix_market_dense_is_well_shaped_witness :
  exists mat,
    @Visium._read_matrix_market_dense Examples.world ["mex"; "matrix.mtx"] 6 = Ok mat [] /\
    length (Visium.values mat) = 2 /\
    List.Forall (fun row => length row = 3) (Visium.values mat).
Proof.
  eexists.
  eassert (Hr : @Visium._read_matrix_market_dense Examples.world ["mex"; "matrix.mtx"] 6
                = Ok _ []) by (vm_compute; reflexivity).
  destruct (@matrix_market_dense_is_well_shaped Examples.world _ _ _ _ Hr)
    as (_ & _ & _ & _ & Hlen & Hrows).
  split; [exact Hr|]. split; [exact Hlen | exact Hrows].
Defined.

(** The concrete MEX directory: three barcodes, the blank line of the
    barcode file passed over, and the two features, the second under its
    identifier since it has no name. *)
Lemma visium_mex_table_is_cells_by_genes_witness :
  exists df,
    @Visium._load_mex_dir Examples.world Examples.tree ["mex"] = Ok df [] /\
    index df = [Str "AA"; Str "BB"; Str "CC"] /\
    column_names df = ["A"; "ENSG2"].
Proof.
  eexists.
  eassert (Hl : @Visium._load_mex_dir Examples.world Examples.tree ["mex"] = Ok _ [])
    by (vm_compute; reflexivity).
  destruct (@visium_mex_table_is_cells_by_genes Examples.world Examples.tree ["mex"] _ _ Hl)
    as (fp & bp & features & barcodes & lf & lb & Hfp & Hbp & Hf & Hb & _ & Hidx & Hcols & _).
  vm_compute in Hfp, Hbp. injection Hfp as <-. injection Hbp as <-.
  vm_compute in Hf, Hb. injection Hf as <- _. injection Hb as <- _.
  split; [exact Hl|]. split; [exact Hidx | exact Hcols].
Defined.

(** ** What discovery picks *)

Lemma node_at_app (fs : node) (p q : Path) :
  node_at fs (p ++ q)%list =
  match node_at fs p with
  | Some n => node_at n q
  | None => None
  end.
Proof.
  revert fs. induction p as [|c p IH]; intros fs; [reflexivity|].
  cbn [app node_at]. destruct fs as [|l]; [reflexivity|].
  destruct (child c l) as [n|]; [apply IH | reflexivity].
Qed.

Lemma child_listed (l : list (string * node)) (kv : string * node) :
  In kv l -> exists n, child (fst kv) l = Some n.
Proof.
  induction l as [|[k n] l IH]; intros Hin; [destruct Hin|].
  cbn [child]. destruct (String.eqb_spec (fst kv) k) as [_|Hne]; [eauto|].
  destruct Hin as [<-|Hin]; [cbn in Hne; congruence | exact (IH Hin)].
Qed.

Lemma iterdir_exists (fs : node) (b : Path) (l : list Path) (f : Path) :
  iterdir fs b = Some l -> In f l -> exists_ fs f = true.
Proof.
  unfold iterdir, exists_, join.
  destruct (node_at fs b) as [[|children]|] eqn:Hb; try discriminate.
  intros [= <-] Hin. apply in_map_iff in Hin as (kv & <- & Hkv).
  rewrite node_at_app, Hb. cbn [node_at].
  destruct (child_listed children kv Hkv) as [n ->]. reflexivity.
Qed.

Lemma glob_exists (fs : node) (b : Path) (suf : string) (f : Path) :
  In f (glob_suffix fs b suf) -> exists_ fs f = true.
Proof.
  unfold glob_suffix. destruct (iterdir fs b) as [l|] eqn:Hl; [|intros []].
  intros Hin. apply List.filter_In in Hin as [Hin _]. exact (iterdir_exists fs b l f Hl Hin).
Qed.

Lemma dict_by_lookup_acc {A} (key : A -> string) (l : list A) (m : gmap string A)
  (k : string) (a : A) :
  fold_left (fun m a => <[key a := a]> m) l m !! k = Some a -> In a l \/ m !! k = Some a.
Proof.
  revert m. induction l as [|x l IH]; intros m; cbn [fold_left]; [auto|].
  intros Hk. destruct (IH _ Hk) as [Hin|Hm]; [left; right; exact Hin|].
  destruct (decide (key x = k)) as [<-|Hne].
  - rewrite lookup_insert_eq in Hm. injection Hm as <-. left. left. reflexivity.
  - rewrite lookup_insert_ne in Hm by exact Hne. right. exact Hm.
Qed.

Lemma dict_by_lookup {A} (key : A -> string) (l : list A) (k : string) (a : A) :
  dict_by key l !! k = Some a -> In a l.
Proof.
  unfold dict_by. intros Hk. destruct (dict_by_lookup_acc key l ∅ k a Hk) as [Hin|Hm];
    [exact Hin|]. rewrite lookup_empty in Hm. discriminate.
Qed.

Lemma first_some_inv {A B} (f : A -> option B) (l : list A) (b : B) :
  first_some f l = Some b -> exists a, In a l /\ f a = Some b.
Proof.
  induction l as [|a l IH]; [discriminate|]. cbn [first_some].
  destruct (f a) as [b'|] eqn:Hfa.
  - intros [= <-]. exists a. split; [left; reflexivity | exact Hfa].
  - intros Hb. destruct (IH Hb) as (a' & Hin & Ha'). exists a'. split; [right|]; assumption.
Qed.

Lemma find_exists (fs : node) (b : Path) (names : list string) (n : string) :
  List.find (fun n => exists_ fs (join b n)) names = Some n -> exists_ fs (join b n) = true.
Proof. intros Hf. apply List.find_some in Hf as [_ Hex]. exact Hex. Qed.

Lemma globs_exist (fs : node) (l : list Path) :
  (forall f, In f l -> exists b suf, In f (glob_suffix fs b suf)) ->
  forall f, In f l -> exists_ fs f = true.
Proof. intros Hl f Hf. destruct (Hl f Hf) as (b & suf & Hg). exact (glob_exists _ _ _ _ Hg). Qed.

(** A file picked among a pool of existing files, by exact name first. *)
Lemma pick_exists (fs : node) (base : Path) (pool : list Path)
  (preferred_names contains_any : list string) (p : Path) :
  (forall f, In f pool -> exists_ fs f = true) ->
  match List.find (fun n => exists_ fs (join base n)) preferred_names with
  | Some n => Some (join base n)
  | None =>
      match first_some (fun n => dict_by (fun p => Text.lower (name p)) pool !! Text.lower n)
                       preferred_names with
      | Some p => Some p
      | None =>
          List.find (fun p => existsb (fun c => Text.contains c (Text.lower (name p)))
                                      (map Text.lower contains_any)) pool
      end
  end = Some p ->
  exists_ fs p = true.
Proof.
  intros Hpool.
  destruct (List.find _ preferred_names) as [n|] eqn:Hn.
  - intros [= <-]. exact (find_exists _ _ _ _ Hn).
  - destruct (first_some _ preferred_names) as [q|] eqn:Hq.
    + intros [= <-]. apply first_some_inv in Hq as (n' & _ & Hq).
      apply dict_by_lookup in Hq. exact (Hpool _ Hq).
    + intros Hf. apply List.find_some in Hf as [Hin _]. exact (Hpool _ Hin).
Qed.

Ltac in_globs Hf :=
  repeat (apply in_app_or in Hf as [Hf|Hf]); exact (glob_exists _ _ _ _ Hf).

Lemma cosmx_discovery_exists (fs : node) (base f : Path) :
  let c := Cosmx._discover_files fs base in
  In (Some f) [Cosmx.transcript c; Cosmx.cell_metadata c; Cosmx.expression c] \/
  In f (Cosmx.json_files c) ->
  exists_ fs f = true.
Proof.
  cbv zeta. unfold Cosmx._discover_files.
  cbn [Cosmx.transcript Cosmx.cell_metadata Cosmx.expression Cosmx.json_files].
  assert (Hpool : forall f, In f (glob_suffix fs base ".csv" ++ glob_suffix fs base ".CSV")%list
                            -> exists_ fs f = true) by (intros g Hg; in_globs Hg).
  intros [[Hf|[Hf|[Hf|[]]]]|Hf].
  - exact (pick_exists fs base _ _ _ f Hpool Hf).
  - exact (pick_exists fs base _ _ _ f Hpool Hf).
  - exact (pick_exists fs base _ _ _ f Hpool Hf).
  - rewrite in_sorted_paths in Hf. in_globs Hf.
Qed.

Lemma add_root_members (fs : node) (roots : list Path) (p r : Path) :
  In r (Merscope.add_root fs roots p) -> In r roots \/ r = p.
Proof.
  unfold Merscope.add_root. destruct (_ && _ && _); [|auto].
  intros Hin. apply in_app_or in Hin as [Hin|[<-|[]]]; auto.
Qed.

Lemma merscope_collect_exists (fs : node) (roots : list Path) (sufs : list string)
  (f : Path) :
  In f (Merscope.collect fs roots sufs) -> exists_ fs f = true.
Proof.
  unfold Merscope.collect. intros Hf. apply in_dedup_paths in Hf.
  apply in_flat_map in Hf as (root & _ & Hf). apply in_flat_map in Hf as (suf & _ & Hf).
  exact (glob_exists _ _ _ _ Hf).
Qed.

Lemma merscope_pick_exists (fs : node) (roots tables : list Path)
  (preferred_names contains_any : list string) (p : Path) :
  (forall f, In f tables -> exists_ fs f = true) ->
  Merscope.pick_file fs roots tables preferred_names contains_any = Some p ->
  exists_ fs p = true.
Proof.
  intros Htab. unfold Merscope.pick_file.
  destruct (first_some _ roots) as [q|] eqn:Hq.
  - intros [= <-]. apply first_some_inv in Hq as (root & _ & Hq).
    unfold Merscope.pick_in_root in Hq. apply first_some_inv in Hq as (n & _ & Hq).
    destruct (exists_ fs (join root n)) eqn:Hex.
    + injection Hq as <-. exact Hex.
    + apply dict_by_lookup in Hq. apply List.filter_In in Hq as [Hq _]. exact (Htab _ Hq).
  - intros Hf. apply List.find_some in Hf as [Hin _]. exact (Htab _ Hin).
Qed.

Lemma merscope_discovery_exists (fs : node) (base f : Path) :
  let c := Merscope._discover_files fs base in
  In (Some f) [Merscope.transcript c; Merscope.cell_metadata c; Merscope.expression c] \/
  In f (Merscope.json_files c) ->
  exists_ fs f = true.
Proof.
  cbv zeta. unfold Merscope._discover_files.
  cbn [Merscope.transcript Merscope.cell_metadata Merscope.expression Merscope.json_files].
  intros [[Hf|[Hf|[Hf|[]]]]|Hf].
  - exact (merscope_pick_exists fs _ _ _ _ f (merscope_collect_exists fs _ _) Hf).
  - exact (merscope_pick_exists fs _ _ _ _ f (merscope_collect_exists fs _ _) Hf).
  - exact (merscope_pick_exists fs _ _ _ _ f (merscope_collect_exists fs _ _) Hf).
  - apply in_dedup_paths in Hf. apply in_flat_map in Hf as (root & _ & Hf).
    apply in_app_or in Hf as [Hf|Hf]; rewrite in_sorted_paths in Hf;
      exact (glob_exists _ _ _ _ Hf).
Qed.

Lemma xenium_discovery_exists (fs : node) (base f : Path) :
  let c := Xenium._discover_files fs base in
  In (Some f) [Xenium.transcript c; Xenium.cell_metadata c; Xenium.expression c] \/
  In f (Xenium.json_files c) ->
  exists_ fs f = true.
Proof.
  cbv zeta. unfold Xenium._discover_files.
  cbn [Xenium.transcript Xenium.cell_metadata Xenium.expression Xenium.json_files].
  set (pool := ((glob_suffix fs base ".parquet" ++ glob_suffix fs base ".PARQUET") ++
                glob_suffix fs base ".csv" ++ glob_suffix fs base ".CSV" ++
                glob_suffix fs base ".csv.gz" ++ glob_suffix fs base ".CSV.GZ")%list).
  assert (Hpool : forall f, In f pool -> exists_ fs f = true)
    by (intros g Hg; unfold pool in Hg; in_globs Hg).
  intros [[Hf|[Hf|[Hf|[]]]]|Hf].
  - exact (pick_exists fs base pool _ _ f Hpool Hf).
  - exact (pick_exists fs base pool _ _ f Hpool Hf).
  - destruct (List.find _ ["cell_feature_matrix.h5"; _]) as [n|] eqn:Hn.
    + injection Hf as <-. exact (find_exists _ _ _ _ Hn).
    + destruct (exists_ fs (join base "cell_feature_matrix") &&
                is_dir fs (join base "cell_feature_matrix")) eqn:Hd.
      * injection Hf as <-. apply andb_true_iff in Hd as [Hex _]. exact Hex.
      * apply List.find_some in Hf as [Hin _]. in_globs Hin.
  - rewrite in_sorted_paths in Hf. in_globs Hf.
Qed.

Lemma visium_discovery_exists (fs : node) (base f : Path) :
  let c := Visium._discover_files fs base in
  In (Some f) [Visium.tissue_positions c; Visium.expression c] \/
  In f (Visium.json_files c) ->
  exists_ fs f = true.
Proof.
  cbv zeta. unfold Visium._discover_files.
  cbn [Visium.tissue_positions Visium.expression Visium.json_files].
  intros [[Hf|[Hf|[]]]|Hf].
  - destruct (exists_ fs (join base "spatial") && is_dir fs (join base "spatial"));
      [|discriminate].
    destruct (List.find _ ["tissue_positions.csv"; _]) as [n|] eqn:Hn; [|discriminate].
    injection Hf as <-. exact (find_exists _ _ _ _ Hn).
  - destruct (List.find _ ["filtered_feature_bc_matrix.h5"; _; _; _]) as [n|] eqn:Hn;
      [|discriminate].
    injection Hf as <-. exact (find_exists _ _ _ _ Hn).
  - rewrite in_sorted_paths in Hf. apply in_dedup_paths in Hf.
    apply in_app_or in Hf as [Hf|Hf]; [|in_globs Hf].
    destruct (exists_ fs (join base "spatial") && is_dir fs (join base "spatial"));
      [in_globs Hf | destruct Hf].
Qed.

Lemma visium_hd_discovery_exists (fs : node) (root f : Path) :
  let c := VisiumHD._discover_files fs root in
  In (Some f) [VisiumHD.positions c; VisiumHD.expression c] \/
  In f (VisiumHD.json_files c) ->
  exists_ fs f = true.
Proof.
  cbv zeta. unfold VisiumHD._discover_files, VisiumHD._first_existing.
  cbn [VisiumHD.positions VisiumHD.expression VisiumHD.json_files].
  intros [[Hf|[Hf|[]]]|Hf].
  - destruct (exists_ fs (join root "spatial") && is_dir fs (join root "spatial"));
      [|discriminate].
    apply List.find_some in Hf as [_ Hex]. exact Hex.
  - destruct (List.find _ ["filtered_feature_bc_matrix.h5"; _; _; _]) as [n|] eqn:Hn.
    + injection Hf as <-. exact (find_exists _ _ _ _ Hn).
    + destruct (List.find _ ["filtered_feature_bc_matrix"; _]) as [m|] eqn:Hm.
      * injection Hf as <-. apply List.find_some in Hm as [_ Hex].
        apply andb_true_iff in Hex as [Hex _]. exact Hex.
      * apply List.find_some in Hf as [_ Hex]. exact Hex.
  - rewrite in_sorted_paths in Hf. in_globs Hf.
Qed.

(** X15. Whatever a discovery picks exists: the file each of the five
    parsers takes for a role, found by its exact name, by its name up to
    case or by a hint in its name, and every side file listed, is an entry
    of the directory tree; no loader is handed a path that is not there. *)
Theorem discovery_picks_existing_files (fs : node) (base f : Path) :
  In (Some f) (discovered fs base) \/ In f (listed fs base) ->
  exists_ fs f = true.
Proof.
  unfold discovered, listed. cbv zeta. intros [Hf|Hf].
  - cbn [In] in Hf.
    destruct Hf as [Hf|[Hf|[Hf|[Hf|[Hf|[Hf|[Hf|[Hf|[Hf|[Hf|[Hf|[Hf|[Hf|[]]]]]]]]]]]]]].
    1-3: apply (cosmx_discovery_exists fs base); left; cbn [In]; tauto.
    1-3: apply (merscope_discovery_exists fs base); left; cbn [In]; tauto.
    1-3: apply (xenium_discovery_exists fs base); left; cbn [In]; tauto.
    1-2: apply (visium_discovery_exists fs base); left; cbn [In]; tauto.
    1-2: apply (visium_hd_discovery_exists fs
                  (VisiumHD.root (VisiumHD._discover_visium_root fs base)));
         left; cbn [In]; tauto.
  - repeat (apply in_app_or in Hf as [Hf|Hf]).
    + apply (cosmx_discovery_exists fs base). right. exact Hf.
    + apply (merscope_discovery_exists fs base). right. exact Hf.
    + apply (xenium_discovery_exists fs base). right. exact Hf.
    + apply (visium_discovery_exists fs base). right. exact Hf.
    + apply (visium_hd_discovery_exists fs
               (VisiumHD.root (VisiumHD._discover_visium_root fs base))).
      right. exact Hf.
Qed.

(** The CosMx directory of the concrete world: its transcript file is
    picked by its exact name and is there. *)
Lemma discovery_picks_existing_files_witness :
  Cosmx.transcript (Cosmx._discover_files Sample.tree ["cosmx"])
    = Some ["cosmx"; "tx_file.csv"] /\
  exists_ Sample.tree ["cosmx"; "tx_file.csv"] = true.
Proof.
  split; [reflexivity|].
  apply (discovery_picks_existing_files Sample.tree ["cosmx"]). left. left. reflexivity.
Defined.

(** ** The search roots of MERSCOPE *)

Lemma path_eqb_eq (p q : Path) : path_eqb p q = true <-> p = q.
Proof.
  unfold path_eqb. revert q. induction p as [|a p IH]; intros [|b q]; cbn;
    try (split; [discriminate | congruence]); [tauto|].
  specialize (IH q). split.
  - intros Hb. apply andb_true_iff in Hb as [Hlen Hb]. apply andb_true_iff in Hb as [Hab Hb].
    apply String.eqb_eq in Hab. subst b. f_equal. apply IH. rewrite Hlen, Hb. reflexivity.
  - intros [= <- <-]. rewrite String.eqb_refl. cbn. apply IH. reflexivity.
Qed.

Lemma exists_path_eqb (p : Path) (l : list Path) :
  existsb (path_eqb p) l = true <-> In p l.
Proof.
  rewrite existsb_exists. split.
  - intros (q & Hin & Heq). apply path_eqb_eq in Heq. subst q. exact Hin.
  - intros Hin. exists p. split; [exact Hin | apply path_eqb_eq; reflexivity].
Qed.

Lemma add_root_ok (fs : node) (first : Path) (roots : list Path) (p : Path) :
  roots_ok fs first roots -> roots_ok fs first (Merscope.add_root fs roots p).
Proof.
  intros (Hhd & Hdir & Hnd). unfold Merscope.add_root.
  destruct (exists_ fs p && is_dir fs p && negb (existsb (path_eqb p) roots)) eqn:Hb;
    [|repeat split; assumption].
  apply andb_true_iff in Hb as [Hb Hnew]. apply andb_true_iff in Hb as [_ Hpd].
  apply negb_true_iff in Hnew.
  assert (Hnin : ~ In p roots).
  { intros Hin. apply exists_path_eqb in Hin. congruence. }
  repeat split.
  - destruct roots as [|r roots]; [discriminate | exact Hhd].
  - apply List.Forall_app. split; [exact Hdir|]. repeat constructor. exact Hpd.
  - apply List.NoDup_app; [exact Hnd | repeat constructor; intros [] |].
    intros x Hx [<-|[]]. exact (Hnin Hx).
Qed.

Lemma add_root_keeps (fs : node) (roots : list Path) (p r : Path) :
  In r roots -> In r (Merscope.add_root fs roots p).
Proof.
  intros Hin. unfold Merscope.add_root. destruct (_ && _ && _); [|exact Hin].
  apply in_or_app. left. exact Hin.
Qed.

Lemma search_roots_ok (fs : node) (base : Path) :
  is_dir fs base = true ->
  let ao := join base "analysis_outputs" in
  let first := if is_dir fs ao then ao else base in
  roots_ok fs first (Merscope.search_roots fs base) /\
  In base (Merscope.search_roots fs base).
Proof.
  intros Hbase. cbv zeta. unfold Merscope.search_roots.
  set (ao := join base "analysis_outputs").
  set (roots0 := if exists_ fs ao && is_dir fs ao then [ao; base] else [base]).
  set (first := if is_dir fs ao then ao else base).
  assert (H0 : roots_ok fs first roots0 /\ In base roots0).
  { unfold roots0, first. destruct (is_dir fs ao) eqn:Hao.
    - rewrite (is_dir_exists _ _ Hao). cbn [andb]. split; [|right; left; reflexivity].
      repeat split; [repeat constructor; assumption|].
      apply List.NoDup_cons; [|apply List.NoDup_cons; [intros []|apply List.NoDup_nil]].
      intros [Heq|[]]. unfold ao, join in Heq.
      apply (f_equal (@length string)) in Heq. rewrite length_app in Heq. cbn in Heq. lia.
    - rewrite andb_false_r. split; [|left; reflexivity].
      repeat split; [repeat constructor; assumption|].
      apply List.NoDup_cons; [intros []|apply List.NoDup_nil]. }
  generalize dependent roots0.
  generalize (match iterdir fs base with Some l => sorted_paths l | None => [] end).
  intros children. induction children as [|child children IH]; intros roots0 H0;
    [exact H0|].
  cbn [fold_left]. apply IH. destruct H0 as [Hok Hin].
  destruct (negb (is_dir fs child)); [auto|].
  split.
  - apply add_root_ok. destruct (_ && _); [apply add_root_ok|]; exact Hok.
  - apply add_root_keeps. destruct (_ && _); [apply add_root_keeps|]; exact Hin.
Qed.

Lemma merscope_pick_first (fs : node) (ao : Path) (roots tables : list Path)
  (n : string) (names hints : list string) :
  hd_error roots = Some ao ->
  exists_ fs (join ao n) = true ->
  Merscope.pick_file fs roots tables (n :: names) hints = Some (join ao n).
Proof.
  intros Hhd Hex. destruct roots as [|r roots]; [discriminate|].
  injection Hhd as ->. unfold Merscope.pick_file.
  cbn [first_some]. unfold Merscope.pick_in_root at 1. cbn [first_some].
  rewrite Hex. reflexivity.
Qed.

(** X16. The search roots of the MERSCOPE discovery, on a directory: they
    are directories, none is listed twice, the directory itself is among
    them, and [analysis_outputs/], when it is a directory, comes first.
    So a first-choice file name found in [analysis_outputs/] is picked
    whatever the directory itself or the region folders hold:
    detected_transcripts.csv for the transcripts, cell_metadata.csv for
    the cells, cell_by_gene.csv for the expression. *)
Theorem merscope_prefers_analysis_outputs (fs : node) (base : Path) :
  is_dir fs base = true ->
  let ao := join base "analysis_outputs" in
  let roots := Merscope.search_roots fs base in
  let found := Merscope._discover_files fs base in
  In base roots /\
  List.Forall (fun r => is_dir fs r = true) roots /\
  List.NoDup roots /\
  (is_dir fs ao = true ->
   hd_error roots = Some ao /\
   (exists_ fs (join ao "detected_transcripts.csv") = true ->
    Merscope.transcript found = Some (join ao "detected_transcripts.csv")) /\
   (exists_ fs (join ao "cell_metadata.csv") = true ->
    Merscope.cell_metadata found = Some (join ao "cell_metadata.csv")) /\
   (exists_ fs (join ao "cell_by_gene.csv") = true ->
    Merscope.expression found = Some (join ao "cell_by_gene.csv"))).
Proof.
  intros Hbase. cbv zeta.
  destruct (search_roots_ok fs base Hbase) as [(Hhd & Hdir & Hnd) Hin].
  cbv zeta in Hhd.
  split; [exact Hin|]. split; [exact Hdir|]. split; [exact Hnd|].
  intros Hao. rewrite Hao in Hhd. split; [exact Hhd|].
  unfold Merscope._discover_files.
  cbn [Merscope.transcript Merscope.cell_metadata Merscope.expression].
  repeat split; intros Hex; exact (merscope_pick_first fs _ _ _ _ _ _ Hhd Hex).
Qed.

(** ** Feature names of a ragged file *)

Lemma second_fields_all (rows : list (list string)) :
  List.Forall (fun r => 2 <= length r) rows ->
  fold_right (fun r acc => match nth_error r 1, acc with
                           | Some v, Some l => Some (v :: l)
                           | _, _ => None
                           end) (Some []) rows
  = Some (map (fun r => nth 1 r EmptyString) rows).
Proof.
  induction rows as [|r rows IH]; intros Hall; [reflexivity|].
  inversion Hall as [|? ? Hr Hrows]; subst. cbn [fold_right map].
  rewrite (IH Hrows). destruct r as [|a [|b r]]; cbn in Hr; try lia. reflexivity.
Qed.

Lemma second_fields_short (rows : list (list string)) :
  List.Exists (fun r => length r < 2) rows ->
  fold_right (fun r acc => match nth_error r 1, acc with
                           | Some v, Some l => Some (v :: l)
                           | _, _ => None
                           end) (Some []) rows
  = None.
Proof.
  induction rows as [|r rows IH]; intros Hex; [inversion Hex|].
  cbn [fold_right]. inversion Hex as [? ? Hr|? ? Hrows]; subst.
  - destruct r as [|a [|b r]]; cbn in Hr; try lia; reflexivity.
  - rewrite (IH Hrows). destruct (nth_error r 1); reflexivity.
Qed.

(** X17. The feature reader of Xenium and of Visium HD decides on the
    first row alone which column holds the names: when the first row of
    the file has two fields or more, the second field of every row is
    taken, and a later row with a single field makes the read fail with an
    index error rather than fall back to its first field; when the first
    row has a single field, the first field of every row is taken, also of
    rows that have a second one. Blank lines are passed over. *)
Theorem feature_names_follow_first_row `{Externals} (path : Path) (lines : list string)
  (r0 : list string) (rest : list (list string)) :
  read_lines path = Some lines ->
  tsv_rows lines = r0 :: rest ->
  (2 <= length r0 ->
   (List.Forall (fun r => 2 <= length r) rest ->
    Xenium._read_tsv_first_col path true
      = Ok (map (fun r => nth 1 r EmptyString) (r0 :: rest)) [] /\
    VisiumHD._read_tsv_first_col path true
      = Ok (map (fun r => nth 1 r EmptyString) (r0 :: rest)) []) /\
   (List.Exists (fun r => length r < 2) rest ->
    Xenium._read_tsv_first_col path true = Err IndexOutOfRange /\
    VisiumHD._read_tsv_first_col path true = Err IndexOutOfRange)) /\
  (length r0 < 2 ->
   Xenium._read_tsv_first_col path true = Ok (map (hd EmptyString) (r0 :: rest)) [] /\
   VisiumHD._read_tsv_first_col path true = Ok (map (hd EmptyString) (r0 :: rest)) []).
Proof.
  intros Hread Hrows.
  unfold Xenium._read_tsv_first_col, VisiumHD._read_tsv_first_col. rewrite Hread.
  cbn [or_raise bind ret]. fold (tsv_rows lines). rewrite Hrows. cbn [andb].
  split.
  - intros H0. apply Nat.leb_le in H0. rewrite H0. split.
    + intros Hrest. rewrite (second_fields_all (r0 :: rest)).
      * cbn. auto.
      * constructor; [apply Nat.leb_le; exact H0 | exact Hrest].
    + intros Hrest. rewrite (second_fields_short (r0 :: rest)).
      * cbn. auto.
      * apply List.Exists_cons_tl. exact Hrest.
  - intros H0. apply Nat.leb_gt in H0. rewrite H0. cbn. auto.
Qed.

(** ** Expression tables with the genes in the rows *)







(** ** File names with more than one dot *)

Lemma length_append (a b : string) :
  String.length (a ++ b) = String.length a + String.length b.
Proof.
  induction a as [|c a IH]; [reflexivity|].
  change (String.length (String c a ++ b)) with (S (String.length (a ++ b))).
  rewrite IH. reflexivity.
Qed.

Lemma eqb_length (a b : string) : String.eqb a b = true -> String.length a = String.length b.
Proof. intros Heq. apply String.eqb_eq in Heq. subst. reflexivity. Qed.

Lemma endswith_shorter (suf x e : string) :
  String.length suf < String.length e ->
  Text.endswith suf (x ++ e) = Text.endswith suf e.
Proof.
  intros Hlen. induction x as [|c x IH]; [reflexivity|].
  change (String c x ++ e) with (String c (x ++ e)).
  cbn [Text.endswith]. rewrite IH.
  destruct (String.eqb suf (String c (x ++ e))) eqn:Heq; [|reflexivity].
  apply eqb_length in Heq. cbn [String.length] in Heq. rewrite length_append in Heq. lia.
Qed.

Lemma from_first_dot_app (stem rest : string) :
  no_dot stem = true ->
  from_first_dot (stem ++ String "." rest) = String "." rest.
Proof.
  induction stem as [|c stem IH]; [reflexivity|].
  cbn [no_dot]. intros Hn. apply andb_true_iff in Hn as [Hc Hstem].
  change (String c stem ++ String "." rest) with (String c (stem ++ String "." rest)).
  cbn [from_first_dot]. apply negb_true_iff in Hc. rewrite Hc. exact (IH Hstem).
Qed.

Lemma lstrip_dots_stem (stem rest : string) :
  stem <> EmptyString -> no_dot stem = true ->
  lstrip_dots (stem ++ rest) = stem ++ rest.
Proof.
  destruct stem as [|c stem]; [congruence|]. intros _. cbn [no_dot]. intros Hn.
  apply andb_true_iff in Hn as [Hc _]. apply negb_true_iff, Ascii.eqb_neq in Hc.
  change (String c stem ++ rest) with (String c (stem ++ rest)).
  cbn [lstrip_dots].
  destruct c as [[] [] [] [] [] [] [] []]; try reflexivity. congruence.
Qed.

Lemma lower_tabular_ending (ext : string) : In ext tabular_endings -> Text.lower ext = ext.
Proof. intros [<-|[<-|[<-|[<-|[<-|[<-|[]]]]]]]; reflexivity. Qed.

(** No accepted ending is a dot, some text and an accepted ending. *)
Lemma inner_dot_not_ending (mid ext e : string) :
  In ext tabular_endings -> In e tabular_endings ->
  String "." (mid ++ ext) <> e.
Proof.
  intros Hext He Heq.
  assert (Hlen : S (String.length mid + String.length ext) = String.length e).
  { rewrite <- Heq. cbn [String.length]. rewrite length_append. reflexivity. }
  destruct Hext as [<-|[<-|[<-|[<-|[<-|[<-|[]]]]]]];
    destruct He as [<-|[<-|[<-|[<-|[<-|[<-|[]]]]]]];
    cbn [String.length] in Hlen; try lia;
    destruct mid as [|a [|b [|c mid]]]; cbn [String.length] in Hlen; try lia;
    inversion Heq.
Qed.

(** X19. A file whose name has a dot before its tabular ending is not
    taken as a table: for a name made of a non-empty stem without dots, a
    dot, any text and one of the endings .csv, .tsv, .txt, .csv.gz,
    .tsv.gz, .txt.gz (cells.v2.csv, say), [_is_tabular_file] answers no,
    since it compares all that follows the first dot of the name, and the
    detector raises its unsupported-file error on such a file. *)
Theorem dotted_file_name_is_refused (fs : node) (b : Path) (stem mid ext : string) :
  stem <> EmptyString ->
  no_dot stem = true ->
  In ext tabular_endings ->
  let p := join b (stem ++ "." ++ mid ++ ext) in
  Universal._is_tabular_file p = false /\
  (is_file fs p = true ->
   Universal.detect_spatial_format fs p = Err (UnsupportedFile (name p))).
Proof.
  intros Hne Hstem Hext p.
  assert (Htab : Universal._is_tabular_file p = false).
  { unfold Universal._is_tabular_file, suffixes_lower, p. rewrite name_join.
    assert (Hdot : Text.endswith "." (stem ++ "." ++ mid ++ ext) = false).
    { replace (stem ++ "." ++ mid ++ ext) with ((stem ++ "." ++ mid) ++ ext)
        by (rewrite !append_assoc; reflexivity).
      destruct Hext as [<-|[<-|[<-|[<-|[<-|[<-|[]]]]]]];
        (rewrite endswith_shorter by (cbn; lia)); reflexivity. }
    rewrite Hdot.
    rewrite (lstrip_dots_stem stem _ Hne Hstem).
    change ("." ++ mid ++ ext) with (String "." (mid ++ ext)).
    rewrite (from_first_dot_app stem _ Hstem).
    change (Text.lower (String "." (mid ++ ext)))
      with (String "." (Text.lower (mid ++ ext))).
    rewrite lower_app, (lower_tabular_ending ext Hext).
    apply not_true_is_false. intros Hmem. apply mem_iff in Hmem.
    exact (inner_dot_not_ending (Text.lower mid) ext _ Hext Hmem eq_refl). }
  split; [exact Htab|].
  intros Hfile. unfold Universal.detect_spatial_format. fold p. rewrite Hfile, Htab.
  reflexivity.
Qed.

(** The name cells.v2.csv. *)
Lemma dotted_file_name_is_refused_witness :
  Universal._is_tabular_file ["data"; "cells.v2.csv"] = false.
Proof.
  apply (dotted_file_name_is_refused (Dir []) ["data"] "cells" "v2" ".csv").
  - discriminate.
  - reflexivity.
  - left. reflexivity.
Defined.

(** ** The dense fallback of the Xenium H5 loader *)








(** ** More of the properties on the concrete world *)

(** The MERSCOPE run of the concrete world has no cell metadata file: the
    parser says so. *)
Lemma absent_roles_are_reported_witness :
  exists ds log,
    @Merscope.parse_merscope Examples.world Examples.tree ["run"] = Ok ds log /\
    In (RoleFileNotFound merscope "cell metadata file") log.
Proof.
  eexists _, _.
  eassert (Hp : @Merscope.parse_merscope Examples.world Examples.tree ["run"] = Ok _ _)
    by (vm_compute; reflexivity).
  split; [exact Hp|].
  apply (@absent_roles_are_reported Examples.world Examples.tree
           (@merscope_parser Examples.world Examples.tree) ["run"] _ _ "cell metadata file"
           (or_intror (or_introl eq_refl)) Hp).
  right. left. reflexivity.
Defined.

(** The MERSCOPE export of the concrete world: the transcripts of
    [analysis_outputs/] are picked, not those next to it. *)
Lemma merscope_prefers_analysis_outputs_witness :
  Merscope.transcript (Merscope._discover_files Examples.tree ["vizgen"])
    = Some ["vizgen"; "analysis_outputs"; "detected_transcripts.csv"] /\
  Merscope.search_roots Examples.tree ["vizgen"]
    = [["vizgen"; "analysis_outputs"]; ["vizgen"]; ["vizgen"; "region_0"]].
Proof.
  destruct (merscope_prefers_analysis_outputs Examples.tree ["vizgen"] eq_refl)
    as (_ & _ & _ & Hao).
  destruct (Hao eq_refl) as (_ & Ht & _).
  split; [exact (Ht eq_refl) | reflexivity].
Defined.

(** The feature file of the concrete MEX directory, whose second row has no
    name: the readers of Xenium and Visium HD fail on it. *)
Lemma feature_names_follow_first_row_witness :
  @Xenium._read_tsv_first_col Examples.world ["mex"; "features.tsv"] true
    = Err IndexOutOfRange /\
  @VisiumHD._read_tsv_first_col Examples.world ["mex"; "features.tsv"] true
    = Err IndexOutOfRange.
Proof.
  destruct (@feature_names_follow_first_row Examples.world ["mex"; "features.tsv"]
              _ ["ENSG1"; "A"] [["ENSG2"]] eq_refl eq_refl) as [Hlong _].
  destruct (Hlong (le_n 2)) as [_ Hshort].
  apply Hshort. apply List.Exists_cons_hd. cbn. lia.
Defined.



(** ** The values the dense Matrix Market reader stores *)



(** ** Cell tables *)






(** ** Transcript tables *)




(** ** Runs on the concrete worlds *)




